(* ===== verification/_CoqProject ===== *)
-Q . S2P
Prelude.v
Text.v
Persona.v
Providers.v
Bot.v
Pipeline.v
Worker.v
Recorder.v
Speech.v
Spinner.v
Session.v
Files.v
Page.v
Config.v
