(* ===== verification/Prelude.v ===== *)
(** * ASRSpeech: a verification development of the mAsK voice chat bot

    The repository has two Python front ends over hosted services
    (speech-to-text, chat completion, text-to-speech):

    - [src/app.py]: the terminal bot, class [VoiceChatBot].  [run] shows a
      menu.  [text_chat_mode] and [voice_chat_mode] are two mutually
      recursive input loops.  [record_audio] starts a capture thread that
      polls the shared flag [self.recording].  [text_to_speech] starts a
      spinner thread that polls [self.loading].  It then streams the
      synthesised PCM into an [aplay] process.  [generate_response] and
      [transcribe_audio] wrap the providers and turn exceptions into
      [None].
    - [src/app_elevenlabs.py]: the Streamlit page.  The whole script
      re-runs on every interaction, and [st.session_state] keeps the two
      history lists across re-runs.

    The files of the development, in dependency order:

    - [Prelude] (this file): the Python-style state and exception monad
      [PyM] and its notation (scope [asr_scope]).  Also the preservation,
      monotonicity and no-fuel-exhaustion combinators that carry the
      invariant proofs, the hint database [asr], the tactics
      [py_decompose] and [py_simpl], and generic list lemmas.
    - [Text]: ASCII models of [str.lower], [str.strip] and Python string
      truthiness.
    - [Persona]: the two [SYSTEM_PROMPT]s, written out verbatim, and the
      chat request that [generate_response] builds.
    - [Providers]: the interface of the hosted services, as a
      [Class Providers] of functions from a request to an outcome.  Also
      the request records the code sends, the messages the bot prints and
      the events of the trace.
    - [Bot]: the state of [VoiceChatBot] (its attributes) and of the
      world around it: stdin, the event trace, the file system as a
      [gmap], the microphone and the environment.  Also the primitive
      operations ([input], [print], [os.remove], writing a WAV file) and
      the preorder [evolves] (the trace only grows, stdin only shrinks).
      Also the configuration of lines 16-20 ([load_env]): the keys, and
      the OpenAI client, whose constructor raises [OpenAIError] when
      [OPENAI_API_KEY] is unset.
    - [Pipeline]: [generate_response] and [transcribe_audio] of app.py.
    - [Worker]: a generic flag-polling worker thread ([while flag: body])
      joined by a foreground thread.  It is a step relation, with the
      theorems that hold for every body: the work done after the flag is
      cleared is bounded, every run from a state with the flag cleared is
      finite ([Acc] of the step relation, by a decreasing measure), the
      worker has finished once the join returns, and a worker whose flag
      is never cleared never finishes.  Which way the foreground leaves
      its blocking call on an exception is the code's, not the model's:
      each instance declares it by an [AbortExit] instance on its data
      (the recorder keeps the flag set, the spinner clears it), and the
      reachable states take only that exit ([reachable_exit]).
    - [Recorder]: [record_audio] as an interleaving of the capture thread
      and the foreground, an instance of [Worker].  It includes the
      S16_LE encoding of samples and the byte length of a recording.  A
      refinement theorem relates it to the sequential recording
      ([join_capture], driven by the timing oracle [w_takes]) that
      [Session] uses.
    - [Speech]: [text_to_speech] with [stream_and_play] (app.py), and
      [text_to_speech_elevenlabs] (app_elevenlabs.py).
    - [Spinner]: the [loading_spinner] thread of [text_to_speech] and its
      foreground, the second instance of [Worker].
    - [Session]: the turns and loops of [VoiceChatBot]: [text_chat_mode],
      [voice_chat_mode] and [run] are fuelled fixpoints over the world,
      one fuel unit per loop iteration.  [main] is the execution of the
      script: the module-level [import pyaudio], [load_env], then the
      [__main__] block.  A generic section shows that a predicate on the
      world preserved by every primitive and every event a session emits
      is preserved by [run]; its instance [TraceEvents] covers the event
      trace.
    - [Files]: the well-formedness of the WAV files the bot writes, as an
      instance of that section, and the round trip from the microphone
      samples through the file [record_audio] writes back to samples.
    - [Page]: the Streamlit script of app_elevenlabs.py as one pure
      function per run ([page_run]): the state is [st.session_state], and
      the inputs are the widget values of that run.  [interact] adds the
      run that [st.rerun()] starts.
    - [Config]: the configuration of the Streamlit page read from the
      process environment ([page_config_of], app_elevenlabs.py 15-20), and
      what becomes of unset credentials in app.py.

    What the theorems show (grouped as in the manifest):
    - the terminal pipeline: a failed transcription is never followed by
      a chat call, and a failed chat call never by a synthesis call.  A
      successful voice turn performs exactly record, transcribe, chat,
      speak and remove, in this order.  Every chat request is the fixed
      persona followed by the single user message.
    - resources: the temporary recording is removed after every voice turn
      that got its stop line.  An EOF while recording raises out of
      [record_audio] with [self.recording] set, and from then on the
      capture thread runs for ever.
    - termination: with more fuel than stdin lines, [run] never exhausts
      its fuel.  It ends normally or with [EOFError].
    - the capture thread: no read happens on a closed stream.  At most one
      frame is appended after the flag is cleared, and such a frame is
      possible.  The frames are stable once the join returns.  The final
      frames are the first [n] chunks of the device stream, for every [n].
      A recording is a whole number of 2048-byte chunks.  Once the flag is
      cleared and the foreground joins, every run of the two threads is
      finite and one ends with the stream closed.  The [except] path of
      [text_to_speech] clears [self.loading] and never joins the spinner,
      which still stops: every run ends after at most one more character.
    - files: every file in the file system stays a well-formed WAV file
      of the bot's format, and the file [record_audio] writes decodes to
      the samples the microphone delivered, in order.
    - command handling: the [quit] and [voice]/[text] tokens leave or
      switch a mode without a provider call.  An invalid menu choice
      re-prompts.  Blank text input calls nothing.  In no environment and
      on no input does the script print the install hint of its
      [except ImportError] branch.
    - errors the code does not handle: an input device that cannot be
      opened ends the whole session.  Unset credentials are not reported:
      without [OPENAI_API_KEY] the client constructor raises before any
      output, and an unset [DEEPGRAM_API_KEY] is sent as ["Token None"].
    - speech: a non-200 status plays nothing and raises nothing.  The
      bytes written to [aplay] are the concatenation of the streamed
      chunks.  The ElevenLabs variant returns [True] exactly on status 200
      with a non-empty body, and sends nothing without a voice id.
    - the Streamlit page: without the clear button both histories only
      grow at their end.  A text turn appends the user message and the
      reply.  Failed transcription or chat stops the voice pipeline.  Any
      reply, even empty, is spoken and stored.  The last three
      conversations are shown under their positions.  Every chat request
      is single-turn.  Clearing is undone by a recording the recorder
      still holds.

    What the modelling found (the findings of the manifest):
    - app.py prints [openai.api_key] on a chat error.
    - An EOF during recording leaves a non-daemon capture thread looping.
    - A frame can be appended after the stop.
    - The spinner is not joined when [requests.post] raises.  It still
      stops, because the flag is cleared.
    - The [except ImportError] of [__main__] is dead code.
    - An [OSError] from [self.audio.open] is caught nowhere.
    - Missing credentials are not reported at start-up (an uncaught
      [OpenAIError], or ["Token None"]).
    - [aplay] is not closed on a stream error.
    - No recording has the 2-second length of the spec.
    - The Streamlit page never detects an empty reply.
    - The Clear button breaks the append-only history.

    Fuel: each loop iteration of [run], [text_chat_mode] and
    [voice_chat_mode] consumes one stdin line before it recurses.  So fuel
    greater than the number of stdin lines is enough (theorem
    [Session.run_enough_fuel]).  The Streamlit model needs no fuel: a run
    is a finite computation, and the run [st.rerun()] starts has the
    button unset, so it does not rerun again.

    Not modelled:
    - the provider services themselves, which are functions of the
      [Providers] and [Whisper] classes;
    - PortAudio and [aplay] beyond the byte streams they exchange;
    - the WAV header bytes written by Python's [wave] module, which are
      kept as the record of the parameters the code sets;
    - the static Streamlit texts, the spinners and the terminal rendering
      beyond the message kinds;
    - [load_dotenv] (the python-dotenv library): the model starts from
      the environment after it ran.  Of the client constructors only the
      failure on a missing OpenAI key is modelled; the other imports have
      no state the bot reads;
    - on the Streamlit page, an unset [ELEVENLABS_API_KEY] is taken as
      the empty string.  Both are falsy, but Python sends [None] as no
      header at all;
    - the text the spinner writes around its character, and its final
      carriage return;
    - the headers and parameters [requests] adds itself, and the timeout
      of the ElevenLabs call (an outcome of the [Providers] class);
    - non-ASCII text: [str.lower] and [str.strip] are modelled on ASCII
      (its letters, and the ASCII characters Python counts as whitespace).

    Plan for later work: the spinner's output interleaved with the
    foreground's prints (one spinner frame can follow the error message
    of the [except] path). *)

From stdpp Require Import base list strings.

Declare Scope asr_scope.
Delimit Scope asr_scope with asr.
Open Scope asr_scope.

(** ** Python exceptions that escape a handler *)

Inductive exn :=
| EOFError
| FileNotFoundError (path : string)
| APIError  (** any exception raised inside a provider client call *)
| ImportError (module : string)  (** [import] of a module that is not installed *)
| SystemExit (code : nat)  (** [exit(code)] *)
| OSError (what : string)  (** a device that PortAudio cannot open *)
| OpenAIError  (** [openai.OpenAI()] finds no API key *).

#[export] Instance exn_eq_dec : EqDecision exn.
Proof. solve_decision. Defined.

(** ** Outcomes and the state/exception monad *)

Inductive outcome (A : Type) :=
| Ok (a : A)
| Raise (e : exn)
| OutOfFuel.
Arguments Ok {A} a.
Arguments Raise {A} e.
Arguments OutOfFuel {A}.

Definition PyM (S A : Type) : Type := S -> outcome A * S.

Section Monad.
Context {S : Type}.

Definition pret {A} (a : A) : PyM S A := fun s => (Ok a, s).

Definition pbind {A B} (c : PyM S A) (k : A -> PyM S B) : PyM S B :=
  fun s =>
    match c s with
    | (Ok a, s') => k a s'
    | (Raise e, s') => (Raise e, s')
    | (OutOfFuel, s') => (OutOfFuel, s')
    end.

Definition praise {A} (e : exn) : PyM S A := fun s => (Raise e, s).

Definition pfuel {A} : PyM S A := fun s => (OutOfFuel, s).

Definition pget : PyM S S := fun s => (Ok s, s).

Definition pmodify (f : S -> S) : PyM S unit := fun s => (Ok tt, f s).

(** [try: c except e: h e] *)
Definition ptry {A} (c : PyM S A) (h : exn -> PyM S A) : PyM S A :=
  fun s =>
    match c s with
    | (Raise e, s') => h e s'
    | r => r
    end.
End Monad.

Notation "x <- c1 ;; c2" := (pbind c1 (fun x => c2))
  (at level 100, c1 at next level, right associativity) : asr_scope.
Notation "c1 ;; c2" := (pbind c1 (fun _ : unit => c2))
  (at level 100, right associativity) : asr_scope.

(** ** Invariants of monadic computations

    [preserves P c]: every run of [c] from a state satisfying [P] ends in a
    state satisfying [P], whatever the outcome.  [moves R c]: the final
    state of every run is [R]-related to the initial one; with [R] a
    preorder (the trace only grows, stdin only shrinks) it composes along
    [pbind].  [no_fuel_out P c]: from a state satisfying [P] the run does
    not exhaust its fuel. *)

Section Predicates.
Context {S : Type}.

Definition preserves {A} (P : S -> Prop) (c : PyM S A) : Prop :=
  forall s, P s -> P (snd (c s)).

Definition moves {A} (R : relation S) (c : PyM S A) : Prop :=
  forall s, R s (snd (c s)).

(** [c] never exhausts its fuel: it contains no fuelled loop, or every
    loop it runs has enough fuel. *)
Definition no_fuel_out {A} (c : PyM S A) : Prop := forall s, fst (c s) <> OutOfFuel.
End Predicates.

(** Python truthiness of a sequence ([bytes], [list], [str] as a list). *)
Definition is_nonempty {A} (l : list A) : bool :=
  match l with [] => false | _ :: _ => true end.

Create HintDb asr.

Section Props.
Context {S : Type}.
Implicit Types P : S -> Prop.

Lemma preserves_ret {A} P (a : A) : preserves P (pret a).
Proof. intros s Hs. exact Hs. Qed.

Lemma preserves_raise {A} P e : preserves P (@praise S A e).
Proof. intros s Hs. exact Hs. Qed.

Lemma preserves_fuel {A} P : preserves P (@pfuel S A).
Proof. intros s Hs. exact Hs. Qed.

Lemma preserves_bind {A B} P (c : PyM S A) (k : A -> PyM S B) :
  preserves P c -> (forall a, preserves P (k a)) -> preserves P (pbind c k).
Proof.
  intros Hc Hk s Hs. unfold pbind.
  specialize (Hc s Hs). destruct (c s) as [[a| |] s']; simpl in *; auto.
  apply Hk. exact Hc.
Qed.

Lemma preserves_try {A} P (c : PyM S A) (h : exn -> PyM S A) :
  preserves P c -> (forall e, preserves P (h e)) -> preserves P (ptry c h).
Proof.
  intros Hc Hh s Hs. unfold ptry.
  specialize (Hc s Hs). destruct (c s) as [[a|e|] s']; simpl in *; auto.
  apply Hh. exact Hc.
Qed.

Lemma preserves_modify P f : (forall s, P s -> P (f s)) -> preserves P (pmodify f).
Proof. intros Hf s Hs. apply Hf. exact Hs. Qed.

Lemma preserves_get P : preserves P pget.
Proof. intros s Hs. exact Hs. Qed.


Context (R : relation S) `{!PreOrder R}.

Lemma moves_ret {A} (a : A) : moves R (pret a).
Proof. intros s. simpl. reflexivity. Qed.

Lemma moves_raise {A} e : moves R (@praise S A e).
Proof. intros s. simpl. reflexivity. Qed.

Lemma moves_fuel {A} : moves R (@pfuel S A).
Proof. intros s. simpl. reflexivity. Qed.

Lemma moves_get : moves R pget.
Proof. intros s. simpl. reflexivity. Qed.

Lemma moves_bind {A B} (c : PyM S A) (k : A -> PyM S B) :
  moves R c -> (forall a, moves R (k a)) -> moves R (pbind c k).
Proof.
  intros Hc Hk s. unfold pbind.
  specialize (Hc s). destruct (c s) as [[a| |] s']; simpl in *; auto.
  etrans; [exact Hc | apply Hk].
Qed.

Lemma moves_try {A} (c : PyM S A) (h : exn -> PyM S A) :
  moves R c -> (forall e, moves R (h e)) -> moves R (ptry c h).
Proof.
  intros Hc Hh s. unfold ptry.
  specialize (Hc s). destruct (c s) as [[a|e|] s']; simpl in *; auto.
  etrans; [exact Hc | apply Hh].
Qed.

Lemma moves_modify f : (forall s, R s (f s)) -> moves R (pmodify f).
Proof. intros Hf s. apply Hf. Qed.
End Props.

Section NoFuel.
Context {S : Type}.


Lemma no_fuel_out_ret {A} (a : A) : no_fuel_out (@pret S A a).
Proof. intros s. discriminate. Qed.

Lemma no_fuel_out_raise {A} e : no_fuel_out (@praise S A e).
Proof. intros s. discriminate. Qed.

Lemma no_fuel_out_get : no_fuel_out (@pget S).
Proof. intros s. discriminate. Qed.

Lemma no_fuel_out_modify f : no_fuel_out (@pmodify S f).
Proof. intros s. discriminate. Qed.

Lemma no_fuel_out_bind {A B} (c : PyM S A) (k : A -> PyM S B) :
  no_fuel_out c -> (forall a, no_fuel_out (k a)) -> no_fuel_out (pbind c k).
Proof.
  intros Hc Hk s. unfold pbind. specialize (Hc s).
  destruct (c s) as [[a|e|] s']; simpl in *; [apply Hk | discriminate | done].
Qed.

Lemma no_fuel_out_try {A} (c : PyM S A) (h : exn -> PyM S A) :
  no_fuel_out c -> (forall e, no_fuel_out (h e)) -> no_fuel_out (ptry c h).
Proof.
  intros Hc Hh s. unfold ptry. specialize (Hc s).
  destruct (c s) as [[a|e|] s']; simpl in *; [done | apply Hh | done].
Qed.
End NoFuel.

#[export] Hint Resolve no_fuel_out_ret no_fuel_out_raise no_fuel_out_get
  no_fuel_out_modify : asr.

(** Decompose a goal [preserves], [moves] or [no_fuel_out] of a
    composite computation into goals on its primitives. *)
Ltac py_decompose :=
  cbv zeta;
  repeat match goal with
  | |- preserves _ (pbind _ _) => apply preserves_bind; [|intros ?]
  | |- preserves _ (ptry _ _) => apply preserves_try; [|intros ?]
  | |- moves _ (pbind _ _) => apply moves_bind; [typeclasses eauto | |intros ?]
  | |- moves _ (ptry _ _) => apply moves_try; [typeclasses eauto | |intros ?]
  | |- no_fuel_out (pbind _ _) => apply no_fuel_out_bind; [|intros ?]
  | |- no_fuel_out (ptry _ _) => apply no_fuel_out_try; [|intros ?]
  | |- _ (if ?b then _ else _) => destruct b
  | |- _ (match ?x with _ => _ end) => destruct x
  end.

#[export] Hint Resolve preserves_ret preserves_raise preserves_fuel preserves_bind
  preserves_try preserves_get : asr.
#[export] Hint Resolve moves_ret moves_raise moves_fuel moves_get moves_bind
  moves_try : asr.

Lemma pbind_ok {S A B} (c : PyM S A) (k : A -> PyM S B) s a s' :
  c s = (Ok a, s') -> pbind c k s = k a s'.
Proof. intros E. unfold pbind. rewrite E. done. Qed.

Lemma pbind_raise {S A B} (c : PyM S A) (k : A -> PyM S B) s e s' :
  c s = (Raise e, s') -> pbind c k s = (Raise e, s').
Proof. intros E. unfold pbind. rewrite E. done. Qed.

(** Unfold the monad on a concrete or partly symbolic run. *)
Ltac py_simpl :=
  cbv [pbind pret praise pfuel pget pmodify ptry] in *; simpl in *.

(** ** Generic list lemmas *)


(** Dropping the empty pieces does not change a concatenation
    ([if chunk:] in a streaming loop). *)
Lemma concat_filter_nonempty {A} (ls : list (list A)) :
  concat (List.filter is_nonempty ls) = concat ls.
Proof. induction ls as [|[|x l] ls IH]; simpl; rewrite ?IH; done. Qed.

(** Concatenating pieces of one length [k]. *)
Lemma length_concat_uniform {A} (ls : list (list A)) k :
  Forall (fun l => length l = k) ls -> length (concat ls) = length ls * k.
Proof. induction 1 as [|l ls Hl _ IH]; simpl; [done|]. rewrite length_app, Hl, IH. lia. Qed.

(** [flat_map] of a function whose images all have length [k]. *)
Lemma length_flat_map_uniform {A B} (f : A -> list B) (l : list A) k :
  (forall x, length (f x) = k) -> length (flat_map f l) = length l * k.
Proof. intros Hf. induction l as [|x l IH]; simpl; [done|]. rewrite length_app, Hf, IH. lia. Qed.

(** [flat_map] of a function whose images all satisfy [P] pointwise. *)
Lemma Forall_flat_map {A B} (P : B -> Prop) (f : A -> list B) (l : list A) :
  (forall x, Forall P (f x)) -> Forall P (flat_map f l).
Proof. intros Hf. induction l as [|x l IH]; simpl; [constructor|]. apply Forall_app. auto. Qed.

(** [flat_map] over [seq]: the offset can move into the range. *)
Lemma flat_map_seq_shift {B} (f : nat -> list B) p k :
  flat_map (fun i => f (p + i)) (seq 0 k) = flat_map f (seq p k).
Proof.
  induction k as [|k IH]; [done|].
  rewrite !seq_S, !flat_map_app, IH. simpl. done.
Qed.
