(* ===== verification/Text.v ===== *)
(** * Text: the string operations the command loops use

    [str.lower], [str.strip] and the truthiness of a [str], on ASCII
    strings.  [text_chat_mode] and [voice_chat_mode] (src/app.py) compare
    [user_input.lower()] with the tokens ['quit'], ['voice'] and ['text'].
    They test [user_input.strip()] for truthiness before they call the chat
    provider. *)

From stdpp Require Import base list strings.
From Stdlib Require Import Ascii String.
From S2P Require Import Prelude.

Local Open Scope string_scope.

(** ** [str.lower] on ASCII *)

Definition lower_ascii (c : ascii) : ascii :=
  let n := nat_of_ascii c in
  if (65 <=? n)%nat && (n <=? 90)%nat then ascii_of_nat (n + 32) else c.

Fixpoint lower (s : string) : string :=
  match s with
  | EmptyString => EmptyString
  | String c s' => String (lower_ascii c) (lower s')
  end.

(** ** [str.isspace] and [str.strip] on ASCII

    On the ASCII range Python's whitespace is tab, newline, vertical tab,
    form feed, carriage return, the four separators 0x1c to 0x1f, and
    space. *)

Definition py_isspace (c : ascii) : bool :=
  let n := nat_of_ascii c in
  ((9 <=? n)%nat && (n <=? 13)%nat) || ((28 <=? n)%nat && (n <=? 32)%nat).

Fixpoint lstrip (s : string) : string :=
  match s with
  | EmptyString => EmptyString
  | String c s' => if py_isspace c then lstrip s' else s
  end.

Fixpoint rstrip (s : string) : string :=
  match s with
  | EmptyString => EmptyString
  | String c s' =>
      let r := rstrip s' in
      if py_isspace c && String.eqb r EmptyString then EmptyString else String c r
  end.

Definition strip (s : string) : string := rstrip (lstrip s).

(** Truthiness of a [str]: non-empty. *)
Definition str_truthy (s : string) : bool := negb (String.eqb s EmptyString).

(** Truthiness of [str | None]. *)
Definition opt_str_truthy (o : option string) : bool :=
  match o with Some s => str_truthy s | None => false end.

(** Every character of [s] is whitespace. *)
Fixpoint all_space (s : string) : bool :=
  match s with
  | EmptyString => true
  | String c s' => py_isspace c && all_space s'
  end.

(** ** Lemmas *)

Lemma rstrip_empty_iff s : rstrip s = EmptyString <-> all_space s = true.
Proof.
  induction s as [|c s IH]; cbn [rstrip all_space]; [done|].
  destruct (py_isspace c); cbn [andb].
  - destruct (String.eqb_spec (rstrip s) EmptyString) as [E|E].
    + split; [intros _; apply IH, E | done].
    + split; [discriminate | intros H; exfalso; apply E, IH, H].
  - split; discriminate.
Qed.

Lemma lstrip_all_space s : all_space (lstrip s) = all_space s.
Proof.
  induction s as [|c s IH]; simpl; [done|].
  destruct (py_isspace c) eqn:Hc; simpl; rewrite ?Hc; [exact IH | done].
Qed.

(** [s.strip()] is falsy exactly when [s] is whitespace only. *)
Lemma strip_falsy_iff s : str_truthy (strip s) = false <-> all_space s = true.
Proof.
  unfold str_truthy, strip.
  rewrite negb_false_iff, String.eqb_eq, rstrip_empty_iff, lstrip_all_space.
  done.
Qed.

(** Lowering keeps whitespace. *)
Lemma all_space_lower s : all_space s = true -> all_space (lower s) = true.
Proof.
  induction s as [|c s IH]; simpl; [done|].
  intros [Hc Hs]%andb_prop. rewrite IH by done. rewrite andb_true_r.
  unfold lower_ascii, py_isspace in *.
  destruct ((65 <=? nat_of_ascii c)%nat && (nat_of_ascii c <=? 90)%nat) eqn:E; [|done].
  exfalso. apply andb_prop in E as [E1 E2]. apply Nat.leb_le in E1, E2.
  apply orb_prop in Hc as [H|H]; apply andb_prop in H as [H1 H2];
    apply Nat.leb_le in H1, H2; lia.
Qed.

Example lower_QuIt : lower "QuIt" = "quit".
Proof. reflexivity. Qed.

Example strip_blank : strip (String (ascii_of_nat 9) "  ") = EmptyString.
Proof. reflexivity. Qed.

Example strip_word : strip "  hi there " = "hi there".
Proof. reflexivity. Qed.
