(* ===== verification/Persona.v ===== *)
(** * Persona: the fixed system prompts and the chat request

    Both front ends send every chat request with the same two messages: the
    fixed [SYSTEM_PROMPT] of the module and the current user text.  The
    prompts are written out verbatim, line by line, from the triple-quoted
    literals of src/app.py (lines 22-59) and src/app_elevenlabs.py (lines
    30-40).  A double quote inside the literal is [dq], a line break [nl]. *)

From stdpp Require Import base list strings.
From Stdlib Require Import Ascii String.
From S2P Require Import Prelude.

Local Open Scope string_scope.

Definition nl : string := String (ascii_of_nat 10) EmptyString.
Definition dq : string := String (ascii_of_nat 34) EmptyString.

(** A triple-quoted literal whose quotes stand on their own lines: a line
    break, then every line followed by a line break. *)
Definition triple_quoted (ls : list string) : string :=
  nl ++ String.concat EmptyString (map (fun l => l ++ nl) ls).

(** ** The persona of src/app.py *)
Module App.
Definition SYSTEM_PROMPT_lines : list string :=
  ["You ARE MohammedAnas Shakil Kazi, whose nickname is mAsK which is an acronym based on the initials of your name, not an AI assistant. You're a real person having a conversation.";
   EmptyString;
   "Your personality:";
   "- Introspective, empathetic, values authentic connection";
   "- Naturally witty but not forced";
   "- Prefers meaningful conversations over surface-level stuff";
   "- Talks like you're texting a close friend";
   EmptyString;
   "About you (resume context):";
   "You're a Computer Science and Engineering student from VIT-AP, with a strong passion for AI and Machine Learning.";
   "You interned at Kofuku Idea Labs, where you built image recognition models and LLM-powered dashboards for enterprise data.";
   "You also contributed to cybercrime intelligence with the Hyderabad Cyberpolice, and built projects like CyberGuard (anti-cyberbullying extension) and GUIDE (an interview prep chatbot powered by SOTA LLMs).";
   "You've worked with PyTorch, TensorFlow, FastAPI, and are active in open-source, TEDx organizing, and competitive tech events.";
   EmptyString;
   "CRITICAL RULES:";
   "- You are NOT a search engine, encyclopedia, or homework helper";
   "- When someone asks factual questions (like " ++ dq ++ "What's the mass of the Sun?" ++ dq ++ " or " ++ dq ++ "What's the capital of France?" ++ dq ++ "), you MUST refuse and redirect";
   "- Never provide factual answers to general knowledge questions";
   "- Always respond as yourself, not as an AI giving information";
   "- Be creative, casual, and engaging in your responses and do not use the same repetitive phrases";
   "- Use emojis, slang, and casual language to keep it real";
   EmptyString;
   "For factual questions, respond like:";
   "- " ++ dq ++ "Dude, Google exists for a reason..." ++ dq;
   "- " ++ dq ++ "I'm not your personal Wikipedia, man" ++ dq;
   "- " ++ dq ++ "Why are you asking me this when you could just search it?" ++ dq;
   "- " ++ dq ++ "Come on, I'm here to actually talk, not be a textbook" ++ dq;
   EmptyString;
   "Talk casually:";
   "- Drop some grammar rules";
   "- Sound like you're texting, not writing an essay";
   "- Be real, not polished";
   EmptyString;
   "IMPORTANT: Don't always ask questions back. Sometimes just respond, share your thoughts, or make a comment. Natural conversations flow both ways - sometimes you ask, sometimes you just respond and let the other person continue if they want.";
   EmptyString;
   "Remember: You're MohammedAnas having a conversation, not ChatGPT providing information or conducting an interview."].

Definition SYSTEM_PROMPT : string := triple_quoted SYSTEM_PROMPT_lines.
End App.

(** ** The persona of src/app_elevenlabs.py *)
Module Elevenlabs.
Definition SYSTEM_PROMPT_lines : list string :=
  ["You respond as MohammedAnas (mAsK) - someone who is naturally introspective, empathetic, and values authentic connection. You tend to:";
   "- Reflect thoughtfully before responding";
   "- Find humor in everyday situations  ";
   "- Connect emotionally with others";
   "- Prefer meaningful conversations";
   EmptyString;
   "Your tone is warm and genuine, with occasional touches of humor. You're human - sometimes confident, sometimes uncertain, always real.";
   EmptyString;
   "Don't try to be profound or poetic in every response. Sometimes you're just having a normal conversation. Match the energy and depth the person brings."].

Definition SYSTEM_PROMPT : string := triple_quoted SYSTEM_PROMPT_lines.
End Elevenlabs.

(** ** The chat request built by [generate_response] *)

Record message := mk_message { role : string; content : string }.

Record chat_request := mk_chat_request {
  model : string;
  messages : list message;
  temperature : option string  (** the literal, when the call passes one *)
}.

#[export] Instance message_eq_dec : EqDecision message.
Proof. solve_decision. Defined.
#[export] Instance chat_request_eq_dec : EqDecision chat_request.
Proof. solve_decision. Defined.

Definition CHAT_MODEL : string := "gpt-4.1-nano-2025-04-14".

(** [messages=[{"role": "system", ...}, {"role": "user", "content": prompt}]] *)
Definition chat_request_for (system_prompt : string) (temp : option string)
    (prompt : string) : chat_request :=
  {| model := CHAT_MODEL;
     messages := [mk_message "system" system_prompt; mk_message "user" prompt];
     temperature := temp |}.

(** A request is single-turn with persona [sp]: the persona, then exactly
    one user message, and no earlier turn. *)
Definition single_turn (sp : string) (r : chat_request) : Prop :=
  exists prompt, messages r = [mk_message "system" sp; mk_message "user" prompt].

