(* ===== verification/Providers.v ===== *)
(** * Providers: the hosted services, the devices and the observable events

    The three services are outside the repository.  The code only sends a
    request and reads the answer, so each one is a function from the
    request the code builds to the outcome the code can observe.  Together
    they form the class [Providers].  The terminal bot's effects on the
    world (printing, provider calls, the audio devices, files) are recorded
    as [event]s, in the order the code performs them. *)

From stdpp Require Import base list strings.
From Stdlib Require Import ZArith String QArith_base.
From S2P Require Import Prelude Persona.

Local Open Scope string_scope.

(** Bytes are 8-bit values kept as [Z]. *)
Abbreviation bytes := (list Z).

(** ** Files written by [wave.open(filename, 'wb')]

    The parameters the code sets and the frames it writes.  The header
    bytes the [wave] module derives from them are not modelled. *)
Record wav_file := mk_wav {
  nchannels : nat;
  sampwidth : nat;
  framerate : Z;
  wav_data : bytes
}.

#[export] Instance wav_file_eq_dec : EqDecision wav_file.
Proof. solve_decision. Defined.

(** ** The Deepgram speak call of [text_to_speech] (src/app.py 126-142) *)
Record speak_request := mk_speak_request {
  sp_url : string;
  sp_model : string;
  sp_encoding : string;
  sp_sample_rate : Z;
  sp_authorization : string;
  sp_content_type : string;
  sp_text : string
}.

#[export] Instance speak_request_eq_dec : EqDecision speak_request.
Proof. solve_decision. Defined.

(** A streamed HTTP response: the status and the chunks [iter_content]
    yields.  With [sr_broken] the iteration raises after the last listed
    chunk (the connection dropped). *)
Record speak_response := mk_speak_response {
  sr_status : Z;
  sr_chunks : list bytes;
  sr_broken : bool
}.

(** ** The ElevenLabs call of [text_to_speech_elevenlabs]
    (src/app_elevenlabs.py 86-105) *)
Record el_request := mk_el_request {
  el_url : string;
  el_accept : string;
  el_content_type : string;
  el_api_key : string;
  el_text : option string;  (** [None] is JSON [null] *)
  el_model_id : string;
  el_stability : Q;
  el_similarity_boost : Q
}.

(** Structural equality of the voice settings (not [Qeq]). *)
#[export] Instance Q_struct_eq_dec : EqDecision Q.
Proof. intros [n1 d1] [n2 d2]. solve_decision. Defined.

#[export] Instance el_request_eq_dec : EqDecision el_request.
Proof. solve_decision. Defined.

(** [requests.post(..., timeout=30)]: it times out, raises another
    exception, or returns a status with the body. *)
Inductive el_outcome :=
| ElTimeout
| ElError
| ElResponse (status : Z) (content : bytes).

(** ** The class of the three services *)
Class Providers := {
  (** [openai_client.audio.transcriptions.create(model="whisper-1",
      file=..., response_format="text")]; [None] when the client raises. *)
  transcribe_api : wav_file -> option string;
  (** [chat.completions.create(...)], projected to
      [choices[0].message.content]; [None] when the call (or the
      projection) raises, [Some None] when the content is [None]. *)
  chat_api : chat_request -> option (option string);
  (** [requests.post(url, ..., stream=True)]; [None] when it raises. *)
  speak_api : speak_request -> option speak_response;
  (** [requests.post(url, json=payload, headers=headers, timeout=30)] *)
  elevenlabs_api : el_request -> el_outcome
}.

(** Services with fixed answers, for running the model on examples. *)
Definition demo_providers (tr : option string) (ch : option (option string))
    (sp : option speak_response) (el : el_outcome) : Providers :=
  {| transcribe_api := fun _ => tr; chat_api := fun _ => ch;
     speak_api := fun _ => sp; elevenlabs_api := fun _ => el |}.

(** ** What the terminal bot prints, by the line of src/app.py *)
Inductive msg :=
| MWelcome             (** 249-250 *)
| MMenu                (** 253-256 *)
| MGoodbye             (** 265 *)
| MInvalidChoice       (** 268 *)
| MTextHeader          (** 191-192 *)
| MVoiceHeader         (** 216-217 *)
| MThinking            (** 204, 237 *)
| MReply (r : string)  (** 207, 241 *)
| MPlaying             (** 211 *)
| MPlayingResponse     (** 242 *)
| MNewline             (** 213, 246 *)
| MRecording           (** 163 *)
| MTranscribing        (** 231 *)
| MYouSaid (t : string) (** 235 *)
| MChatError           (** 83 *)
| MApiKey (key : string) (** 84 *)
| MTraceback           (** 85 *)
| MTranscriptionError  (** 98 *)
| MStatusCode (n : Z)  (** 149 *)
| MTTSFailed           (** 150 *)
| MTTSError            (** 153 *)
| MStreamingError      (** 124 *)
| MPyAudioMissing      (** 277 *)
| MPipInstall.         (** 278 *)

#[export] Instance msg_eq_dec : EqDecision msg.
Proof. solve_decision. Defined.

(** ** Observable events, in program order *)
Inductive event :=
| EvPrint (m : msg)
| EvChat (r : chat_request)
| EvTranscribe (f : wav_file)
| EvSpeak (r : speak_request)
| EvSpinnerStart
| EvSpinnerJoin
| EvPlayerOpen
| EvPlayerWrite (b : bytes)
| EvPlayerClose
| EvPlayerWait
| EvStreamOpen
| EvStreamClose
| EvWavWrite (name : string) (f : wav_file)
| EvRemove (name : string)
| EvTerminate.

#[export] Instance event_eq_dec : EqDecision event.
Proof. solve_decision. Defined.

(** Calls to one of the three services. *)
Definition is_chat (e : event) : bool :=
  match e with EvChat _ => true | _ => false end.
Definition is_transcribe (e : event) : bool :=
  match e with EvTranscribe _ => true | _ => false end.
Definition is_speak (e : event) : bool :=
  match e with EvSpeak _ => true | _ => false end.
Definition is_provider_call (e : event) : bool :=
  is_chat e || is_transcribe e || is_speak e.

(** The events that mark the stages of a voice turn: the recording
    written, the three provider calls, the recording removed. *)
Definition is_milestone (e : event) : bool :=
  match e with
  | EvWavWrite _ _ | EvRemove _ | EvChat _ | EvTranscribe _ | EvSpeak _ => true
  | _ => false
  end.
