(* ===== verification/Bot.v ===== *)
(** * Bot: the state of [VoiceChatBot] and its primitive effects

    The attributes of a [VoiceChatBot] (src/app.py 61-70, and
    [self.loading], first set by [text_to_speech]).  The world the
    terminal bot runs in: the lines still to come on stdin, the event
    trace, the files on disk, the microphone, and the configuration read
    from the environment.  The primitive effects the bot's methods are
    built from: [print], [input()], file writes, [open] and [os.remove].
    All of them only extend the trace and only consume stdin
    ([evolves]).  The configuration of lines 16-20 ([load_env]), which
    only the start-up of [Session.main] sets. *)

From stdpp Require Import base list strings gmap.
From Stdlib Require Import ZArith.
From S2P Require Import Prelude Persona Providers.


(** ** The bot's attributes *)
Record bot := mk_bot {
  recording : bool;          (** [self.recording] *)
  frames : list bytes;       (** [self.frames] *)
  loading : bool;            (** [self.loading] *)
  chat_history : list message (** [self.chat_history] *)
}.

(** [VoiceChatBot.__init__] (lines 62-70); [self.loading] does not exist
    before the first [text_to_speech], which sets it before any read. *)
Definition bot_init : bot := mk_bot false [] false [].

(** Attribute assignments [self.recording = r], [self.frames = f],
    [self.loading = l]. *)
Definition with_recording (r : bool) (b : bot) : bot :=
  mk_bot r (frames b) (loading b) (chat_history b).
Definition with_frames (f : list bytes) (b : bot) : bot :=
  mk_bot (recording b) f (loading b) (chat_history b).
Definition with_loading (l : bool) (b : bot) : bot :=
  mk_bot (recording b) (frames b) l (chat_history b).

(** The constants of [__init__]: [paInt16] (2 bytes per sample), one
    channel, 44100 Hz, 1024 frames per buffer. *)
Definition SAMPLE_WIDTH : nat := 2.
Definition CHANNELS : nat := 1.
Definition RATE : Z := 44100.
Definition CHUNK : nat := 1024.
Arguments CHUNK : simpl never.
Arguments RATE : simpl never.

(** ** The environment: what the code reads but never changes *)
Record env := mk_env {
  mic : nat -> Z;            (** the i-th sample the microphone delivers *)
  aplay_ok : bool;           (** [subprocess.Popen(['aplay', ...])] succeeds *)
  mic_ok : bool;             (** [self.audio.open(..., input=True, ...)] succeeds *)
  openai_key : string;       (** [openai.api_key] *)
  deepgram_key : string      (** [DEEPGRAM_API_KEY] *)
}.

Record World := mkWorld {
  w_bot : bot;
  w_stdin : list string;     (** lines [input()] will return; EOF after *)
  w_trace : list event;      (** what happened so far, oldest first *)
  w_fs : gmap string wav_file;
  w_takes : list nat;        (** chunks the capture thread reads in each
                                 coming recording (thread timing) *)
  w_mic_pos : nat;           (** samples consumed from the microphone *)
  w_env : env
}.

Abbreviation M := (PyM World).

(** A fresh bot, no files, a silent microphone and [aplay] available,
    with [stdin] still to come: for running the model on examples. *)
Definition demo_world (stdin : list string) : World :=
  mkWorld bot_init stdin [] ∅ [] 0 (mk_env (fun _ => 0%Z) true true "sk-demo" "dg-demo").

(** ** Setters *)
Definition set_bot (b : bot) (w : World) : World :=
  mkWorld b (w_stdin w) (w_trace w) (w_fs w) (w_takes w) (w_mic_pos w) (w_env w).
Definition set_stdin (l : list string) (w : World) : World :=
  mkWorld (w_bot w) l (w_trace w) (w_fs w) (w_takes w) (w_mic_pos w) (w_env w).
Definition add_event (e : event) (w : World) : World :=
  mkWorld (w_bot w) (w_stdin w) (w_trace w ++ [e]) (w_fs w) (w_takes w)
    (w_mic_pos w) (w_env w).
Definition add_events (es : list event) (w : World) : World :=
  mkWorld (w_bot w) (w_stdin w) (w_trace w ++ es) (w_fs w) (w_takes w)
    (w_mic_pos w) (w_env w).
Definition set_fs (fs : gmap string wav_file) (w : World) : World :=
  mkWorld (w_bot w) (w_stdin w) (w_trace w) fs (w_takes w) (w_mic_pos w) (w_env w).
Definition set_env (e : env) (w : World) : World :=
  mkWorld (w_bot w) (w_stdin w) (w_trace w) (w_fs w) (w_takes w) (w_mic_pos w) e.
Definition set_mic (takes : list nat) (pos : nat) (w : World) : World :=
  mkWorld (w_bot w) (w_stdin w) (w_trace w) (w_fs w) takes pos (w_env w).

(** ** Primitive effects *)
Definition emit (e : event) : M unit := pmodify (add_event e).
Definition print (m : msg) : M unit := emit (EvPrint m).
Definition get_bot : M bot := fun w => (Ok (w_bot w), w).
Definition put_bot (b : bot) : M unit := pmodify (set_bot b).
Definition get_env : M env := fun w => (Ok (w_env w), w).
Definition modify_bot (f : bot -> bot) : M unit := b <- get_bot ;; put_bot (f b).

(** [input()]: the next line, or [EOFError] at the end of stdin. *)
Definition input : M string :=
  fun w =>
    match w_stdin w with
    | [] => (Raise EOFError, w)
    | l :: ls => (Ok l, set_stdin ls w)
    end.

(** [wave.open(name, 'wb')] ... [wf.close()]: create or overwrite. *)
Definition write_wav (name : string) (f : wav_file) : M unit :=
  fun w => (Ok tt, add_event (EvWavWrite name f) (set_fs (<[name := f]> (w_fs w)) w)).

(** [open(name, "rb")] followed by a full read. *)
Definition open_read (name : string) : M wav_file :=
  fun w =>
    match w_fs w !! name with
    | Some f => (Ok f, w)
    | None => (Raise (FileNotFoundError name), w)
    end.

(** [os.remove(name)]: raises [FileNotFoundError] when the file is gone. *)
Definition os_remove (name : string) : M unit :=
  fun w =>
    match w_fs w !! name with
    | Some _ => (Ok tt, add_event (EvRemove name) (set_fs (delete name (w_fs w)) w))
    | None => (Raise (FileNotFoundError name), w)
    end.

(** ** The module-level configuration (lines 16-20)

    [load_dotenv()] (python-dotenv, not modelled) has copied [.env] into
    the process environment [environ].  Then
    [openai.api_key = os.getenv("OPENAI_API_KEY")],
    [DEEPGRAM_API_KEY = os.getenv("DEEPGRAM_API_KEY")] and
    [openai_client = openai.OpenAI(api_key=openai.api_key)].  [os.getenv]
    gives [None] for an unset variable.  The client constructor falls back
    to the same [OPENAI_API_KEY] variable and raises [OpenAIError] when
    there is none, so an unset OpenAI key stops the import of the module.
    An unset Deepgram key is kept as [None]; the code only formats it in
    an f-string, as ["None"]. *)

(** [f"{v}"] for a [str | None]. *)
Definition py_format (o : option string) : string :=
  match o with Some s => s | None => "None"%string end.

(** Lines 18-20, on the environment [e] whose devices PortAudio and the
    system decide: [None] when the client constructor raises. *)
Definition load_env (environ : gmap string string) (e : env) : option env :=
  match environ !! "OPENAI_API_KEY"%string with
  | None => None
  | Some k => Some (mk_env (mic e) (aplay_ok e) (mic_ok e) k
                      (py_format (environ !! "DEEPGRAM_API_KEY"%string)))
  end.

Definition put_env (e : env) : M unit := pmodify (set_env e).

(** ** The evolution preorder: the trace grows, stdin shrinks, the
    environment stays. *)
Definition evolves (w w' : World) : Prop :=
  w_trace w `prefix_of` w_trace w' /\ w_stdin w' `suffix_of` w_stdin w /\
  w_env w' = w_env w.

#[export] Instance evolves_preorder : PreOrder evolves.
Proof.
  split.
  - intros w. split_and!; done.
  - intros w1 w2 w3 (H1 & H2 & H3) (H4 & H5 & H6).
    split_and!; [by etrans | by etrans | congruence].
Qed.

(** The events a run added to the trace. *)
Definition new_events (w w' : World) : list event :=
  drop (List.length (w_trace w)) (w_trace w').

(** ** Lemmas *)

Lemma evolves_trace w w' :
  evolves w w' -> w_trace w' = w_trace w ++ new_events w w'.
Proof.
  intros [[l Hl] _]. unfold new_events. rewrite Hl, drop_app_length. done.
Qed.

Lemma add_event_events e w : add_event e w = add_events [e] w.
Proof. done. Qed.

Lemma add_events_app l1 l2 w : add_events l2 (add_events l1 w) = add_events (l1 ++ l2) w.
Proof. unfold add_events. simpl. rewrite app_assoc. done. Qed.

Lemma add_events_nil w : add_events [] w = w.
Proof. destruct w. unfold add_events. simpl. rewrite app_nil_r. done. Qed.

Lemma os_remove_run n f w :
  w_fs w !! n = Some f ->
  os_remove n w = (Ok tt, add_events [EvRemove n] (set_fs (delete n (w_fs w)) w)).
Proof. intros E. unfold os_remove. rewrite E. done. Qed.

Lemma os_remove_missing n w :
  w_fs w !! n = None -> os_remove n w = (Raise (FileNotFoundError n), w).
Proof. intros E. unfold os_remove. rewrite E. done. Qed.

Lemma new_events_add w e : new_events w (add_event e w) = [e].
Proof. unfold new_events. simpl. apply drop_app_length. Qed.

Lemma new_events_add_events_bot w es b : new_events w (add_events es (set_bot b w)) = es.
Proof. unfold new_events. simpl. apply drop_app_length. Qed.

Lemma new_events_trans w1 w2 w3 :
  evolves w1 w2 -> evolves w2 w3 ->
  new_events w1 w3 = new_events w1 w2 ++ new_events w2 w3.
Proof.
  intros H12 H23.
  pose proof (evolves_trace _ _ H12) as E12. pose proof (evolves_trace _ _ H23) as E23.
  unfold new_events at 1. rewrite E23, E12, <- app_assoc, drop_app_length. done.
Qed.

Lemma new_events_refl w : new_events w w = [].
Proof. unfold new_events. apply drop_all. Qed.

Lemma moves_emit e : moves evolves (emit e).
Proof.
  intros w. simpl. split_and!; [by exists [e] | done | done].
Qed.

Lemma moves_print m : moves evolves (print m).
Proof. apply moves_emit. Qed.

Lemma moves_input : moves evolves input.
Proof.
  intros w. unfold input. destruct (w_stdin w) as [|l ls] eqn:E; simpl;
    [reflexivity|].
  split_and!; [done | rewrite E; by apply suffix_cons_r | done].
Qed.

Lemma moves_get_bot : moves evolves get_bot.
Proof. intros w. reflexivity. Qed.

Lemma moves_put_bot b : moves evolves (put_bot b).
Proof. intros w. split_and!; done. Qed.

Lemma moves_get_env : moves evolves get_env.
Proof. intros w. reflexivity. Qed.

Lemma moves_write_wav n f : moves evolves (write_wav n f).
Proof. intros w. simpl. split_and!; [by exists [EvWavWrite n f] | done | done]. Qed.

Lemma moves_open_read n : moves evolves (open_read n).
Proof. intros w. unfold open_read. destruct (w_fs w !! n); reflexivity. Qed.

Lemma moves_os_remove n : moves evolves (os_remove n).
Proof.
  intros w. unfold os_remove. destruct (w_fs w !! n); simpl; [|reflexivity].
  split_and!; [by exists [EvRemove n] | done | done].
Qed.

Lemma moves_modify_bot f : moves evolves (modify_bot f).
Proof. intros w. split_and!; done. Qed.

Lemma no_fuel_out_input : no_fuel_out input.
Proof. intros w. unfold input. destruct (w_stdin w); discriminate. Qed.

Lemma no_fuel_out_get_bot : no_fuel_out get_bot.
Proof. intros w. discriminate. Qed.

Lemma no_fuel_out_get_env : no_fuel_out get_env.
Proof. intros w. discriminate. Qed.

Lemma no_fuel_out_write_wav n f : no_fuel_out (write_wav n f).
Proof. intros w. discriminate. Qed.

Lemma no_fuel_out_open_read n : no_fuel_out (open_read n).
Proof. intros w. unfold open_read. destruct (w_fs w !! n); discriminate. Qed.

Lemma no_fuel_out_os_remove n : no_fuel_out (os_remove n).
Proof. intros w. unfold os_remove. destruct (w_fs w !! n); discriminate. Qed.

Lemma no_fuel_out_emit e : no_fuel_out (emit e).
Proof. intros w. discriminate. Qed.
Lemma no_fuel_out_print m : no_fuel_out (print m).
Proof. intros w. discriminate. Qed.
Lemma no_fuel_out_put_bot b : no_fuel_out (put_bot b).
Proof. intros w. discriminate. Qed.
Lemma no_fuel_out_modify_bot f : no_fuel_out (modify_bot f).
Proof. intros w. discriminate. Qed.

(** A run that starts with a fuel-free, evolving computation: the
    continuation is only run on worlds the first one evolved to. *)
Lemma bind_no_fuel_out_from {A B} (c : M A) (k : A -> M B) w :
  fst (c w) <> OutOfFuel -> moves evolves c ->
  (forall a w', evolves w w' -> fst (k a w') <> OutOfFuel) ->
  fst (pbind c k w) <> OutOfFuel.
Proof.
  intros Hc Hm Hk. unfold pbind. specialize (Hm w).
  destruct (c w) as [[a|e|] w']; simpl in *; [by apply Hk | discriminate | done].
Qed.

#[export] Hint Resolve no_fuel_out_input no_fuel_out_get_bot no_fuel_out_get_env
  no_fuel_out_write_wav no_fuel_out_open_read no_fuel_out_os_remove : asr.
#[export] Hint Resolve no_fuel_out_emit no_fuel_out_print no_fuel_out_put_bot
  no_fuel_out_modify_bot : asr.

#[export] Hint Resolve moves_modify_bot moves_emit moves_print moves_input moves_get_bot moves_put_bot
  moves_get_env moves_write_wav moves_open_read moves_os_remove : asr.

(** The events of a run whose final world is written out: the trace is
    the initial one followed by the listed events. *)
Ltac solve_new_events :=
  unfold new_events, add_events; simpl; rewrite <- ?app_assoc; simpl;
  apply drop_app_length.

(** Two worlds built from [w] by setters are equal. *)
Ltac solve_world :=
  match goal with w : World |- _ => destruct w end;
  cbv [add_event add_events set_bot set_stdin set_fs set_mic];
  simpl; rewrite <- ?app_assoc; reflexivity.

(** Unfold the monad, the primitive effects and the setters, and reduce
    the record projections, without [simpl]: the terms share large
    subterms that [simpl] would copy. *)
Ltac world_simpl :=
  cbv [pbind pret praise pfuel pget pmodify ptry emit print input get_bot put_bot
       modify_bot get_env put_env write_wav open_read os_remove
       add_event add_events set_bot set_stdin set_fs set_mic set_env
       with_frames with_recording with_loading] in *;
  cbn [w_bot w_stdin w_trace w_fs w_takes w_mic_pos w_env
       frames recording loading chat_history fst snd] in *.
