(* ===== verification/Pipeline.v ===== *)
(** * Pipeline: the provider wrappers of [VoiceChatBot]

    [generate_response] (src/app.py 72-86) and [transcribe_audio]
    (src/app.py 88-99).  Both catch every exception of the provider call,
    print a message and return [None].  A failed [generate_response] also
    prints [openai.api_key] (line 84).  The chat request always holds the
    fixed persona and the single current prompt. *)

From stdpp Require Import base list strings gmap.
From Stdlib Require Import ZArith.
From S2P Require Import Prelude Persona Providers Bot.

Section Pipeline.
Context `{Providers}.

(** [openai.chat.completions.create(model=..., messages=[system, user])
    .choices[0].message.content], inside [try]/[except Exception]. *)
Definition generate_response (prompt : string) : M (option string) :=
  let req := chat_request_for App.SYSTEM_PROMPT None prompt in
  ptry (emit (EvChat req) ;;
        match chat_api req with
        | Some content => pret content
        | None => praise APIError
        end)
    (fun _ =>
       e <- get_env ;;
       print MChatError ;;
       print (MApiKey (openai_key e)) ;;
       print MTraceback ;;
       pret None).

(** [with open(audio_file_path, "rb")] then the Whisper call, inside
    [try]/[except Exception]. *)
Definition transcribe_audio (audio_file_path : string) : M (option string) :=
  ptry (f <- open_read audio_file_path ;;
        emit (EvTranscribe f) ;;
        match transcribe_api f with
        | Some transcript => pret (Some transcript)
        | None => praise APIError
        end)
    (fun _ => print MTranscriptionError ;; pret None).
End Pipeline.

(** ** Runs *)

Section PipelineRuns.
Context `{Providers}.

Lemma generate_response_run prompt w :
  generate_response prompt w =
  let req := chat_request_for App.SYSTEM_PROMPT None prompt in
  match chat_api req with
  | Some content => (Ok content, add_events [EvChat req] w)
  | None => (Ok None, add_events [EvChat req; EvPrint MChatError;
               EvPrint (MApiKey (openai_key (w_env w))); EvPrint MTraceback] w)
  end.
Proof. unfold generate_response. py_simpl. destruct (chat_api _); solve_world. Qed.

Lemma transcribe_audio_run path f w :
  w_fs w !! path = Some f ->
  transcribe_audio path w =
  match transcribe_api f with
  | Some t => (Ok (Some t), add_events [EvTranscribe f] w)
  | None => (Ok None, add_events [EvTranscribe f; EvPrint MTranscriptionError] w)
  end.
Proof.
  intros E. unfold transcribe_audio, open_read. py_simpl. rewrite E. simpl.
  destruct (transcribe_api f); solve_world.
Qed.
End PipelineRuns.

Section PipelineProps.
Context `{Providers}.

Lemma generate_response_moves p : moves evolves (generate_response p).
Proof. unfold generate_response. py_decompose; eauto with asr. Qed.

Lemma generate_response_no_fuel_out p : no_fuel_out (generate_response p).
Proof. unfold generate_response. py_decompose; eauto with asr. Qed.

Lemma transcribe_audio_moves p : moves evolves (transcribe_audio p).
Proof. unfold transcribe_audio. py_decompose; eauto with asr. Qed.

Lemma transcribe_audio_no_fuel_out p : no_fuel_out (transcribe_audio p).
Proof. unfold transcribe_audio. py_decompose; eauto with asr. Qed.
End PipelineProps.

(** ** The error path of the chat call *)

Section PipelineClaims.
Context `{Providers}.

(** C36: a failed chat call prints the OpenAI API key.  When the
    client raises, [generate_response] prints the error, then
    [openai.api_key] in clear (line 84), then the traceback, and returns
    [None]. *)
Theorem generate_response_failure_prints_key prompt w :
  chat_api (chat_request_for App.SYSTEM_PROMPT None prompt) = None ->
  generate_response prompt w =
  (Ok None, add_events [EvChat (chat_request_for App.SYSTEM_PROMPT None prompt);
                        EvPrint MChatError; EvPrint (MApiKey (openai_key (w_env w)));
                        EvPrint MTraceback] w).
Proof. intros Hc. rewrite generate_response_run. cbv zeta. rewrite Hc. done. Qed.
End PipelineClaims.

Local Open Scope string_scope.

Lemma generate_response_failure_prints_key_witness :
  @generate_response (demo_providers (Some "hello") None None ElError) "hi" (demo_world []) =
  (Ok None, add_events [EvChat (chat_request_for App.SYSTEM_PROMPT None "hi");
                        EvPrint MChatError; EvPrint (MApiKey "sk-demo"); EvPrint MTraceback]
              (demo_world [])).
Proof. apply (@generate_response_failure_prints_key (demo_providers (Some "hello") None None ElError)). reflexivity. Defined.

Local Close Scope string_scope.

#[export] Hint Resolve generate_response_moves generate_response_no_fuel_out
  transcribe_audio_moves transcribe_audio_no_fuel_out : asr.
