(* ===== verification/Worker.v ===== *)
(** * Worker: a thread polling a shared flag, and the thread that joins it

    Both auxiliary threads of src/app.py have the same shape:
    - [record_audio] (lines 165-175): [def record(): while self.recording:
      data = stream.read(self.chunk); self.frames.append(data)].  The
      foreground blocks in [input()], then sets [self.recording = False]
      and calls [record_thread.join()];
    - [text_to_speech] (lines 103-144): [loading_spinner] loops
      [for c in cycle(...): if not self.loading: break; ...].  The
      foreground blocks in [requests.post], then sets [self.loading =
      False] and calls [spinner_thread.join()].

    The section below models the pair for any loop [body] acting on the
    data [D], and any foreground work [post] done after the join.  The
    worker is at [WCheck] (about to test the flag), [WBody] (inside the
    loop body) or [WDone].  The foreground is in its blocking call
    ([FRun]), has cleared the flag and is joining ([FCleared]), has
    returned from the join ([FJoined]), or has done its remaining work
    ([FFinished]).  The blocking call can also raise.  Where the
    exception then goes depends on the code of the instance, which
    declares it by an [AbortExit] instance on its data:
    - [abort_clears = false], exit [FAborted]: the flag is left as it is.
      [input()] raising in [record_audio] does this (no [try] around it).
    - [abort_clears = true], exit [FAbortedClear]: the flag is cleared
      but the thread is not joined.  The [except] of [text_to_speech]
      does this (line 152).

    Each step is labelled with [true] when it executes the loop body, so
    [steps s n s'] counts the body executions between [s] and [s']. *)

From stdpp Require Import base list.
From S2P Require Import Prelude.

Inductive wpc := WCheck | WBody | WDone.
Inductive fpc := FRun | FCleared | FJoined | FFinished | FAborted | FAbortedClear.

#[export] Instance wpc_eq_dec : EqDecision wpc.
Proof. solve_decision. Defined.
#[export] Instance fpc_eq_dec : EqDecision fpc.
Proof. solve_decision. Defined.

(** How the foreground of a worker with data [D] leaves its blocking
    call by an exception: clearing the flag ([true]) or not ([false]). *)
Class AbortExit (D : Type) := abort_clears : bool.

Section Worker.
Context {D : Type} {AE : AbortExit D} (body post : D -> D).

Record sys := mk_sys { flag : bool; wp : wpc; fp : fpc; data : D }.

Inductive step : sys -> bool -> sys -> Prop :=
| st_check_true f d :
    step (mk_sys true WCheck f d) false (mk_sys true WBody f d)
| st_check_false f d :
    step (mk_sys false WCheck f d) false (mk_sys false WDone f d)
| st_body fl f d :
    step (mk_sys fl WBody f d) true (mk_sys fl WCheck f (body d))
| st_stop fl w d :
    step (mk_sys fl w FRun d) false (mk_sys false w FCleared d)
| st_join fl d :
    step (mk_sys fl WDone FCleared d) false (mk_sys fl WDone FJoined d)
| st_post fl d :
    step (mk_sys fl WDone FJoined d) false (mk_sys fl WDone FFinished (post d))
| st_abort fl w d :
    abort_clears = false ->
    step (mk_sys fl w FRun d) false (mk_sys fl w FAborted d)
| st_abort_clear fl w d :
    abort_clears = true ->
    step (mk_sys fl w FRun d) false (mk_sys false w FAbortedClear d).

(** [steps s n s']: a run from [s] to [s'] executing the body [n] times. *)
Inductive steps : sys -> nat -> sys -> Prop :=
| steps_refl s : steps s 0 s
| steps_cons s b s' n s'' :
    step s b s' -> steps s' n s'' -> steps s (Nat.b2n b + n) s''.

(** The thread has just been started, with the flag set. *)
Definition init (d : D) : sys := mk_sys true WCheck FRun d.

Definition reachable (d0 : D) (s : sys) : Prop := exists n, steps (init d0) n s.

(** The flag is set exactly while the foreground has not cleared it. *)
Definition flag_of (f : fpc) : bool :=
  match f with FRun | FAborted => true | _ => false end.

(** The invariant of reachable states. *)
Definition winv (s : sys) : Prop :=
  flag s = flag_of (fp s) /\
  (wp s = WDone -> flag s = false) /\
  (fp s = FJoined \/ fp s = FFinished -> wp s = WDone).

(** Body executions still possible from [s]: none once the thread is done
    or the flag is clear at a check, one when the body is running. *)
Definition body_budget (s : sys) : nat :=
  match wp s with WBody => 1 | _ => 0 end.
(** A measure of the work left once the flag is clear: the worker's
    remaining steps plus the foreground's. *)
Definition wmeasure (w : wpc) : nat := match w with WBody => 2 | WCheck => 1 | WDone => 0 end.
Definition fmeasure (f : fpc) : nat := match f with FCleared => 2 | FJoined => 1 | _ => 0 end.
Definition measure (s : sys) : nat := wmeasure (wp s) + fmeasure (fp s).

(** [step_rel s' s]: [s'] is one step after [s], in the orientation of
    [Acc]: [Acc step_rel s] says that every run from [s] is finite. *)
Definition step_rel (s' s : sys) : Prop := exists b, step s b s'.

(** The exception exit a state has taken is the one of the instance. *)
Definition exit_inv (s : sys) : Prop :=
  (fp s = FAborted -> abort_clears = false) /\ (fp s = FAbortedClear -> abort_clears = true).
End Worker.

Arguments sys : clear implicits.
Arguments mk_sys {D} flag wp fp data.
Arguments step {D _} body post _ _ _.
Arguments steps {D _} body post _ _ _.
Arguments init {D} d.
Arguments reachable {D _} body post d0 s.
Arguments step_rel {D _} body post _ _.
#[export] Hint Constructors step steps : asr.

Section WorkerTheory.
Context {D : Type} {AE : AbortExit D} (body post : D -> D).
Local Abbreviation step := (step body post).
Local Abbreviation steps := (steps body post).
Local Abbreviation reachable := (reachable body post).

Lemma steps_trans s1 n1 s2 n2 s3 :
  steps s1 n1 s2 -> steps s2 n2 s3 -> steps s1 (n1 + n2) s3.
Proof.
  induction 1 as [|s b s' n s'' Hs _ IH]; intros H; [done|].
  rewrite <- Nat.add_assoc. econstructor; eauto.
Qed.

Lemma step_winv s b s' : winv s -> step s b s' -> winv s'.
Proof.
  unfold winv. intros (Hf & Hd & Hj) Hst.
  inversion Hst; subst; simpl in *; split_and!;
    intuition (try congruence); destruct fp0; simpl in *; congruence.
Qed.

Lemma steps_winv s n s' : winv s -> steps s n s' -> winv s'.
Proof. intros Hs H. induction H; eauto using step_winv. Qed.

Lemma reachable_winv d0 s : reachable d0 s -> winv s.
Proof.
  intros [n H]. eapply steps_winv; [|exact H].
  unfold winv, init. simpl. split_and!; [done | discriminate | intros [|]; discriminate].
Qed.

(** Once cleared, the flag is never set again. *)
Lemma step_flag_false s b s' : step s b s' -> flag s = false -> flag s' = false.
Proof. inversion 1; subst; simpl; done. Qed.

Lemma step_budget s b s' :
  step s b s' -> flag s = false -> Nat.b2n b + body_budget s' <= body_budget s.
Proof. inversion 1; subst; simpl; try discriminate; unfold body_budget; simpl; lia. Qed.

(** After the flag is cleared, the worker executes its body at most
    [body_budget s] more times: once if it is inside the body, else
    never. *)
Lemma steps_after_clear s n s' :
  flag s = false -> steps s n s' -> n <= body_budget s.
Proof.
  intros Hf H. induction H as [s|s b s1 n s'' Hst _ IH]; [lia|].
  pose proof (step_budget _ _ _ Hst Hf).
  pose proof (IH (step_flag_false _ _ _ Hst Hf)). lia.
Qed.

(** With the flag set and the foreground gone, every step keeps the
    flag set and the worker away from [WDone]. *)
Lemma step_aborted s b s' :
  step s b s' -> fp s = FAborted -> flag s = true -> wp s <> WDone ->
  fp s' = FAborted /\ flag s' = true /\ wp s' <> WDone.
Proof. inversion 1; subst; simpl; intros; try discriminate; done. Qed.

Lemma steps_aborted s n s' :
  steps s n s' -> fp s = FAborted -> flag s = true -> wp s <> WDone ->
  fp s' = FAborted /\ flag s' = true /\ wp s' <> WDone.
Proof.
  induction 1 as [|s b s1 n s'' Hst _ IH]; [done|].
  intros Hf Hfl Hw. destruct (step_aborted _ _ _ Hst Hf Hfl Hw) as (? & ? & ?).
  by apply IH.
Qed.

(** From such a state the worker executes its body again within two
    steps. *)
Lemma aborted_round s :
  fp s = FAborted -> flag s = true -> wp s <> WDone ->
  exists s', steps s 1 s' /\ fp s' = FAborted /\ flag s' = true /\ wp s' = WCheck.
Proof.
  destruct s as [fl w f d]; simpl. intros -> -> Hw.
  destruct w; [| |done].
  - eexists. split; [|shelve].
    + eapply (steps_cons _ _ _ false); [constructor|].
      eapply (steps_cons _ _ _ true); [constructor|]. constructor.
    Unshelve. done.
  - eexists. split; [|shelve].
    + eapply (steps_cons _ _ _ true); [constructor|]. constructor.
    Unshelve. done.
Qed.

Lemma aborted_unbounded s k :
  fp s = FAborted -> flag s = true -> wp s <> WDone ->
  exists n s', steps s n s' /\ k <= n.
Proof.
  revert s. induction k as [|k IH]; intros s Hf Hfl Hw.
  - exists 0, s. split; [constructor | lia].
  - destruct (aborted_round s Hf Hfl Hw) as (s1 & H1 & Hf1 & Hfl1 & Hw1).
    destruct (IH s1 Hf1 Hfl1 ltac:(by rewrite Hw1)) as (n & s' & H & Hk).
    exists (1 + n), s'. split; [eapply steps_trans; eauto | lia].
Qed.

(** A reachable worker whose foreground left without clearing the flag
    never finishes, and executes its body as often as one likes. *)
Lemma reachable_aborted_forever d0 s :
  reachable d0 s -> fp s = FAborted ->
  (forall n s', steps s n s' -> wp s' <> WDone) /\
  (forall k, exists n s', steps s n s' /\ k <= n).
Proof.
  intros Hr Hf. destruct (reachable_winv _ _ Hr) as (Hfl & Hd & _).
  rewrite Hf in Hfl. simpl in Hfl.
  assert (Hw : wp s <> WDone) by (intros E; specialize (Hd E); congruence).
  split.
  - intros n s' H. apply (steps_aborted _ _ _ H Hf Hfl Hw).
  - intros k. apply (aborted_unbounded _ _ Hf Hfl Hw).
Qed.

(** The join returns: from a reachable state where the flag has been
    cleared and the foreground joins, a run reaches [FJoined]. *)
Lemma join_returns d0 s :
  reachable d0 s -> fp s = FCleared -> exists n s', steps s n s' /\ fp s' = FJoined.
Proof.
  intros Hr Hf. destruct (reachable_winv _ _ Hr) as (Hfl & _ & _).
  destruct s as [fl w f d]; simpl in *; subst f; simpl in Hfl; subst fl.
  destruct w; eexists _, _; (split; [|shelve]).
  - eapply (steps_cons _ _ _ false); [constructor|].
    eapply (steps_cons _ _ _ false); [constructor|]. constructor.
  - eapply (steps_cons _ _ _ true); [constructor|].
    eapply (steps_cons _ _ _ false); [constructor|].
    eapply (steps_cons _ _ _ false); [constructor|]. constructor.
  - eapply (steps_cons _ _ _ false); [constructor|]. constructor.
  Unshelve. all: done.
Qed.

(** No deadlock: a reachable state can step, unless both threads are
    over. *)
Lemma reachable_progress d0 s :
  reachable d0 s ->
  (exists b s', step s b s') \/
  (wp s = WDone /\ (fp s = FFinished \/ fp s = FAbortedClear)).
Proof.
  intros Hr. destruct (reachable_winv _ _ Hr) as (Hfl & Hd & Hj).
  destruct s as [fl w f d]; simpl in *.
  destruct f, w, fl; simpl in *; try discriminate;
    try (left; eexists _, _; constructor; fail);
    try (right; split; auto; fail).
  all: exfalso; naive_solver.
Qed.
(** Once the flag is clear, every step decreases [measure]. *)
Lemma step_measure s b s' : winv s -> flag s = false -> step s b s' -> measure s' < measure s.
Proof.
  intros (Hfl & _ & _) Hf Hst. inversion Hst; subst; unfold measure; simpl in *;
    first [lia | congruence].
Qed.

(** Once the flag is clear, both threads stop after finitely many
    steps, on every run. *)
Lemma cleared_terminates s : winv s -> flag s = false -> Acc (step_rel body post) s.
Proof.
  remember (measure s) as n eqn:En. revert s En.
  induction n as [n IH] using (well_founded_induction lt_wf).
  intros s -> Hinv Hfl. constructor. intros s' [b Hst].
  eapply IH; [eapply step_measure; eauto | reflexivity
             | eapply step_winv; eauto | eapply step_flag_false; eauto].
Qed.

(** [exit_inv] is preserved by every step. *)
Lemma step_exit_inv s b s' : exit_inv s -> step s b s' -> exit_inv s'.
Proof. intros [Ha Hc] Hst. inversion Hst; subst; split; simpl in *; intros; first [congruence | auto]. Qed.

Lemma reachable_exit d0 s :
  reachable d0 s -> fp s = FAborted \/ fp s = FAbortedClear ->
  fp s = if abort_clears then FAbortedClear else FAborted.
Proof.
  intros [n Hs] Hf.
  assert (Hinv : exit_inv s).
  { clear Hf. remember (init d0) as s0 eqn:E.
    assert (H0 : exit_inv s0) by (subst; split; discriminate).
    clear E. induction Hs; eauto using step_exit_inv. }
  destruct Hinv as [Ha Hc]. destruct Hf as [Hf|Hf]; rewrite Hf; [rewrite Ha | rewrite Hc]; done.
Qed.
End WorkerTheory.
