(* ===== verification/Recorder.v ===== *)
(** * Recorder: [VoiceChatBot.record_audio] (src/app.py 155-188)

    - The sample format [paInt16]: a sample is a signed 16-bit integer,
      and [stream.read(self.chunk)] returns 1024 of them as little-endian
      byte pairs ([encode_s16le], [stream_read]).
    - The capture thread [record()] (lines 165-168) and the foreground
      (lines 173-178), as the [Worker] instance [capture_body] /
      [close_stream] on the data [cap]: the frames, the microphone
      position, whether the stream is open.
    - [capture_result]: what a run of that system leaves when it has
      appended [n] chunks.  [record_audio] in the monad of [Bot] uses it,
      with [n] taken from the world's timing oracle [w_takes].  The
      refinement theorems say these are exactly the final states of the
      threaded model.  [record_audio] then writes [temp_recording.wav].
      Before all this, [self.audio.open] (lines 157-161) raises [OSError]
      when the environment has no usable input device ([mic_ok]). *)

From stdpp Require Import base list strings gmap.
From Stdlib Require Import ZArith Lia.
From S2P Require Import Prelude Providers Bot Worker.

(** ** The [paInt16] sample format *)

(** A sample as its two little-endian bytes. *)
Definition encode_s16le (s : Z) : bytes :=
  [Z.land s 255; Z.land (Z.shiftr s 8) 255].

(** The reading of two little-endian bytes as a signed 16-bit sample
    (what Whisper, [aplay -f S16_LE] and [wave] readers do). *)
Definition decode_s16le (lo hi : Z) : Z :=
  let u := (lo + 256 * hi)%Z in
  if (32768 <=? u)%Z then (u - 65536)%Z else u.

(** The reading of a little-endian PCM byte string as samples. *)
Fixpoint decode_pcm (b : bytes) : list Z :=
  match b with
  | lo :: hi :: rest => decode_s16le lo hi :: decode_pcm rest
  | _ => []
  end.

(** [stream.read(self.chunk)]: the next [CHUNK] samples of the device. *)
Definition stream_read (mic : nat -> Z) (pos : nat) : bytes :=
  flat_map (fun i => encode_s16le (mic (pos + i)%nat)) (seq 0 CHUNK).

(** The [n] chunks read one after the other from position [pos]. *)
Definition chunks_from (mic : nat -> Z) (pos n : nat) : list bytes :=
  map (fun k => stream_read mic (pos + k * CHUNK)) (seq 0 n).

Arguments stream_read : simpl never.
Arguments chunks_from : simpl never.

(** ** The capture thread and the foreground *)

Record cap := mk_cap {
  cframes : list bytes;  (** [self.frames] *)
  cpos : nat;            (** samples consumed from the device *)
  copen : bool           (** the input stream is open *)
}.

(** [input()] (line 173) has no [try] around it: when it raises, the
    foreground leaves with [self.recording] still set. *)
#[export] Instance cap_abort_exit : AbortExit cap := false.

Section Capture.
Context (mic : nat -> Z).

(** [data = stream.read(self.chunk); self.frames.append(data)] *)
Definition capture_body (d : cap) : cap :=
  mk_cap (cframes d ++ [stream_read mic (cpos d)]) (cpos d + CHUNK) (copen d).

(** [stream.stop_stream(); stream.close()] after the join. *)
Definition close_stream (d : cap) : cap := mk_cap (cframes d) (cpos d) false.

(** [self.frames = []] and the stream just opened at position [pos]. *)
Definition cap_start (pos : nat) : cap := mk_cap [] pos true.

(** The data after [n] chunks were captured and the stream closed. *)
Definition capture_result (pos n : nat) : cap :=
  mk_cap (chunks_from mic pos n) (pos + n * CHUNK) false.

Definition rec_step := Worker.step capture_body close_stream.
Definition rec_steps := Worker.steps capture_body close_stream.
Definition rec_reachable (pos : nat) := Worker.reachable capture_body close_stream (cap_start pos).
End Capture.

(** ** The sequential [record_audio] *)

Definition TEMP_WAV : string := "temp_recording.wav".

(** The join: the capture thread has appended the chunks the timing oracle
    says it read ([0] when the oracle is exhausted). *)
Definition next_take (w : World) : nat :=
  match w_takes w with [] => 0 | n :: _ => n end.

Definition join_capture : M unit :=
  fun w =>
    let d := capture_result (mic (w_env w)) (w_mic_pos w) (next_take w) in
    (Ok tt, set_mic (tail (w_takes w)) (cpos d) (set_bot (with_frames (cframes d) (w_bot w)) w)).

(** Lines 155-188.  [self.recording] was set by the caller.  If
    [self.audio.open] raises (no usable input device) or [input()]
    raises, the exception leaves with [self.recording] still [True]. *)
Definition record_audio : M string :=
  modify_bot (with_frames []) ;;
  e <- get_env ;;
  (if mic_ok e then emit EvStreamOpen else praise (OSError "input device"%string)) ;;
  print MRecording ;;
  _ <- input ;;
  modify_bot (with_recording false) ;;
  join_capture ;;
  emit EvStreamClose ;;
  b <- get_bot ;;
  write_wav TEMP_WAV (mk_wav CHANNELS SAMPLE_WIDTH RATE (concat (frames b))) ;;
  pret TEMP_WAV.

(** The file a recording started in [w] writes. *)
Definition recorded_wav (w : World) : wav_file :=
  mk_wav CHANNELS SAMPLE_WIDTH RATE
    (concat (chunks_from (mic (w_env w)) (w_mic_pos w) (next_take w))).

(** The world after [record_audio] got its stop line: [rest] is what
    remains of stdin. *)
Definition after_recording (w : World) (rest : list string) : World :=
  mkWorld (mk_bot false (chunks_from (mic (w_env w)) (w_mic_pos w) (next_take w))
             (loading (w_bot w)) (chat_history (w_bot w)))
    rest
    (w_trace w ++ [EvStreamOpen; EvPrint MRecording; EvStreamClose;
                   EvWavWrite TEMP_WAV (recorded_wav w)])
    (<[TEMP_WAV := recorded_wav w]> (w_fs w))
    (tail (w_takes w)) (w_mic_pos w + next_take w * CHUNK) (w_env w).

(** ** The invariant of the threaded model *)

(** The frames are the first [k] chunks of the device from [p0]; the
    stream is open until the foreground's last step closes it. *)
Definition cap_inv (mic : nat -> Z) (p0 : nat) (s : sys cap) : Prop :=
  exists k, data s = mk_cap (chunks_from mic p0 k) (p0 + k * CHUNK)
                        (negb (bool_decide (fp s = FFinished))).

(** A silent microphone. *)
Definition silent : nat -> Z := fun _ => 0%Z.

(** ** Lemmas on the sample format and the chunks *)

Lemma length_encode_s16le s : length (encode_s16le s) = 2.
Proof. done. Qed.

Lemma length_stream_read mic pos : length (stream_read mic pos) = CHUNK * SAMPLE_WIDTH * CHANNELS.
Proof.
  unfold stream_read. rewrite (length_flat_map_uniform _ _ 2) by (intros; done).
  rewrite length_seq. done.
Qed.

Lemma chunks_from_S mic pos n :
  chunks_from mic pos (S n) = chunks_from mic pos n ++ [stream_read mic (pos + n * CHUNK)].
Proof. unfold chunks_from. rewrite seq_S, map_app. done. Qed.

Lemma length_chunks_from mic pos n : length (chunks_from mic pos n) = n.
Proof. unfold chunks_from. rewrite length_map, length_seq. done. Qed.

Lemma capture_body_chunks mic p0 k b :
  capture_body mic (mk_cap (chunks_from mic p0 k) (p0 + k * CHUNK) b) =
  mk_cap (chunks_from mic p0 (S k)) (p0 + S k * CHUNK) b.
Proof.
  unfold capture_body. cbn [cframes cpos copen]. rewrite chunks_from_S, Nat.mul_succ_l.
  f_equal. lia.
Qed.

Lemma land_255_range z : (0 <= Z.land z 255 < 256)%Z.
Proof. change 255%Z with (Z.ones 8). rewrite Z.land_ones by lia. apply Z.mod_pos_bound. lia. Qed.

Lemma decode_encode_s16le s :
  (-32768 <= s < 32768)%Z ->
  decode_s16le (Z.land s 255) (Z.land (Z.shiftr s 8) 255) = s.
Proof.
  intros Hs. unfold decode_s16le.
  change 255%Z with (Z.ones 8). rewrite !Z.land_ones by lia.
  rewrite Z.shiftr_div_pow2 by lia. change (2 ^ 8)%Z with 256%Z.
  pose proof (Z.div_mod s 256 ltac:(lia)). pose proof (Z.mod_pos_bound s 256 ltac:(lia)).
  pose proof (Z.div_mod (s / 256) 256 ltac:(lia)).
  pose proof (Z.mod_pos_bound (s / 256) 256 ltac:(lia)).
  set (q := (s / 256)%Z) in *. set (r := (s mod 256)%Z) in *.
  set (q2 := (q / 256)%Z) in *. set (r2 := (q mod 256)%Z) in *.
  destruct (Z.leb_spec 32768 (r + 256 * r2)); lia.
Qed.

Lemma decode_pcm_encode (g : nat -> Z) l :
  (forall i, (-32768 <= g i < 32768)%Z) ->
  decode_pcm (flat_map (fun i => encode_s16le (g i)) l) = map g l.
Proof.
  intros Hg. induction l as [|i l IH]; [done|]. simpl.
  rewrite decode_encode_s16le, IH by apply Hg. done.
Qed.

(** ** The threaded model: invariant and frame count *)

Section CaptureTheory.
Context (mic : nat -> Z) (p0 : nat).

Lemma rec_step_cap_inv s b s' : cap_inv mic p0 s -> rec_step mic s b s' -> cap_inv mic p0 s'.
Proof.
  intros [k Hk] Hst. inversion Hst; subst; simpl in *; subst.
  all: try (exists k; done).
  exists (S k). apply capture_body_chunks.
Qed.

Lemma rec_steps_cap_inv s n s' : cap_inv mic p0 s -> rec_steps mic s n s' -> cap_inv mic p0 s'.
Proof. intros Hs H. induction H; eauto using rec_step_cap_inv. Qed.

Lemma rec_reachable_cap_inv s : rec_reachable mic p0 s -> cap_inv mic p0 s.
Proof.
  intros [n H]. eapply rec_steps_cap_inv; [|exact H].
  exists 0. unfold init, cap_start. simpl. f_equal. lia.
Qed.

(** Each body execution appends one frame; no other step touches them. *)
Lemma rec_steps_frames s n s' :
  rec_steps mic s n s' ->
  exists l, cframes (data s') = cframes (data s) ++ l /\ length l = n.
Proof.
  induction 1 as [s|s b s1 n s'' Hst _ (l & Hl & Hn)].
  - exists []. rewrite app_nil_r. done.
  - inversion Hst; subst; simpl in *.
    all: try (exists l; done).
    exists (stream_read mic (cpos d) :: l). rewrite Hl, <- app_assoc. done.
Qed.

(** [k] rounds of check-and-read with the flag set. *)
Lemma rec_rounds m k :
  rec_steps mic (mk_sys true WCheck FRun (mk_cap (chunks_from mic p0 k) (p0 + k * CHUNK) true)) m
    (mk_sys true WCheck FRun (mk_cap (chunks_from mic p0 (k + m)) (p0 + (k + m) * CHUNK) true)).
Proof.
  revert k. induction m as [|m IH]; intros k.
  - rewrite Nat.add_0_r. constructor.
  - replace (k + S m) with (S k + m) by lia.
    change (S m) with (Nat.b2n false + (Nat.b2n true + m)).
    eapply steps_cons; [constructor|].
    eapply steps_cons; [constructor|].
    rewrite capture_body_chunks. apply IH.
Qed.
End CaptureTheory.

(** ** Theorems of the capture thread *)

Section CaptureClaims.
Context (mic : nat -> Z) (p0 : nat).

(** A run that reads [n] chunks, then stops, joins and closes. *)
Lemma rec_finished_reachable n :
  rec_reachable mic p0 (mk_sys false WDone FFinished (capture_result mic p0 n)).
Proof.
  assert (E : init (cap_start p0) =
    mk_sys true WCheck FRun (mk_cap (chunks_from mic p0 0) (p0 + 0 * CHUNK) true)).
  { unfold init, cap_start. do 2 f_equal. lia. }
  unfold rec_reachable, reachable. rewrite E. eexists.
  eapply steps_trans; [apply (rec_rounds mic p0 n 0)|].
  eapply (steps_cons _ _ _ false); [apply st_stop|].
  eapply (steps_cons _ _ _ false); [apply st_check_false|].
  eapply (steps_cons _ _ _ false); [apply st_join|].
  eapply (steps_cons _ _ _ false); [apply st_post|].
  unfold close_stream, capture_result. simpl. constructor.
Qed.

(** C7: refinement.  The states in which [record_audio] has closed its
    stream after a run of the two threads are exactly the
    [capture_result]s: the frames are the first [n] chunks the device
    delivered, for some [n], and every [n] is possible.  So the
    sequential [join_capture], which takes [n] from the timing oracle,
    describes every interleaving and only those. *)
Theorem rec_refines_capture_result d :
  (exists s, rec_reachable mic p0 s /\ fp s = FFinished /\ data s = d) <->
  (exists n, d = capture_result mic p0 n).
Proof.
  split.
  - intros (s & Hr & Hf & <-).
    destruct (rec_reachable_cap_inv mic p0 s Hr) as [k Hk].
    exists k. rewrite Hk, Hf. done.
  - intros [n ->]. eexists. split_and!; [apply (rec_finished_reachable n) | done | done].
Qed.

(** C9: safety.  The capture thread never reads from a closed
    stream: whenever it is inside its loop body, the stream is open. *)
Theorem rec_no_read_on_closed_stream s :
  rec_reachable mic p0 s -> wp s = WBody -> copen (data s) = true.
Proof.
  intros Hr Hw. destruct (rec_reachable_cap_inv mic p0 s Hr) as [k Hk].
  destruct (reachable_winv _ _ _ _ Hr) as (_ & _ & Hj).
  rewrite Hk. simpl. case_bool_decide as Hf; [|done].
  rewrite Hj in Hw by auto. discriminate.
Qed.

(** C8: invariant.  Once [record_thread.join()] has returned, the
    frames never change again, whatever the threads do next. *)
Theorem rec_frames_stable_after_join s n s' :
  rec_reachable mic p0 s -> fp s = FJoined \/ fp s = FFinished ->
  rec_steps mic s n s' -> cframes (data s') = cframes (data s).
Proof.
  intros Hr Hj H.
  destruct (reachable_winv _ _ _ _ Hr) as (Hfl & Hd & Hw).
  assert (Hn : n <= body_budget s).
  { eapply steps_after_clear; [|exact H]. rewrite Hfl. by destruct Hj as [-> | ->]. }
  unfold body_budget in Hn. rewrite Hw in Hn by done.
  destruct (rec_steps_frames mic _ _ _ H) as (l & Hl & Hlen).
  destruct l; [|simpl in Hlen; lia]. rewrite Hl, app_nil_r. done.
Qed.

(** C19: bounds.  After [self.recording = False], the capture thread
    appends at most one more frame: the chunk it was reading when the
    flag was cleared. *)
Theorem rec_at_most_one_frame_after_stop s n s' :
  rec_reachable mic p0 s -> flag s = false -> rec_steps mic s n s' ->
  length (cframes (data s')) <= length (cframes (data s)) + 1.
Proof.
  intros _ Hf H.
  pose proof (steps_after_clear _ _ _ _ _ Hf H) as Hn.
  destruct (rec_steps_frames mic _ _ _ H) as (l & Hl & Hlen).
  rewrite Hl, length_app. unfold body_budget in Hn. destruct (wp s); lia.
Qed.

(** C20: the extra frame of the previous claim does occur: there is a
    run in which the flag is already cleared and the capture thread still
    appends a frame.  The spec's "after the stop signal is issued, the
    capture task appends no further frames" does not hold of the code. *)
Theorem rec_frame_after_stop_possible :
  exists s s',
    rec_reachable mic p0 s /\ flag s = false /\ rec_steps mic s 1 s' /\
    length (cframes (data s')) = length (cframes (data s)) + 1.
Proof.
  exists (mk_sys false WBody FCleared (cap_start p0)),
    (mk_sys false WCheck FCleared (capture_body mic (cap_start p0))).
  split_and!; [| done | | done].
  - eexists.
    eapply (steps_cons _ _ _ false); [apply st_check_true|].
    eapply (steps_cons _ _ _ false); [apply st_stop|]. constructor.
  - change 1 with (Nat.b2n true + 0). eapply steps_cons; [apply st_body|]. constructor.
Qed.

(** C38: liveness and termination.  Once [self.recording = False] has
    been executed and the foreground joins, every run of the two threads
    of [record_audio] is finite ([Acc]).  A run reaches the end:
    [record_thread.join()] has returned, the stream is closed, and
    neither thread can move any more. *)
Theorem rec_stop_terminates s :
  rec_reachable mic p0 s -> fp s = FCleared ->
  Acc (step_rel (capture_body mic) close_stream) s /\
  exists n s', rec_steps mic s n s' /\ fp s' = FFinished /\ copen (data s') = false /\
               ~ exists b s'', rec_step mic s' b s''.
Proof.
  intros Hr Hf. pose proof (reachable_winv _ _ _ _ Hr) as Hinv.
  assert (Hfl : flag s = false) by (destruct Hinv as (-> & _); by rewrite Hf).
  split; [by apply cleared_terminates|].
  destruct (join_returns _ _ _ _ Hr Hf) as (n & s1 & Hs1 & Hj).
  destruct (steps_winv _ _ _ _ _ Hinv Hs1) as (_ & _ & Hw).
  destruct s1 as [fl1 w1 f1 d1]; simpl in *; subst f1. rewrite Hw in * by auto.
  exists (n + 0), (mk_sys fl1 WDone FFinished (close_stream d1)). split_and!.
  - eapply steps_trans; [exact Hs1|].
    eapply (steps_cons _ _ _ false); [apply st_post | constructor].
  - done.
  - done.
  - intros (b & s'' & Hst). inversion Hst.
Qed.
End CaptureClaims.

(** A chunk returned by [stream.read] decodes back to the 1024 samples
    the device delivered, when they are 16-bit samples. *)
Lemma stream_read_decodes mic pos :
  (forall i, (-32768 <= mic i < 32768)%Z) ->
  decode_pcm (stream_read mic pos) = map (fun i => mic (pos + i)%nat) (seq 0 CHUNK).
Proof. intros Hm. unfold stream_read. apply decode_pcm_encode. intros i. apply Hm. Qed.

(** Bounds.  A recording of [n] chunks is [n * 2048] bytes:
    1024 frames of one 2-byte channel per [stream.read]. *)
Theorem recording_length mic pos n :
  length (concat (chunks_from mic pos n)) = n * (CHUNK * SAMPLE_WIDTH * CHANNELS).
Proof.
  rewrite (length_concat_uniform _ (CHUNK * SAMPLE_WIDTH * CHANNELS)).
  - by rewrite length_chunks_from.
  - unfold chunks_from. apply Forall_map, Forall_forall. intros k _. apply length_stream_read.
Qed.

(** C39: spec divergence.  The spec expects a 2-second recording at
    44100 Hz, mono, 16 bits to hold [2 * 44100 * 1 * 2 = 176400] bytes.
    The code reads whole chunks of 2048 bytes, and 176400 is not a
    multiple of 2048, so no recording has that length. *)
Theorem no_recording_of_two_seconds mic pos n :
  Z.of_nat (length (concat (chunks_from mic pos n))) <>
  (2 * RATE * Z.of_nat CHANNELS * Z.of_nat SAMPLE_WIDTH)%Z.
Proof.
  rewrite recording_length, Nat2Z.inj_mul.
  change (Z.of_nat (CHUNK * SAMPLE_WIDTH * CHANNELS)) with 2048%Z.
  unfold RATE, CHANNELS, SAMPLE_WIDTH. change (Z.of_nat 1) with 1%Z.
  change (Z.of_nat 2) with 2%Z. lia.
Qed.

(** ** Runs of [record_audio] *)

Lemma record_audio_run w l rest :
  mic_ok (w_env w) = true ->
  w_stdin w = l :: rest -> record_audio w = (Ok TEMP_WAV, after_recording w rest).
Proof.
  intros Hm E. unfold record_audio, join_capture. world_simpl. rewrite Hm. world_simpl.
  rewrite E. world_simpl.
  unfold after_recording, recorded_wav, next_take, capture_result.
  cbn [cframes cpos]. rewrite <- !app_assoc. reflexivity.
Qed.

Lemma record_audio_eof w :
  mic_ok (w_env w) = true -> w_stdin w = [] ->
  record_audio w = (Raise EOFError,
    mkWorld (with_frames [] (w_bot w)) [] (w_trace w ++ [EvStreamOpen; EvPrint MRecording])
      (w_fs w) (w_takes w) (w_mic_pos w) (w_env w)).
Proof.
  intros Hm E. unfold record_audio. world_simpl. rewrite Hm. world_simpl. rewrite E. world_simpl.
  rewrite <- app_assoc. reflexivity.
Qed.

(** [self.audio.open] raises: nothing is opened, printed or written. *)
Lemma record_audio_no_device w :
  mic_ok (w_env w) = false ->
  record_audio w = (Raise (OSError "input device"%string), set_bot (with_frames [] (w_bot w)) w).
Proof. intros Hm. unfold record_audio. world_simpl. rewrite Hm. reflexivity. Qed.

Lemma join_capture_moves : moves evolves join_capture.
Proof. intros w. split_and!; done. Qed.

Lemma join_capture_no_fuel_out : no_fuel_out join_capture.
Proof. intros w. discriminate. Qed.

#[export] Hint Resolve join_capture_moves join_capture_no_fuel_out : asr.

Lemma record_audio_moves : moves evolves record_audio.
Proof. unfold record_audio. py_decompose; eauto with asr. Qed.

Lemma record_audio_no_fuel_out : no_fuel_out record_audio.
Proof. unfold record_audio. py_decompose; eauto with asr. Qed.

#[export] Hint Resolve record_audio_moves record_audio_no_fuel_out : asr.

(** C21: error path.  If [input()] raises in [record_audio] (EOF or
    Ctrl-C on stdin), [record_audio] raises with [self.recording] as the
    caller set it, and the stream open.  In the threaded model this is
    the only exception exit of the capture pair: from every reachable
    state after it, the capture thread never finishes, and it appends
    frames without bound.  It is not a daemon thread, so the interpreter
    cannot exit either. *)
Theorem rec_eof_capture_forever w s :
  mic_ok (w_env w) = true -> w_stdin w = [] ->
  fst (record_audio w) = Raise EOFError /\
  recording (w_bot (snd (record_audio w))) = recording (w_bot w) /\
  (rec_reachable (mic (w_env w)) (w_mic_pos w) s -> fp s = FAborted \/ fp s = FAbortedClear ->
   (forall n s', rec_steps (mic (w_env w)) s n s' -> wp s' <> WDone) /\
   (forall k, exists n s', rec_steps (mic (w_env w)) s n s' /\ k <= length (cframes (data s')))).
Proof.
  intros Hm E. rewrite (record_audio_eof w Hm E). split_and!; [done | done |].
  intros Hr Hab. pose proof (reachable_exit _ _ _ _ Hr Hab) as Hf.
  destruct (reachable_aborted_forever _ _ _ _ Hr Hf) as [Hnd Hub].
  split; [exact Hnd|].
  intros k. destruct (Hub k) as (n & s' & H & Hk).
  exists n, s'. split; [exact H|].
  destruct (rec_steps_frames _ _ _ _ H) as (l & Hl & Hlen).
  rewrite Hl, length_app. lia.
Qed.

(** ** Witnesses: the theorems at concrete inputs *)


Lemma rec_init_reachable p0 : rec_reachable silent p0 (init (cap_start p0)).
Proof. exists 0. constructor. Qed.

Lemma rec_no_read_on_closed_stream_witness :
  copen (data (mk_sys true WBody FRun (cap_start 0))) = true.
Proof.
  apply (rec_no_read_on_closed_stream silent 0 (mk_sys true WBody FRun (cap_start 0)));
    [| reflexivity].
  exists (0 + 0). eapply (steps_cons _ _ _ false); [apply st_check_true | constructor].
Defined.

Lemma rec_frames_stable_after_join_witness :
  cframes (data (mk_sys false WDone FFinished (capture_result silent 0 1))) =
  cframes (data (mk_sys false WDone FFinished (capture_result silent 0 1))).
Proof.
  apply (rec_frames_stable_after_join silent 0 _ 0); [apply rec_finished_reachable | right; reflexivity
    | constructor].
Defined.

Lemma rec_at_most_one_frame_after_stop_witness :
  length (cframes (data (mk_sys false WCheck FCleared (capture_body silent (cap_start 0))))) <=
  length (cframes (data (mk_sys false WBody FCleared (cap_start 0)))) + 1.
Proof.
  apply (rec_at_most_one_frame_after_stop silent 0 _ 1); [| reflexivity |].
  - exists (0 + (0 + 0)).
    eapply (steps_cons _ _ _ false); [apply st_check_true|].
    eapply (steps_cons _ _ _ false); [apply st_stop | constructor].
  - change 1 with (Nat.b2n true + 0). eapply steps_cons; [apply st_body | constructor].
Defined.

(** [input()] raises while the capture thread is at its flag check. *)
Lemma rec_eof_capture_forever_witness :
  fst (record_audio (demo_world [])) = Raise EOFError /\
  recording (w_bot (snd (record_audio (demo_world [])))) = recording (w_bot (demo_world [])) /\
  (forall n s', rec_steps silent (mk_sys true WCheck FAborted (cap_start 0)) n s' -> wp s' <> WDone) /\
  (forall k, exists n s', rec_steps silent (mk_sys true WCheck FAborted (cap_start 0)) n s' /\
                     k <= length (cframes (data s'))).
Proof.
  destruct (rec_eof_capture_forever (demo_world []) (mk_sys true WCheck FAborted (cap_start 0))
              eq_refl eq_refl) as (H1 & H2 & H3).
  destruct H3 as [H3 H4].
  - exists (0 + 0). eapply (steps_cons _ _ _ false); [by apply st_abort | constructor].
  - left; reflexivity.
  - split_and!; [exact H1 | exact H2 | exact H3 | exact H4].
Defined.

Lemma rec_stop_terminates_witness :
  Acc (step_rel (capture_body silent) close_stream) (mk_sys false WCheck FCleared (cap_start 0)) /\
  exists n s', rec_steps silent (mk_sys false WCheck FCleared (cap_start 0)) n s' /\
    fp s' = FFinished /\ copen (data s') = false /\ ~ exists b s'', rec_step silent s' b s''.
Proof.
  apply (rec_stop_terminates silent 0); [| reflexivity].
  exists (0 + 0). eapply (steps_cons _ _ _ false); [apply st_stop | constructor].
Defined.

