(* ===== verification/Speech.v ===== *)
(** * Speech: the two text-to-speech routines

    - [VoiceChatBot.text_to_speech] (src/app.py 101-153).  It sets
      [self.loading], starts the spinner thread, posts to Deepgram, clears
      [self.loading] and joins the spinner.  On status 200 it runs
      [stream_and_play] (lines 112-124): it spawns [aplay] and writes every
      non-empty streamed chunk to its stdin.  Any exception goes to the
      outer [except] (lines 151-153), which clears [self.loading] but does
      not join the spinner.  Here the spinner appears as the events
      [EvSpinnerStart] and [EvSpinnerJoin]; its thread is modelled in
      [Spinner].
    - [text_to_speech_elevenlabs] (src/app_elevenlabs.py 78-130).  It
      refuses without a voice id, posts with a 30-second timeout, and
      returns [True] only for status 200 with a non-empty body.  What it
      shows in the page is a list of [el_ui] items. *)

From stdpp Require Import base list strings gmap.
From Stdlib Require Import ZArith QArith_base.
From S2P Require Import Prelude Text Providers Bot.

Local Open Scope string_scope.

(** ** app.py: Deepgram streaming playback *)

Definition DEEPGRAM_URL : string := "https://api.deepgram.com/v1/speak".

(** [params], [headers] and [payload] of lines 126-136. *)
Definition speak_request_for (key text : string) : speak_request :=
  mk_speak_request DEEPGRAM_URL "aura-2-arcas-en" "linear16" 24000
    ("Token " ++ key) "application/json" text.

(** [for chunk in response.iter_content(chunk_size=1024): if chunk:
    player.stdin.write(chunk)] *)
Fixpoint write_chunks (chunks : list bytes) : M unit :=
  match chunks with
  | [] => pret tt
  | c :: cs => (if is_nonempty c then emit (EvPlayerWrite c) else pret tt) ;; write_chunks cs
  end.

(** Lines 112-124.  [Popen] raising is outside the inner [try]. *)
Definition stream_and_play (response : speak_response) : M unit :=
  e <- get_env ;;
  if aplay_ok e then
    emit EvPlayerOpen ;;
    ptry (write_chunks (sr_chunks response) ;;
          (if sr_broken response then praise APIError else pret tt) ;;
          emit EvPlayerClose ;;
          emit EvPlayerWait)
      (fun _ => print MStreamingError)
  else praise (FileNotFoundError "aplay").

Section Deepgram.
Context `{Providers}.

(** Lines 101-153. *)
Definition text_to_speech (text : string) : M unit :=
  ptry (e <- get_env ;;
        let req := speak_request_for (deepgram_key e) text in
        modify_bot (with_loading true) ;;
        emit EvSpinnerStart ;;
        emit (EvSpeak req) ;;
        match speak_api req with
        | None => praise APIError
        | Some response =>
            modify_bot (with_loading false) ;;
            emit EvSpinnerJoin ;;
            if Z.eqb (sr_status response) 200 then stream_and_play response
            else print (MStatusCode (sr_status response)) ;; print MTTSFailed
        end)
    (fun _ => modify_bot (with_loading false) ;; print MTTSError).
End Deepgram.

(** ** app_elevenlabs.py: buffered playback *)

Definition ELEVENLABS_TTS_URL : string := "https://api.elevenlabs.io/v1/text-to-speech/".
Definition ELEVENLABS_MODEL : string := "eleven_flash_v2_5".

(** What the function shows: [st.error] messages and the [st.audio]
    player. *)
Inductive el_ui :=
| UiNoVoiceId                 (** line 82 *)
| UiAudio (data : bytes)      (** line 114, with autoplay *)
| UiNoAudio                   (** line 117 *)
| UiStatusFailed (status : Z) (** line 121 *)
| UiResponseText              (** line 122 *)
| UiTimeout                   (** line 126 *)
| UiError.                    (** line 129 *)

(** [url], [headers] and [payload] of lines 86-103; the voice settings
    are [0.5] and [0.5]. *)
Definition el_request_for (voice_id api_key : string) (text : option string) : el_request :=
  mk_el_request (ELEVENLABS_TTS_URL ++ voice_id) "audio/mpeg" "application/json" api_key text
    ELEVENLABS_MODEL (Qmake 1 2) (Qmake 1 2).

Section ElevenLabs.
Context `{Providers}.

(** The shown items, the requests sent, and the returned boolean. *)
Definition text_to_speech_elevenlabs (voice_id api_key : string) (text : option string)
    : list el_ui * list el_request * bool :=
  if negb (str_truthy voice_id) then ([UiNoVoiceId], [], false)
  else
    let req := el_request_for voice_id api_key text in
    match elevenlabs_api req with
    | ElResponse status audio_data =>
        if Z.eqb status 200 then
          if is_nonempty audio_data then ([UiAudio audio_data], [req], true)
          else ([UiNoAudio], [req], false)
        else ([UiStatusFailed status; UiResponseText], [req], false)
    | ElTimeout => ([UiTimeout], [req], false)
    | ElError => ([UiError], [req], false)
    end.
End ElevenLabs.

Local Close Scope string_scope.

(** ** Lemmas *)

(** The bytes a list of events writes to [aplay]. *)
Definition played_bytes (evs : list event) : bytes :=
  concat (map (fun e => match e with EvPlayerWrite b => b | _ => [] end) evs).

Lemma write_chunks_run cs w :
  write_chunks cs w = (Ok tt, add_events (map EvPlayerWrite (List.filter is_nonempty cs)) w).
Proof.
  revert w. induction cs as [|c cs IH]; intros w; simpl.
  - by rewrite add_events_nil.
  - py_simpl. destruct c as [|x c]; simpl; rewrite IH; [done|].
    rewrite add_event_events, add_events_app. done.
Qed.

Lemma played_bytes_writes cs :
  played_bytes (map EvPlayerWrite (List.filter is_nonempty cs)) = concat cs.
Proof.
  unfold played_bytes. rewrite map_map, map_id.
  apply concat_filter_nonempty.
Qed.

Lemma milestones_writes l : List.filter is_milestone (map EvPlayerWrite l) = [].
Proof. induction l; simpl; done. Qed.

Lemma write_chunks_moves cs : moves evolves (write_chunks cs).
Proof. induction cs; simpl; py_decompose; eauto with asr. Qed.

Lemma write_chunks_no_fuel_out cs : no_fuel_out (write_chunks cs).
Proof. induction cs; simpl; py_decompose; eauto with asr. Qed.

#[export] Hint Resolve write_chunks_moves write_chunks_no_fuel_out : asr.

Lemma stream_and_play_moves r : moves evolves (stream_and_play r).
Proof. unfold stream_and_play. py_decompose; eauto with asr. Qed.

Lemma stream_and_play_no_fuel_out r : no_fuel_out (stream_and_play r).
Proof. unfold stream_and_play. py_decompose; eauto with asr. Qed.

#[export] Hint Resolve stream_and_play_moves stream_and_play_no_fuel_out : asr.

Section DeepgramProps.
Context `{Providers}.

Lemma text_to_speech_moves t : moves evolves (text_to_speech t).
Proof. unfold text_to_speech. py_decompose; eauto with asr. Qed.

Lemma text_to_speech_no_fuel_out t : no_fuel_out (text_to_speech t).
Proof. unfold text_to_speech. py_decompose; eauto with asr. Qed.
End DeepgramProps.

#[export] Hint Resolve text_to_speech_moves text_to_speech_no_fuel_out : asr.

Section DeepgramRuns.
Context `{Providers}.

(** [text_to_speech] returns normally on every path.  It only appends
    events and clears [self.loading], and the Deepgram request is its
    only milestone. *)
Lemma text_to_speech_run text w :
  exists evs,
    text_to_speech text w = (Ok tt, add_events evs (set_bot (with_loading false (w_bot w)) w)) /\
    List.filter is_milestone evs = [EvSpeak (speak_request_for (deepgram_key (w_env w)) text)].
Proof.
  unfold text_to_speech, stream_and_play. world_simpl.
  destruct (speak_api _) as [resp|]; world_simpl.
  - destruct (Z.eqb _ _); world_simpl.
    + destruct (aplay_ok _); world_simpl.
      * rewrite write_chunks_run. world_simpl.
        destruct (sr_broken resp); world_simpl; eexists; split;
          (try (rewrite <- !app_assoc; reflexivity));
          rewrite ?List.filter_app, ?milestones_writes; done.
      * eexists; split; [rewrite <- !app_assoc; reflexivity | done].
    + eexists; split; [rewrite <- !app_assoc; reflexivity | done].
  - eexists; split; [rewrite <- !app_assoc; reflexivity | done].
Qed.
End DeepgramRuns.

Section DeepgramClaims.
Context `{Providers}.

(** C31: error path.  When Deepgram answers with a status other than
    200, [text_to_speech] starts and joins the spinner, prints the
    status and the failure, plays nothing, and raises nothing. *)
Theorem tts_non200_plays_nothing text w resp :
  speak_api (speak_request_for (deepgram_key (w_env w)) text) = Some resp ->
  sr_status resp <> 200%Z ->
  fst (text_to_speech text w) = Ok tt /\
  new_events w (snd (text_to_speech text w)) =
    [EvSpinnerStart; EvSpeak (speak_request_for (deepgram_key (w_env w)) text);
     EvSpinnerJoin; EvPrint (MStatusCode (sr_status resp)); EvPrint MTTSFailed] /\
  loading (w_bot (snd (text_to_speech text w))) = false.
Proof.
  intros Hs Hst. unfold text_to_speech. py_simpl. rewrite Hs. simpl.
  apply Z.eqb_neq in Hst. rewrite Hst. simpl.
  split_and!; [done | solve_new_events | done].
Qed.

(** C32: equivalence.  On status 200, with [aplay] available and the
    stream intact, the bytes written to [aplay] are exactly the response
    body, in order.  Skipping empty chunks ([if chunk:]) loses nothing.
    The player's stdin is then closed and the process waited for. *)
Theorem tts_200_plays_body text w resp :
  speak_api (speak_request_for (deepgram_key (w_env w)) text) = Some resp ->
  sr_status resp = 200%Z -> aplay_ok (w_env w) = true -> sr_broken resp = false ->
  fst (text_to_speech text w) = Ok tt /\
  new_events w (snd (text_to_speech text w)) =
    [EvSpinnerStart; EvSpeak (speak_request_for (deepgram_key (w_env w)) text);
     EvSpinnerJoin; EvPlayerOpen] ++
    map EvPlayerWrite (List.filter is_nonempty (sr_chunks resp)) ++
    [EvPlayerClose; EvPlayerWait] /\
  played_bytes (map EvPlayerWrite (List.filter is_nonempty (sr_chunks resp))) =
    concat (sr_chunks resp).
Proof.
  intros Hs Hst Ha Hb. unfold text_to_speech, stream_and_play. py_simpl.
  rewrite Hs. simpl. rewrite Hst. simpl. rewrite Ha. simpl.
  rewrite write_chunks_run. simpl. rewrite Hb. simpl.
  split_and!; [done | solve_new_events | apply played_bytes_writes].
Qed.

(** C33: the spinner thread is not joined when [requests.post]
    raises.  The outer [except] clears [self.loading] and prints the
    error, but never calls [spinner_thread.join()]. *)
Theorem tts_exception_spinner_not_joined text w :
  speak_api (speak_request_for (deepgram_key (w_env w)) text) = None ->
  fst (text_to_speech text w) = Ok tt /\
  new_events w (snd (text_to_speech text w)) =
    [EvSpinnerStart; EvSpeak (speak_request_for (deepgram_key (w_env w)) text);
     EvPrint MTTSError] /\
  loading (w_bot (snd (text_to_speech text w))) = false.
Proof.
  intros Hs. unfold text_to_speech. py_simpl. rewrite Hs. simpl.
  split_and!; [done | solve_new_events | done].
Qed.

(** C34: when the stream breaks while playing, the inner [except]
    prints the error and returns without closing [aplay]'s stdin or
    waiting for it.  The spec says the output process is closed after the
    stream completes or fails. *)
Theorem tts_broken_stream_leaves_player text w resp :
  speak_api (speak_request_for (deepgram_key (w_env w)) text) = Some resp ->
  sr_status resp = 200%Z -> aplay_ok (w_env w) = true -> sr_broken resp = true ->
  fst (text_to_speech text w) = Ok tt /\
  new_events w (snd (text_to_speech text w)) =
    [EvSpinnerStart; EvSpeak (speak_request_for (deepgram_key (w_env w)) text);
     EvSpinnerJoin; EvPlayerOpen] ++
    map EvPlayerWrite (List.filter is_nonempty (sr_chunks resp)) ++
    [EvPrint MStreamingError].
Proof.
  intros Hs Hst Ha Hb. unfold text_to_speech, stream_and_play. py_simpl.
  rewrite Hs. simpl. rewrite Hst. simpl. rewrite Ha. simpl.
  rewrite write_chunks_run. simpl. rewrite Hb. simpl.
  split; [done | solve_new_events].
Qed.
End DeepgramClaims.

Section ElevenLabsClaims.
Context `{Providers}.

(** C35: functional.  [text_to_speech_elevenlabs] returns [True]
    exactly when a voice id is set, the request gets status 200, and
    the body is non-empty.  Then it shows that body as the audio
    player. *)
Theorem el_tts_true_iff voice_id api_key text :
  snd (text_to_speech_elevenlabs voice_id api_key text) = true <->
  str_truthy voice_id = true /\
  exists audio_data,
    elevenlabs_api (el_request_for voice_id api_key text) = ElResponse 200 audio_data /\
    audio_data <> [] /\
    fst (text_to_speech_elevenlabs voice_id api_key text) =
      ([UiAudio audio_data], [el_request_for voice_id api_key text]).
Proof.
  unfold text_to_speech_elevenlabs.
  destruct (str_truthy voice_id) eqn:Hv; simpl.
  2:{ split; [discriminate | intros [? _]; discriminate]. }
  destruct (elevenlabs_api _) as [| |status audio_data] eqn:Ha; simpl.
  1,2: split; [discriminate | intros (_ & ? & ? & _); discriminate].
  destruct (Z.eqb_spec status 200) as [->|Hne]; simpl.
  - destruct audio_data as [|x l]; simpl.
    + split; [discriminate | intros (_ & ? & [= <-] & ? & _); done].
    + split; [intros _; split; [done|] | done].
      eexists. split_and!; [done | discriminate | done].
  - split; [discriminate | intros (_ & ? & [= E _] & _); done].
Qed.

(** Without a voice id, nothing is sent: the page shows the
    configuration error and the function returns [False]. *)
Lemma el_tts_no_voice_id_no_request voice_id api_key text :
  str_truthy voice_id = false ->
  text_to_speech_elevenlabs voice_id api_key text = ([UiNoVoiceId], [], false).
Proof. intros Hv. unfold text_to_speech_elevenlabs. rewrite Hv. done. Qed.
End ElevenLabsClaims.

(** ** Witnesses: the theorems at concrete inputs *)

Abbreviation resp500 := (mk_speak_response 500 [] false).
Abbreviation resp200 := (mk_speak_response 200 [[1; 2]%Z; []; [3]%Z] false).
Abbreviation resp200_broken := (mk_speak_response 200 [[1; 2]%Z] true).

Lemma tts_non200_plays_nothing_witness :
  let P := demo_providers None None (Some resp500) ElError in
  fst (@text_to_speech P "hi" (demo_world [])) = Ok tt /\
  new_events (demo_world []) (snd (@text_to_speech P "hi" (demo_world []))) =
    [EvSpinnerStart; EvSpeak (speak_request_for "dg-demo" "hi");
     EvSpinnerJoin; EvPrint (MStatusCode 500); EvPrint MTTSFailed] /\
  loading (w_bot (snd (@text_to_speech P "hi" (demo_world [])))) = false.
Proof.
  apply (@tts_non200_plays_nothing (demo_providers None None (Some resp500) ElError)
           "hi" (demo_world []) resp500); [reflexivity | discriminate].
Defined.

Lemma tts_200_plays_body_witness :
  let P := demo_providers None None (Some resp200) ElError in
  fst (@text_to_speech P "hi" (demo_world [])) = Ok tt /\
  new_events (demo_world []) (snd (@text_to_speech P "hi" (demo_world []))) =
    [EvSpinnerStart; EvSpeak (speak_request_for "dg-demo" "hi"); EvSpinnerJoin; EvPlayerOpen] ++
    map EvPlayerWrite (List.filter is_nonempty (sr_chunks resp200)) ++
    [EvPlayerClose; EvPlayerWait] /\
  played_bytes (map EvPlayerWrite (List.filter is_nonempty (sr_chunks resp200))) =
    concat (sr_chunks resp200).
Proof.
  apply (@tts_200_plays_body (demo_providers None None (Some resp200) ElError)
           "hi" (demo_world []) resp200); reflexivity.
Defined.

Lemma tts_exception_spinner_not_joined_witness :
  let P := demo_providers None None None ElError in
  fst (@text_to_speech P "hi" (demo_world [])) = Ok tt /\
  new_events (demo_world []) (snd (@text_to_speech P "hi" (demo_world []))) =
    [EvSpinnerStart; EvSpeak (speak_request_for "dg-demo" "hi"); EvPrint MTTSError] /\
  loading (w_bot (snd (@text_to_speech P "hi" (demo_world [])))) = false.
Proof.
  apply (@tts_exception_spinner_not_joined (demo_providers None None None ElError)
           "hi" (demo_world [])); reflexivity.
Defined.

Lemma tts_broken_stream_leaves_player_witness :
  let P := demo_providers None None (Some resp200_broken) ElError in
  fst (@text_to_speech P "hi" (demo_world [])) = Ok tt /\
  new_events (demo_world []) (snd (@text_to_speech P "hi" (demo_world []))) =
    [EvSpinnerStart; EvSpeak (speak_request_for "dg-demo" "hi"); EvSpinnerJoin; EvPlayerOpen] ++
    map EvPlayerWrite (List.filter is_nonempty (sr_chunks resp200_broken)) ++
    [EvPrint MStreamingError].
Proof.
  apply (@tts_broken_stream_leaves_player (demo_providers None None (Some resp200_broken) ElError)
           "hi" (demo_world []) resp200_broken); reflexivity.
Defined.

