(* ===== verification/Spinner.v ===== *)
(** * Spinner: the [loading_spinner] thread of [text_to_speech]

    [VoiceChatBot.text_to_speech] (src/app.py 101-153) sets
    [self.loading = True] and starts [loading_spinner] (lines 103-110).
    That thread loops [for c in itertools.cycle(['|', '/', '-', '\\']):
    if not self.loading: break; sys.stdout.write(...c); ...].  The
    foreground blocks in [requests.post] (line 142) and then goes one of
    two ways:
    - normal path: it clears [self.loading] and joins the thread (lines
      143-144), then plays or reports the status;
    - [except] (lines 151-153): it clears [self.loading] and prints the
      error, but never joins the thread.

    This is the [Worker] pair with the flag [self.loading].  The data is
    the list of spinner characters written so far.  The body writes the
    next character of the cycle.  The work after the join does not touch
    that list (it is [id]).  The two paths are the [Worker] steps
    [st_stop]/[st_join] and, since the [AbortExit] instance of this pair
    says that its exception exit clears the flag, [st_abort_clear].  The
    constant text around the character and the final ['\r'] are left
    out.

    The theorem ties the two models of the [except] path: the sequential
    [text_to_speech] clears [self.loading] there, and the threaded model
    with that exit leaks no thread, unlike [record_audio] (where the flag
    is never cleared on [EOFError]).  Every run of the spinner ends after
    at most one more character. *)

From stdpp Require Import base list strings.
From S2P Require Import Prelude Providers Bot Speech Worker.

(** [['|', '/', '-', '\\']] *)
Definition SPINNER_CHARS : list string := ["|"; "/"; "-"; "\"]%string.

(** The [i]-th character [itertools.cycle] yields. *)
Definition spinner_char (i : nat) : string := nth (i mod 4) SPINNER_CHARS "|"%string.

(** Lines 105-109: [sys.stdout.write('\r... ' + c)], with [c] the next
    character of the cycle. *)
Definition spin_body (written : list string) : list string :=
  written ++ [spinner_char (List.length written)].

(** The [except] of lines 151-153 clears [self.loading]. *)
#[export] Instance spin_abort_exit : AbortExit (list string) := true.

Definition spin_step := Worker.step spin_body id.
Definition spin_steps := Worker.steps spin_body id.
Definition spin_reachable := Worker.reachable spin_body id [].

Section SpinnerClaims.
Context `{Providers}.

(** C22: error path and termination.  When [requests.post] raises,
    the [except] of [text_to_speech] clears [self.loading] (line 152)
    but never joins the spinner thread.  In the threaded model this is
    the only exception exit of the spinner pair, and it leaks no
    thread: from every reachable state after it, every run of the two
    threads is finite ([Acc]), the spinner writes at most one more
    character, and a run reaches the state where it has left its loop
    and nothing can step any more. *)
Theorem spinner_except_terminates text w s :
  speak_api (speak_request_for (deepgram_key (w_env w)) text) = None ->
  loading (w_bot (snd (text_to_speech text w))) = false /\
  (spin_reachable s -> fp s = FAborted \/ fp s = FAbortedClear ->
   Acc (step_rel spin_body id) s /\
   (forall n s', spin_steps s n s' -> n <= 1) /\
   (exists n s', spin_steps s n s' /\ wp s' = WDone /\ ~ (exists b s'', spin_step s' b s''))).
Proof.
  intros _. split.
  { destruct (text_to_speech_run text w) as (evs & -> & _). reflexivity. }
  intros Hr Hab. pose proof (reachable_exit _ _ _ _ Hr Hab) as Hf. cbv [abort_clears spin_abort_exit] in Hf.
  pose proof (reachable_winv _ _ _ _ Hr) as Hinv.
  assert (Hfl : flag s = false) by (destruct Hinv as (-> & _); by rewrite Hf).
  split_and!.
  - by apply cleared_terminates.
  - intros n s' Hs. pose proof (steps_after_clear _ _ _ _ _ Hfl Hs) as Hn.
    unfold body_budget in Hn. destruct (wp s); lia.
  - destruct s as [fl wc f d]; simpl in *; subst fl f.
    assert (Hstuck : forall d', ~ exists b s'', spin_step (mk_sys false WDone FAbortedClear d') b s'')
      by (intros d' (b & s'' & Hst); inversion Hst).
    destruct wc.
    + eexists _, _; split; [|split; [shelve | apply Hstuck]].
      eapply (steps_cons _ _ _ false); [apply st_check_false | apply steps_refl].
    + eexists _, _; split; [|split; [shelve | apply Hstuck]].
      eapply (steps_cons _ _ _ true); [apply st_body|].
      eapply (steps_cons _ _ _ false); [apply st_check_false | apply steps_refl].
    + exists 0, (mk_sys false WDone FAbortedClear d).
      split; [constructor | split; [reflexivity | apply Hstuck]].
  Unshelve. all: reflexivity.
Qed.
End SpinnerClaims.

(** ** Witness *)

(** Deepgram is unreachable, and the spinner is writing its first
    character when [requests.post] raises. *)
Lemma spinner_except_terminates_witness :
  let P := demo_providers None None None ElError in
  @loading (w_bot (snd (@text_to_speech P "hi"%string (demo_world [])))) = false /\
  Acc (step_rel spin_body id) (mk_sys false WBody FAbortedClear []) /\
  (forall n s', spin_steps (mk_sys false WBody FAbortedClear []) n s' -> n <= 1) /\
  (exists n s', spin_steps (mk_sys false WBody FAbortedClear []) n s' /\ wp s' = WDone /\
                ~ (exists b s'', spin_step s' b s'')).
Proof.
  destruct (@spinner_except_terminates (demo_providers None None None ElError) "hi"%string
              (demo_world []) (mk_sys false WBody FAbortedClear []) eq_refl) as [H1 H2].
  destruct H2 as (H2 & H3 & H4).
  - exists (0 + (0 + 0)).
    eapply (steps_cons _ _ _ false); [apply st_check_true|].
    eapply (steps_cons _ _ _ false); [by apply st_abort_clear | constructor].
  - right; reflexivity.
  - split_and!; [exact H1 | exact H2 | exact H3 | exact H4].
Defined.
