(* ===== verification/Session.v ===== *)
(** * Session: the mode loops of [VoiceChatBot] (src/app.py 190-270)

    [text_chat_mode] and [voice_chat_mode] are mutually recursive
    [while True] loops.  Each iteration reads one line with [input()].  A
    ['voice'] (resp. ['text']) line calls the other mode and [break]s when
    it returns.  [run] is the menu loop.  A loop iteration costs one unit
    of fuel, taken when its [input()] is reached.

    - [text_turn]: lines 203-213, one line of text chat.
    - [voice_turn]: lines 227-246, one voice exchange.
    - [text_loop] / [voice_loop]: the [while True] loops.
    - [text_chat_mode] / [voice_chat_mode]: the header, then the loop.
    - [run_loop] / [run]: the menu (lines 248-270).
    - [main]: executing the script: the module-level [import pyaudio]
      (line 6), the keys and the OpenAI client (lines 16-20, [load_env]),
      then the [__main__] block (lines 272-283).

    The section [Preservation] shows that a predicate on the world
    preserved by every primitive, and by every event a session emits
    ([run_event]), is preserved by [run].  Its instances are the events
    of the trace ([TraceEvents]: single-turn chat requests, no install
    hint) and the well-formed files ([Files]). *)

From stdpp Require Import base list strings gmap.
From Stdlib Require Import ZArith.
From S2P Require Import Prelude Text Persona Providers Bot Pipeline Recorder Speech.

Local Open Scope string_scope.

Section Session.
Context `{Providers}.

(** Lines 203-213: a non-blank line goes to the chat provider.  A reply
    is printed and offered for playback, which reads one more line. *)
Definition text_turn (user_input : string) : M unit :=
  if str_truthy (strip user_input) then
    print MThinking ;;
    response <- generate_response user_input ;;
    match response with
    | Some r =>
        if str_truthy r then
          print (MReply r) ;;
          tts_choice <- input ;;
          (if String.eqb (lower tts_choice) "y"
           then print MPlaying ;; text_to_speech r
           else pret tt) ;;
          print MNewline
        else pret tt
    | None => pret tt
    end
  else pret tt.

(** Lines 228-246: record, transcribe, answer, speak, and remove the
    temporary file. *)
Definition voice_turn : M unit :=
  modify_bot (with_recording true) ;;
  audio_file <- record_audio ;;
  print MTranscribing ;;
  transcript <- transcribe_audio audio_file ;;
  (match transcript with
   | Some t =>
       if str_truthy t then
         print (MYouSaid t) ;;
         print MThinking ;;
         response <- generate_response t ;;
         match response with
         | Some r =>
             if str_truthy r then
               print (MReply r) ;;
               print MPlayingResponse ;;
               text_to_speech r
             else pret tt
         | None => pret tt
         end
       else pret tt
   | None => pret tt
   end) ;;
  os_remove audio_file ;;
  print MNewline.

(** Lines 194-213 and 219-246. *)
Fixpoint text_loop (fuel : nat) : M unit :=
  match fuel with
  | 0 => pfuel
  | S fuel' =>
      user_input <- input ;;
      if String.eqb (lower user_input) "quit" then pret tt
      else if String.eqb (lower user_input) "voice" then
        print MVoiceHeader ;; voice_loop fuel'
      else text_turn user_input ;; text_loop fuel'
  end
with voice_loop (fuel : nat) : M unit :=
  match fuel with
  | 0 => pfuel
  | S fuel' =>
      choice <- input ;;
      if String.eqb (lower choice) "quit" then pret tt
      else if String.eqb (lower choice) "text" then
        print MTextHeader ;; text_loop fuel'
      else if String.eqb choice EmptyString then voice_turn ;; voice_loop fuel'
      else voice_loop fuel'
  end.

(** Lines 190-192 and 215-217. *)
Definition text_chat_mode (fuel : nat) : M unit := print MTextHeader ;; text_loop fuel.
Definition voice_chat_mode (fuel : nat) : M unit := print MVoiceHeader ;; voice_loop fuel.

(** Lines 252-268. *)
Fixpoint run_loop (fuel : nat) : M unit :=
  match fuel with
  | 0 => pfuel
  | S fuel' =>
      print MMenu ;;
      choice <- input ;;
      if String.eqb choice "1" then text_chat_mode fuel' ;; run_loop fuel'
      else if String.eqb choice "2" then voice_chat_mode fuel' ;; run_loop fuel'
      else if String.eqb choice "3" then print MGoodbye
      else print MInvalidChoice ;; run_loop fuel'
  end.

(** Lines 248-270: the welcome, the menu loop, [self.audio.terminate()]. *)
Definition run (fuel : nat) : M unit :=
  print MWelcome ;; run_loop fuel ;; emit EvTerminate.

(** Executing src/app.py as a script in the process environment
    [environ], with [pyaudio_installed] telling whether [import pyaudio]
    succeeds.  The module-level [import pyaudio] of line 6 runs first.
    Lines 16-20 then read the keys and build the OpenAI client, which
    raises when [OPENAI_API_KEY] is unset ([load_env]).  Then comes the
    block of lines 272-283: the [try: import pyaudio / except
    ImportError:] check, [VoiceChatBot()] and [bot.run()].  The other
    imports of lines 1-14 cannot fail in this model. *)
Definition main (environ : gmap string string) (pyaudio_installed : bool) (fuel : nat) : M unit :=
  (if pyaudio_installed then pret tt else praise (ImportError "pyaudio")) ;;
  e <- get_env ;;
  (match load_env environ e with
   | Some e' => put_env e'
   | None => praise OpenAIError
   end) ;;
  (if pyaudio_installed then pret tt
   else print MPyAudioMissing ;; print MPipInstall ;; praise (SystemExit 1)) ;;
  put_bot bot_init ;;
  run fuel.
End Session.

Local Close Scope string_scope.

(** ** Single-turn chat requests *)

(** An event that is a chat request carries the fixed persona and exactly
    one user message. *)
Definition chat_ok (e : event) : Prop :=
  match e with EvChat r => single_turn App.SYSTEM_PROMPT r | _ => True end.

(** The install hint of lines 277-278. *)
Definition install_hint (e : event) : Prop :=
  e = EvPrint MPyAudioMissing \/ e = EvPrint MPipInstall.

(** What the events of a session satisfy: chat requests are single-turn,
    and the install hint is not among them. *)
Definition run_event (e : event) : Prop := chat_ok e /\ ~ install_hint e.

(** The events after the first [n] of the trace all satisfy [Q]. *)
Definition events_after (Q : event -> Prop) (n : nat) (w : World) : Prop :=
  Forall Q (drop n (w_trace w)).

(** ** Runs of the turns *)

Section SessionRuns.
Context `{Providers}.

(** The milestones of the part of a voice turn after the transcription:
    the chat call for a truthy transcript, then the speech call for a
    truthy reply. *)
Definition reply_milestones (transcript : option string) (e : env) : list event :=
  match transcript with
  | Some t =>
      if str_truthy t then
        let req := chat_request_for App.SYSTEM_PROMPT None t in
        EvChat req ::
        match chat_api req with
        | Some (Some r) =>
            if str_truthy r then [EvSpeak (speak_request_for (deepgram_key e) r)] else []
        | _ => []
        end
      else []
  | None => []
  end.

Lemma voice_turn_run w l rest :
  mic_ok (w_env w) = true -> w_stdin w = l :: rest ->
  exists w',
    voice_turn w = (Ok tt, w') /\ evolves w w' /\ w_stdin w' = rest /\
    w_fs w' = delete TEMP_WAV (w_fs w) /\
    List.filter is_milestone (new_events w w') =
      [EvWavWrite TEMP_WAV (recorded_wav w); EvTranscribe (recorded_wav w)] ++
      reply_milestones (transcribe_api (recorded_wav w)) (w_env w) ++ [EvRemove TEMP_WAV].
Proof.
  intros Hdev E. unfold voice_turn. world_simpl.
  erewrite record_audio_run by (exact Hdev || exact E). unfold after_recording. world_simpl.
  erewrite transcribe_audio_run by apply lookup_insert_eq.
  change (recorded_wav {| w_bot := _; w_stdin := _; w_trace := _; w_fs := _;
    w_takes := w_takes w; w_mic_pos := w_mic_pos w; w_env := w_env w |}) with (recorded_wav w).
  unfold reply_milestones.
  destruct (transcribe_api (recorded_wav w)) as [t|]; world_simpl.
  1: destruct (str_truthy t); world_simpl.
  1: rewrite generate_response_run; cbv zeta;
     destruct (chat_api _) as [[r|]|]; world_simpl.
  1: destruct (str_truthy r); world_simpl.
  1: match goal with |- context [text_to_speech ?r ?W] =>
       destruct (text_to_speech_run r W) as (evs & -> & Hm) end; world_simpl.
  all: rewrite lookup_insert_eq; world_simpl.
  all: eexists; split; [reflexivity|].
  all: unfold evolves, new_events; cbn [w_trace w_stdin w_env w_fs].
  all: split_and!; [rewrite <- ?app_assoc; eexists; reflexivity
                   | rewrite E; by apply suffix_cons_r | done | done
                   | apply delete_insert_eq | ].
  all: rewrite <- ?app_assoc, drop_app_length, ?List.filter_app; cbn.
  all: rewrite ?Hm; done.
Qed.
(** [self.audio.open] raises: the voice turn stops at once, with
    [self.recording] set and the frames reset. *)
Lemma voice_turn_no_device w :
  mic_ok (w_env w) = false ->
  voice_turn w = (Raise (OSError "input device"%string),
                  set_bot (with_frames [] (with_recording true (w_bot w))) w).
Proof.
  intros Hm. unfold voice_turn. world_simpl.
  rewrite record_audio_no_device by exact Hm. reflexivity.
Qed.

(** The voice mode does not catch it. *)
Lemma voice_loop_no_device f w rest :
  w_stdin w = "" :: rest -> mic_ok (w_env w) = false ->
  voice_loop (S f) w = (Raise (OSError "input device"%string),
    set_bot (with_frames [] (with_recording true (w_bot w))) (set_stdin rest w)).
Proof.
  intros E Hm. cbn [voice_loop]. world_simpl. rewrite E.
  with_strategy opaque [voice_turn] cbn.
  rewrite voice_turn_no_device by exact Hm. reflexivity.
Qed.
End SessionRuns.

Section SessionProps.
Context `{Providers}.

Lemma text_turn_moves u : moves evolves (text_turn u).
Proof. unfold text_turn. py_decompose; eauto with asr. Qed.

Lemma text_turn_no_fuel_out u : no_fuel_out (text_turn u).
Proof. unfold text_turn. py_decompose; eauto with asr. Qed.

Lemma voice_turn_moves : moves evolves voice_turn.
Proof. unfold voice_turn. py_decompose; eauto with asr. Qed.

Lemma voice_turn_no_fuel_out : no_fuel_out voice_turn.
Proof. unfold voice_turn. py_decompose; eauto with asr. Qed.

Hint Resolve text_turn_moves text_turn_no_fuel_out voice_turn_moves
  voice_turn_no_fuel_out : asr.

Lemma loops_moves f : moves evolves (text_loop f) /\ moves evolves (voice_loop f).
Proof.
  induction f as [|f [IHt IHv]]; simpl; split; py_decompose; eauto with asr.
Qed.

Lemma run_loop_moves f : moves evolves (run_loop f).
Proof.
  induction f as [|f IH]; simpl; unfold text_chat_mode, voice_chat_mode;
    py_decompose;
    first [apply IH | apply (proj1 (loops_moves _)) | apply (proj2 (loops_moves _))
          | eauto with asr].
Qed.

Lemma evolves_stdin_length w w' :
  evolves w w' -> length (w_stdin w') <= length (w_stdin w).
Proof. intros (_ & Hs & _). by apply suffix_length. Qed.

(** One iteration: [input()] then a continuation run with a shorter
    stdin. *)
Lemma input_then_fuel {A} (k : string -> M A) w f :
  length (w_stdin w) < S f ->
  (forall l w', length (w_stdin w') < f -> fst (k l w') <> OutOfFuel) ->
  fst (pbind input k w) <> OutOfFuel.
Proof.
  intros Hlt Hk. unfold pbind, input.
  destruct (w_stdin w) as [|l ls] eqn:E; simpl; [discriminate|].
  apply Hk. simpl in *. lia.
Qed.

(** A fuel-free step that only shrinks stdin, then a continuation. *)
Lemma step_then_fuel {A B} (c : M A) (k : A -> M B) w f :
  no_fuel_out c -> moves evolves c -> length (w_stdin w) < f ->
  (forall a w', length (w_stdin w') < f -> fst (k a w') <> OutOfFuel) ->
  fst (pbind c k w) <> OutOfFuel.
Proof.
  intros Hc Hm Hlt Hk. apply bind_no_fuel_out_from; [apply Hc | done |].
  intros a w' Hw. apply Hk. pose proof (evolves_stdin_length _ _ Hw). lia.
Qed.

Lemma loops_enough_fuel f :
  forall w, length (w_stdin w) < f ->
  fst (text_loop f w) <> OutOfFuel /\ fst (voice_loop f w) <> OutOfFuel.
Proof.
  induction f as [|f IH]; intros w Hlt; [lia|].
  simpl. split; apply (input_then_fuel _ _ f Hlt); intros l w' Hw'.
  - repeat case_match; try discriminate.
    + apply (step_then_fuel _ _ _ f); eauto with asr. intros. by apply IH.
    + apply (step_then_fuel _ _ _ f); eauto with asr. intros. by apply IH.
  - repeat case_match; try discriminate.
    + apply (step_then_fuel _ _ _ f); eauto with asr. intros. by apply IH.
    + apply (step_then_fuel _ _ _ f); eauto with asr. intros. by apply IH.
    + by apply IH.
Qed.

Lemma run_loop_enough_fuel f :
  forall w, length (w_stdin w) < f -> fst (run_loop f w) <> OutOfFuel.
Proof.
  induction f as [|f IH]; intros w Hlt; [lia|]. simpl.
  apply (step_then_fuel _ _ _ (S f)); eauto with asr. intros _ w1 Hw1.
  apply (input_then_fuel _ _ f Hw1). intros l w2 Hw2.
  unfold text_chat_mode, voice_chat_mode.
  repeat case_match; try discriminate.
  1,2: apply bind_no_fuel_out_from;
    [ apply (step_then_fuel _ _ _ f); eauto with asr; intros; apply loops_enough_fuel; done
    | py_decompose; first [apply (proj1 (loops_moves _)) | apply (proj2 (loops_moves _))
                          | eauto with asr]
    | intros _ w3 Hw3; apply IH; pose proof (evolves_stdin_length _ _ Hw3); lia ].
  all: apply (step_then_fuel _ _ _ f); eauto with asr.
Qed.
End SessionProps.

(** ** Every chat request is single-turn *)


#[export] Hint Extern 1 (chat_ok _) =>
  cbn [chat_ok]; first [exact I | eexists; reflexivity] : asr.
#[export] Hint Extern 1 (run_event _) =>
  split; [cbn [chat_ok]; first [exact I | eexists; reflexivity]
         | intros [?|?]; discriminate] : asr.

(** ** Invariants of the world preserved by a whole session

    A predicate [P] on the world that every primitive the bot uses
    preserves is preserved by [run].  The primitives are: [emit] of the
    events the code emits (all [chat_ok]), [input], the bot and
    environment accessors, [open] for reading, [os.remove] and the whole
    of [record_audio].  [record_audio] is a hypothesis of its own so that
    an invariant on the files can use [record_audio_run]. *)

Section Preservation.
Context `{Providers} (P : World -> Prop).
Hypothesis P_emit : forall e, run_event e -> preserves P (emit e).
Hypothesis P_input : preserves P input.
Hypothesis P_prims :
  preserves P get_bot /\ preserves P get_env /\ (forall b, preserves P (put_bot b)) /\
  (forall f, preserves P (modify_bot f)) /\ (forall p, preserves P (open_read p)).
Hypothesis P_os_remove : forall nm, preserves P (os_remove nm).
Hypothesis P_record : preserves P record_audio.

Lemma preserves_print m : m <> MPyAudioMissing -> m <> MPipInstall -> preserves P (print m).
Proof. intros H1 H2. apply P_emit. split; [exact I | intros [?|?]; congruence]. Qed.

#[local] Hint Extern 1 (_ <> _) => discriminate : asr.

#[local] Hint Resolve P_emit preserves_print P_input P_os_remove P_record : asr.
#[local] Hint Extern 1 (preserves _ _) => apply P_prims : asr.

Lemma preserves_components :
  (forall p, preserves P (generate_response p)) /\
  (forall p, preserves P (transcribe_audio p)) /\
  (forall t, preserves P (text_to_speech t)).
Proof.
  assert (Hw : forall cs, preserves P (write_chunks cs)).
  { induction cs; simpl; py_decompose; eauto with asr. }
  split_and!; intros;
    unfold generate_response, transcribe_audio, text_to_speech, stream_and_play;
    py_decompose; eauto with asr.
Qed.

#[local] Hint Extern 1 (preserves _ _) => apply preserves_components : asr.

Lemma preserves_turns : (forall u, preserves P (text_turn u)) /\ preserves P voice_turn.
Proof. split; intros; unfold text_turn, voice_turn; py_decompose; eauto with asr. Qed.

#[local] Hint Extern 1 (preserves _ _) => apply preserves_turns : asr.

Lemma preserves_loops f : preserves P (text_loop f) /\ preserves P (voice_loop f).
Proof. induction f as [|f [IHt IHv]]; simpl; split; py_decompose; eauto with asr. Qed.

Lemma preserves_run_loop f : preserves P (run_loop f).
Proof.
  induction f as [|f IH]; simpl; unfold text_chat_mode, voice_chat_mode; py_decompose;
    first [apply IH | apply (proj1 (preserves_loops _)) | apply (proj2 (preserves_loops _))
          | eauto with asr].
Qed.

Lemma preserves_run f : preserves P (run f).
Proof.
  unfold run.   apply preserves_bind; [by apply preserves_print|intros []].
  apply preserves_bind; [apply preserves_run_loop|intros []]. apply P_emit. eauto with asr.
Qed.
End Preservation.

(** The instance for [events_after Q n], for any [Q] that the events of
    a session satisfy: only [emit] extends the trace. *)
Section TraceEvents.
Context `{Providers} (Q : event -> Prop) (HQ : forall e, run_event e -> Q e) (n : nat).
Local Abbreviation P := (events_after Q n).

Lemma preserves_same_trace {A} (c : M A) :
  (forall w, w_trace (snd (c w)) = w_trace w) -> preserves P c.
Proof. intros Hc w Hw. unfold events_after. rewrite Hc. exact Hw. Qed.

Lemma preserves_add_event e w : Q e -> P w -> P (add_event e w).
Proof.
  intros He Hw. unfold events_after in *. simpl. rewrite drop_app.
  apply Forall_app. split; [done|].
  destruct (n - List.length (w_trace w)); simpl; [by constructor | rewrite drop_nil; constructor].
Qed.

Lemma events_ok_run f : preserves P (run f).
Proof.
  assert (Hi : preserves P input).
  { apply preserves_same_trace. intros w. unfold input. by destruct (w_stdin w). }
  assert (Hp : preserves P get_bot /\ preserves P get_env /\ (forall b, preserves P (put_bot b)) /\
               (forall f, preserves P (modify_bot f)) /\ (forall p, preserves P (open_read p))).
  { split_and!; intros; apply preserves_same_trace; intros w; try done.
    unfold open_read. by destruct (w_fs w !! p). }
  assert (Hr : forall nm, preserves P (os_remove nm)).
  { intros nm w Hw. unfold os_remove. destruct (w_fs w !! nm); [|exact Hw].
    apply preserves_add_event; [apply HQ; eauto with asr | exact Hw]. }
  apply preserves_run; [intros e He w Hw; apply preserves_add_event; auto | exact Hi | exact Hp | exact Hr |].
  unfold record_audio.
  py_decompose; first [exact Hi | apply Hp | apply preserves_ret
                      | apply preserves_same_trace; done
                      | intros w Hw; apply preserves_add_event; [apply HQ; eauto with asr | exact Hw]].
Qed.

(** [main] adds to [run] only its start-up, which emits nothing: the
    install hint is behind the import that has already succeeded. *)
Lemma events_ok_main environ inst f : preserves P (main environ inst f).
Proof.
  intros w Hw. unfold main. destruct inst; world_simpl; [|exact Hw].
  destruct (load_env environ (w_env w)) as [e'|]; world_simpl; [|exact Hw].
  apply events_ok_run. exact Hw.
Qed.
End TraceEvents.


(** ** Theorems of the session *)

Section SessionClaims.
Context `{Providers}.

(** C1: termination.  With more fuel than there are lines on stdin,
    [run] never exhausts its fuel.  Every loop iteration consumes a line,
    so the bot ends normally (exit chosen) or with [EOFError]. *)
Theorem run_enough_fuel f w :
  length (w_stdin w) < f -> fst (run f w) <> OutOfFuel.
Proof.
  intros Hlt. unfold run.
  apply (step_then_fuel _ _ _ f); eauto with asr. intros _ w1 Hw1.
  apply bind_no_fuel_out_from; [by apply run_loop_enough_fuel | apply run_loop_moves |].
  intros _ w2 _. discriminate.
Qed.

(** C6: invariant.  Every chat request a whole session sends holds
    exactly the fixed persona of src/app.py and the current user text.
    No earlier turn is ever sent as context. *)
Theorem run_chats_single_turn f w :
  Forall chat_ok (new_events w (snd (run f w))).
Proof.
  apply (events_ok_run chat_ok (fun e He => proj1 He) (List.length (w_trace w)) f w).
  unfold events_after. rewrite drop_all. constructor.
Qed.

(** C2: safety.  A voice turn whose transcription fails (the client
    raised, or the transcript is empty) makes no chat call and no speech
    call.  It only records, tries to transcribe, and removes the
    recording. *)
Theorem voice_turn_failed_transcription_no_chat w l rest :
  mic_ok (w_env w) = true -> w_stdin w = l :: rest ->
  opt_str_truthy (transcribe_api (recorded_wav w)) = false ->
  fst (voice_turn w) = Ok tt /\
  List.filter is_milestone (new_events w (snd (voice_turn w))) =
    [EvWavWrite TEMP_WAV (recorded_wav w); EvTranscribe (recorded_wav w); EvRemove TEMP_WAV].
Proof.
  intros Hdev E Ht. destruct (voice_turn_run w l rest Hdev E) as (w' & -> & _ & _ & _ & Hm).
  split; [done|]. simpl. rewrite Hm.
  unfold reply_milestones. destruct (transcribe_api _) as [t|]; simpl in *; [rewrite Ht|]; done.
Qed.

(** C3: safety.  When the transcript is non-empty but the chat call
    fails (the client raised, or the content is empty or [None]), the
    turn makes no speech call. *)
Theorem voice_turn_failed_chat_no_speech w l rest t :
  mic_ok (w_env w) = true -> w_stdin w = l :: rest ->
  transcribe_api (recorded_wav w) = Some t -> str_truthy t = true ->
  opt_str_truthy (default None (chat_api (chat_request_for App.SYSTEM_PROMPT None t))) = false ->
  fst (voice_turn w) = Ok tt /\
  List.filter is_milestone (new_events w (snd (voice_turn w))) =
    [EvWavWrite TEMP_WAV (recorded_wav w); EvTranscribe (recorded_wav w);
     EvChat (chat_request_for App.SYSTEM_PROMPT None t); EvRemove TEMP_WAV].
Proof.
  intros Hdev E Ht Htr Hc. destruct (voice_turn_run w l rest Hdev E) as (w' & -> & _ & _ & _ & Hm).
  split; [done|]. simpl. rewrite Hm, Ht. unfold reply_milestones. rewrite Htr.
  destruct (chat_api _) as [[r|]|]; simpl in *; [rewrite Hc|..]; done.
Qed.

(** C4: functional.  A voice turn whose transcription and reply both
    succeed performs, in this order: write the recording, transcribe it,
    ask the chat provider with the transcript, synthesise the reply,
    remove the recording. *)
Theorem voice_turn_success_order w l rest t r :
  mic_ok (w_env w) = true -> w_stdin w = l :: rest ->
  transcribe_api (recorded_wav w) = Some t -> str_truthy t = true ->
  chat_api (chat_request_for App.SYSTEM_PROMPT None t) = Some (Some r) -> str_truthy r = true ->
  fst (voice_turn w) = Ok tt /\
  List.filter is_milestone (new_events w (snd (voice_turn w))) =
    [EvWavWrite TEMP_WAV (recorded_wav w); EvTranscribe (recorded_wav w);
     EvChat (chat_request_for App.SYSTEM_PROMPT None t);
     EvSpeak (speak_request_for (deepgram_key (w_env w)) r); EvRemove TEMP_WAV].
Proof.
  intros Hdev E Ht Htr Hc Hr. destruct (voice_turn_run w l rest Hdev E) as (w' & -> & _ & _ & _ & Hm).
  split; [done|]. simpl. rewrite Hm, Ht. unfold reply_milestones. rewrite Htr, Hc, Hr. done.
Qed.

(** C5: safety (resources).  Whatever the three providers answer, a
    voice turn that got its stop line returns normally and leaves the
    file system as it found it, minus [temp_recording.wav].  The
    recording is removed unconditionally and [os.remove] never fails. *)
Theorem voice_turn_removes_recording w l rest :
  mic_ok (w_env w) = true -> w_stdin w = l :: rest ->
  fst (voice_turn w) = Ok tt /\ w_fs (snd (voice_turn w)) = delete TEMP_WAV (w_fs w) /\
  w_stdin (snd (voice_turn w)) = rest.
Proof.
  intros Hdev E. destruct (voice_turn_run w l rest Hdev E) as (w' & -> & _ & Hs & Hf & _). done.
Qed.

(** C23: error path.  If stdin ends while [record_audio] waits for the
    stop line, [EOFError] escapes the voice turn with [self.recording]
    still [True].  Nothing was written or removed, and no provider was
    called.  The capture thread is left running ([rec_eof_capture_forever]). *)
Theorem voice_turn_eof_keeps_recording w :
  mic_ok (w_env w) = true -> w_stdin w = [] ->
  fst (voice_turn w) = Raise EOFError /\
  recording (w_bot (snd (voice_turn w))) = true /\
  w_fs (snd (voice_turn w)) = w_fs w /\
  new_events w (snd (voice_turn w)) = [EvStreamOpen; EvPrint MRecording].
Proof.
  intros Hdev E. unfold voice_turn. world_simpl.
  erewrite record_audio_eof by (exact Hdev || exact E). world_simpl.
  split_and!; [done | done | done | solve_new_events].
Qed.

(** C25: functional.  The [quit] token, in any letter case, ends the
    text mode and the voice mode.  Its only effect is consuming the line:
    nothing is printed and no provider is called. *)
Theorem mode_quit_returns f w l rest :
  w_stdin w = l :: rest -> String.eqb (lower l) "quit" = true ->
  text_loop (S f) w = (Ok tt, set_stdin rest w) /\
  voice_loop (S f) w = (Ok tt, set_stdin rest w).
Proof. intros E Hq. simpl. world_simpl. rewrite E. simpl. rewrite Hq. done. Qed.

(** In text mode the [voice] token switches to voice mode. *)
Lemma text_voice_switches f w l rest :
  w_stdin w = l :: rest -> String.eqb (lower l) "voice" = true ->
  text_loop (S f) w = voice_chat_mode f (set_stdin rest w).
Proof.
  intros E Hv. simpl. world_simpl. rewrite E. simpl. rewrite Hv.
  assert (Hq : String.eqb (lower l) "quit" = false).
  { apply String.eqb_eq in Hv. rewrite Hv. done. }
  rewrite Hq. done.
Qed.

(** In voice mode the [text] token switches to text mode. *)
Lemma voice_text_switches f w l rest :
  w_stdin w = l :: rest -> String.eqb (lower l) "text" = true ->
  voice_loop (S f) w = text_chat_mode f (set_stdin rest w).
Proof.
  intros E Ht. simpl. world_simpl. rewrite E. simpl. rewrite Ht.
  assert (Hq : String.eqb (lower l) "quit" = false).
  { apply String.eqb_eq in Ht. rewrite Ht. done. }
  rewrite Hq. done.
Qed.

(** C26: functional.  The mode-switch tokens, in any letter case, hand
    the rest of stdin to the other mode without calling a provider:
    [voice] in text mode, [text] in voice mode.  When the other mode
    returns, the first one returns too. *)
Theorem mode_switch_tokens f w l rest :
  w_stdin w = l :: rest ->
  (String.eqb (lower l) "voice" = true -> text_loop (S f) w = voice_chat_mode f (set_stdin rest w)) /\
  (String.eqb (lower l) "text" = true -> voice_loop (S f) w = text_chat_mode f (set_stdin rest w)).
Proof.
  intros E. split; intros Hs;
    [exact (text_voice_switches f w l rest E Hs) | exact (voice_text_switches f w l rest E Hs)].
Qed.

(** C27: functional.  A blank line (whitespace only) in text mode is
    skipped: the loop goes on with the rest of stdin, and nothing is
    printed or sent. *)
Theorem text_blank_line_no_call f w l rest :
  w_stdin w = l :: rest -> all_space l = true ->
  text_loop (S f) w = text_loop f (set_stdin rest w).
Proof.
  intros E Hs. simpl. world_simpl. rewrite E. simpl.
  pose proof (all_space_lower l Hs) as Hl.
  destruct (String.eqb_spec (lower l) "quit") as [Eq|_]; [rewrite Eq in Hl; discriminate|].
  destruct (String.eqb_spec (lower l) "voice") as [Eq|_]; [rewrite Eq in Hl; discriminate|].
  unfold text_turn. assert (Hst : str_truthy (strip l) = false) by by apply strip_falsy_iff.
  rewrite Hst. world_simpl. done.
Qed.

(** A menu choice other than [1], [2] and [3] re-prompts. *)
Lemma menu_invalid_reprompts f w l rest :
  w_stdin w = l :: rest -> l <> "1" -> l <> "2" -> l <> "3" ->
  run_loop (S f) w =
  run_loop f (add_events [EvPrint MInvalidChoice] (set_stdin rest (add_events [EvPrint MMenu] w))).
Proof.
  intros E H1 H2 H3. simpl. world_simpl. rewrite E. simpl.
  apply String.eqb_neq in H1, H2, H3. rewrite H1, H2, H3. done.
Qed.

(** Choosing [3] at the first menu ends the session. *)
Lemma menu_exit_terminates f w rest :
  w_stdin w = "3" :: rest ->
  run (S f) w =
  (Ok tt, add_events [EvPrint MWelcome; EvPrint MMenu; EvPrint MGoodbye; EvTerminate]
            (set_stdin rest w)).
Proof. intros E. unfold run. simpl. world_simpl. rewrite E. simpl. solve_world. Qed.

(** C28: functional and error path.  At the menu, a choice other than
    [1], [2] and [3] prints the error and shows the menu again on the rest
    of stdin.  The choice [3] prints the goodbye, releases the audio
    device ([self.audio.terminate()]) and ends the session normally. *)
Theorem menu_choices f w l rest :
  w_stdin w = l :: rest ->
  (l <> "1" -> l <> "2" -> l <> "3" ->
     run_loop (S f) w =
     run_loop f (add_events [EvPrint MInvalidChoice] (set_stdin rest (add_events [EvPrint MMenu] w)))) /\
  (l = "3" ->
     run (S f) w =
     (Ok tt, add_events [EvPrint MWelcome; EvPrint MMenu; EvPrint MGoodbye; EvTerminate]
               (set_stdin rest w))).
Proof.
  intros E. split.
  - intros H1 H2 H3. exact (menu_invalid_reprompts f w l rest E H1 H2 H3).
  - intros ->. exact (menu_exit_terminates f w rest E).
Qed.

(** C29: error path.  If stdin is at its end when the menu reads a
    choice, [input()] raises [EOFError].  It escapes [run], so
    [self.audio.terminate()] is never reached.  The spec only
    considers leaving by the exit choice. *)
Theorem run_eof_no_terminate f w :
  w_stdin w = [] ->
  run (S f) w = (Raise EOFError, add_events [EvPrint MWelcome; EvPrint MMenu] w).
Proof. intros E. unfold run. simpl. world_simpl. rewrite E. simpl. solve_world. Qed.

(** C24: error.  If PortAudio cannot open the input device,
    [self.audio.open] in [record_audio] raises [OSError].  Nothing in the
    voice turn, the voice mode or the menu catches it, so the whole
    session dies: [self.audio.terminate()] is not reached, and
    [self.recording] is left [True].  The spec asks for device errors to
    be reported and to abort only the current turn. *)
Theorem run_device_error_crashes f w rest :
  w_stdin w = "2" :: "" :: rest -> mic_ok (w_env w) = false ->
  fst (run (S (S f)) w) = Raise (OSError "input device") /\
  ~ In EvTerminate (new_events w (snd (run (S (S f)) w))) /\
  recording (w_bot (snd (run (S (S f)) w))) = true.
Proof.
  intros E Hm. unfold run. cbn [run_loop]. world_simpl. rewrite E.
  with_strategy opaque [voice_chat_mode text_chat_mode run_loop] cbn.
  unfold voice_chat_mode. world_simpl.
  rewrite (voice_loop_no_device f _ rest) by (reflexivity || exact Hm). world_simpl.
  split_and!; [done | | done].
  unfold new_events. cbn [w_trace]. rewrite <- !app_assoc, drop_app_length. simpl.
  intros [H1|[H1|[H1|[]]]]; discriminate.
Qed.

(** C30: error.  The [except ImportError] of lines 273-278 is dead
    code.  Without PyAudio the module-level [import pyaudio] of line 6
    raises before [__main__] runs; with it, the [try] succeeds.  So in
    every environment, installation and input, the script never prints
    the install hint: neither of its two lines is among the events of a
    whole execution. *)
Theorem main_never_prints_install_hint environ inst fuel w :
  ~ In (EvPrint MPyAudioMissing) (new_events w (snd (main environ inst fuel w))) /\
  ~ In (EvPrint MPipInstall) (new_events w (snd (main environ inst fuel w))).
Proof.
  pose proof (events_ok_main (fun e => ~ install_hint e) (fun e He => proj2 He)
                (List.length (w_trace w)) environ inst fuel w) as Hev.
  unfold events_after in Hev. rewrite drop_all in Hev. specialize (Hev (Forall_nil_2 _)).
  split; intros Hin; eapply (proj1 (List.Forall_forall _ _) Hev); [exact Hin | left | exact Hin | right];
    reflexivity.
Qed.
End SessionClaims.

(** ** Witnesses: the theorems at concrete inputs *)

Local Open Scope string_scope.

Abbreviation P_ok := (demo_providers (Some "hello") (Some (Some "hey there"))
                        (Some (mk_speak_response 200 [[1; 2]%Z; []; [3]%Z] false)) ElError).
Abbreviation P_no_transcript := (demo_providers None None None ElError).
Abbreviation P_no_reply := (demo_providers (Some "hello") None None ElError).

Lemma run_enough_fuel_witness :
  fst (@run P_ok 4 (demo_world ["2"; ""; "quit"])) <> OutOfFuel.
Proof. apply (@run_enough_fuel P_ok 4 (demo_world ["2"; ""; "quit"])). simpl. lia. Defined.

Lemma voice_turn_failed_transcription_no_chat_witness :
  fst (@voice_turn P_no_transcript (demo_world [""])) = Ok tt /\
  List.filter is_milestone (new_events (demo_world [""]) (snd (@voice_turn P_no_transcript (demo_world [""])))) =
    [EvWavWrite TEMP_WAV (recorded_wav (demo_world [""]));
     EvTranscribe (recorded_wav (demo_world [""])); EvRemove TEMP_WAV].
Proof. apply (@voice_turn_failed_transcription_no_chat P_no_transcript (demo_world [""]) "" []); reflexivity. Defined.

Lemma voice_turn_failed_chat_no_speech_witness :
  fst (@voice_turn P_no_reply (demo_world [""])) = Ok tt /\
  List.filter is_milestone (new_events (demo_world [""]) (snd (@voice_turn P_no_reply (demo_world [""])))) =
    [EvWavWrite TEMP_WAV (recorded_wav (demo_world [""]));
     EvTranscribe (recorded_wav (demo_world [""]));
     EvChat (chat_request_for App.SYSTEM_PROMPT None "hello"); EvRemove TEMP_WAV].
Proof. apply (@voice_turn_failed_chat_no_speech P_no_reply (demo_world [""]) "" [] "hello"); reflexivity. Defined.

Lemma voice_turn_success_order_witness :
  fst (@voice_turn P_ok (demo_world [""])) = Ok tt /\
  List.filter is_milestone (new_events (demo_world [""]) (snd (@voice_turn P_ok (demo_world [""])))) =
    [EvWavWrite TEMP_WAV (recorded_wav (demo_world [""]));
     EvTranscribe (recorded_wav (demo_world [""]));
     EvChat (chat_request_for App.SYSTEM_PROMPT None "hello");
     EvSpeak (speak_request_for "dg-demo" "hey there"); EvRemove TEMP_WAV].
Proof. apply (@voice_turn_success_order P_ok (demo_world [""]) "" [] "hello" "hey there"); reflexivity. Defined.

Lemma voice_turn_removes_recording_witness :
  fst (@voice_turn P_ok (demo_world ["" ; "quit"])) = Ok tt /\
  w_fs (snd (@voice_turn P_ok (demo_world [""; "quit"]))) = delete TEMP_WAV ∅ /\
  w_stdin (snd (@voice_turn P_ok (demo_world [""; "quit"]))) = ["quit"].
Proof. apply (@voice_turn_removes_recording P_ok (demo_world ["" ; "quit"]) "" ["quit"]); reflexivity. Defined.

Lemma voice_turn_eof_keeps_recording_witness :
  fst (@voice_turn P_ok (demo_world [])) = Raise EOFError /\
  recording (w_bot (snd (@voice_turn P_ok (demo_world [])))) = true /\
  w_fs (snd (@voice_turn P_ok (demo_world []))) = ∅ /\
  new_events (demo_world []) (snd (@voice_turn P_ok (demo_world []))) =
    [EvStreamOpen; EvPrint MRecording].
Proof. apply (@voice_turn_eof_keeps_recording P_ok); reflexivity. Defined.

Lemma mode_quit_returns_witness :
  @text_loop P_ok 1 (demo_world ["QuIt"]) = (Ok tt, set_stdin [] (demo_world ["QuIt"])) /\
  @voice_loop P_ok 1 (demo_world ["QuIt"]) = (Ok tt, set_stdin [] (demo_world ["QuIt"])).
Proof. apply (@mode_quit_returns P_ok 0 (demo_world ["QuIt"]) "QuIt" []); reflexivity. Defined.

Lemma mode_switch_tokens_witness :
  (String.eqb (lower "Voice") "voice" = true ->
     @text_loop P_ok 2 (demo_world ["Voice"; "quit"]) =
     @voice_chat_mode P_ok 1 (set_stdin ["quit"] (demo_world ["Voice"; "quit"]))) /\
  (String.eqb (lower "Voice") "text" = true ->
     @voice_loop P_ok 2 (demo_world ["Voice"; "quit"]) =
     @text_chat_mode P_ok 1 (set_stdin ["quit"] (demo_world ["Voice"; "quit"]))).
Proof. apply (@mode_switch_tokens P_ok 1 (demo_world ["Voice"; "quit"]) "Voice" ["quit"]). reflexivity. Defined.

Lemma text_blank_line_no_call_witness :
  @text_loop P_ok 2 (demo_world ["   "; "quit"]) =
  @text_loop P_ok 1 (set_stdin ["quit"] (demo_world ["   "; "quit"])).
Proof. apply (@text_blank_line_no_call P_ok 1 (demo_world ["   "; "quit"]) "   " ["quit"]); reflexivity. Defined.

Lemma menu_choices_witness :
  ("4" <> "1" -> "4" <> "2" -> "4" <> "3" ->
     @run_loop P_ok 2 (demo_world ["4"; "3"]) =
     @run_loop P_ok 1 (add_events [EvPrint MInvalidChoice]
                        (set_stdin ["3"] (add_events [EvPrint MMenu] (demo_world ["4"; "3"]))))) /\
  ("4" = "3" ->
     @run P_ok 2 (demo_world ["4"; "3"]) =
     (Ok tt, add_events [EvPrint MWelcome; EvPrint MMenu; EvPrint MGoodbye; EvTerminate]
               (set_stdin ["3"] (demo_world ["4"; "3"])))).
Proof. apply (@menu_choices P_ok 1 (demo_world ["4"; "3"]) "4" ["3"]). reflexivity. Defined.

Lemma run_eof_no_terminate_witness :
  @run P_ok 1 (demo_world []) =
  (Raise EOFError, add_events [EvPrint MWelcome; EvPrint MMenu] (demo_world [])).
Proof. apply (@run_eof_no_terminate P_ok 0). reflexivity. Defined.


Lemma run_device_error_crashes_witness :
  let w := mkWorld bot_init ["2"; ""] [] ∅ [] 0 (mk_env (fun _ => 0%Z) true false "sk-demo" "dg-demo") in
  fst (@run P_ok 2 w) = Raise (OSError "input device") /\
  ~ In EvTerminate (new_events w (snd (@run P_ok 2 w))) /\
  recording (w_bot (snd (@run P_ok 2 w))) = true.
Proof.
  apply (@run_device_error_crashes P_ok 0
           (mkWorld bot_init ["2"; ""] [] ∅ [] 0 (mk_env (fun _ => 0%Z) true false "sk-demo" "dg-demo")) []);
    reflexivity.
Defined.
