(* ===== verification/Files.v ===== *)
(** * Files: the WAV files the terminal bot writes

    [record_audio] (src/app.py 180-186) writes [temp_recording.wav] with
    [wave]: [setnchannels(self.channels)], [setsampwidth(...)] of
    [paInt16], [setframerate(self.rate)] and [writeframes] of the
    joined frames.  [voice_chat_mode] removes it after the turn
    (line 245).  This file states what a well-formed file of the bot
    is, and shows two things.
    - Every file is well-formed, through a whole session: the invariant
      is an instance of [Session.preserves_run].
    - The file [record_audio] writes holds exactly the samples the
      microphone delivered, in order (a round trip from the device
      through [stream.read], [b''.join] and the file back to samples),
      and so does every final state of the threaded capture model. *)

From stdpp Require Import base list strings gmap.
From Stdlib Require Import ZArith.
From S2P Require Import Prelude Providers Bot Pipeline Worker Recorder Speech Session.

(** A file as [wave] writes it for this bot: mono, 16-bit, 44100 Hz, a
    whole number of frames, every item a byte. *)
Definition wav_wf (f : wav_file) : Prop :=
  nchannels f = CHANNELS /\ sampwidth f = SAMPLE_WIDTH /\ framerate f = RATE /\
  List.length (wav_data f) mod (sampwidth f * nchannels f) = 0 /\
  Forall (fun z => 0 <= z < 256)%Z (wav_data f).

(** Every file of the file system is well-formed. *)
Definition files_wf (w : World) : Prop := map_Forall (fun _ f => wav_wf f) (w_fs w).

(** ** Lemmas *)

Lemma encode_s16le_bytes s : Forall (fun z => 0 <= z < 256)%Z (encode_s16le s).
Proof. repeat constructor; apply land_255_range. Qed.

(** The bytes of a recording are the encoded samples of the device, in
    order: [n] chunks from [pos] are the samples [pos .. pos + n * CHUNK). *)
Lemma concat_chunks_from mic pos n :
  concat (chunks_from mic pos n) = flat_map (fun j => encode_s16le (mic j)) (seq pos (n * CHUNK)).
Proof.
  induction n as [|n IH]; [done|].
  rewrite chunks_from_S, concat_app, IH, Nat.mul_succ_l, seq_app, flat_map_app.
  cbn [concat]. rewrite app_nil_r. f_equal.
  unfold stream_read. exact (flat_map_seq_shift (fun j => encode_s16le (mic j)) _ _).
Qed.

(** The recorded chunks decode to the device samples they were read
    from, in order. *)
Lemma decode_chunks mic pos n :
  (forall i, (-32768 <= mic i < 32768)%Z) ->
  decode_pcm (concat (chunks_from mic pos n)) = map mic (seq pos (n * CHUNK)).
Proof. intros Hm. rewrite concat_chunks_from. by apply decode_pcm_encode. Qed.

Lemma recorded_wav_wf w : wav_wf (recorded_wav w).
Proof.
  unfold wav_wf, recorded_wav. cbn [nchannels sampwidth framerate wav_data].
  split_and!; try done.
  - rewrite (length_concat_uniform _ (CHUNK * SAMPLE_WIDTH * CHANNELS)).
    + rewrite length_chunks_from.
      replace (_ * (CHUNK * SAMPLE_WIDTH * CHANNELS))
        with (next_take w * CHUNK * (SAMPLE_WIDTH * CHANNELS)) by lia.
      apply Nat.Div0.mod_mul.
    + apply Forall_forall. intros c Hc. unfold chunks_from in Hc.
      apply list_elem_of_In, in_map_iff in Hc as (k & <- & _). apply length_stream_read.
  - rewrite concat_chunks_from. apply Forall_flat_map. intros. apply encode_s16le_bytes.
Qed.

(** [files_wf] satisfies the hypotheses of [preserves_run]: only
    [record_audio] adds a file, and [os.remove] removes one. *)
Section FilesInvariant.
Context `{Providers}.

Lemma files_wf_run f : preserves files_wf (run f).
Proof.
  apply preserves_run.
  - intros e _ w Hw. exact Hw.
  - intros w Hw. unfold input. by destruct (w_stdin w).
  - split_and!; intros; intros w Hw; try exact Hw.
    unfold open_read. by destruct (w_fs w !! p).
  - intros nm w Hw. unfold os_remove. destruct (w_fs w !! nm); [|exact Hw].
    by apply map_Forall_delete.
  - intros w Hw. destruct (mic_ok (w_env w)) eqn:Hdev;
      [|rewrite (record_audio_no_device w Hdev); exact Hw].
    destruct (w_stdin w) as [|l rest] eqn:E.
    + rewrite (record_audio_eof w Hdev E). exact Hw.
    + rewrite (record_audio_run w l rest Hdev E). unfold files_wf, after_recording. cbn [snd w_fs].
      apply map_Forall_insert_2; [apply recorded_wav_wf | exact Hw].
Qed.

(** C17: type.  Through a whole session, every file the bot leaves in
    the file system is a well-formed WAV file of its format: mono, 16-bit,
    44100 Hz, a whole number of frames, and bytes in [0, 256). *)
Theorem run_files_wellformed f w : files_wf w -> files_wf (snd (run f w)).
Proof. apply files_wf_run. Qed.
End FilesInvariant.

(** C18: round trip.  When [record_audio] gets its stop line, the file
    [temp_recording.wav] it leaves decodes back to exactly the samples the
    microphone delivered while it recorded, in order, when they are
    16-bit samples: the [next_take w * CHUNK] samples from the device
    position [w_mic_pos w], which advances past them, so nothing is lost
    or read twice by the next recording.  In the threaded model of the
    capture, every final state likewise holds a contiguous run of
    samples from the start position, in the order the device delivered
    them. *)
Theorem recorded_file_decodes w l rest s :
  mic_ok (w_env w) = true -> w_stdin w = l :: rest ->
  (forall i, (-32768 <= mic (w_env w) i < 32768)%Z) ->
  (exists f, w_fs (snd (record_audio w)) !! TEMP_WAV = Some f /\
     decode_pcm (wav_data f) = map (mic (w_env w)) (seq (w_mic_pos w) (next_take w * CHUNK)) /\
     w_mic_pos (snd (record_audio w)) = w_mic_pos w + next_take w * CHUNK) /\
  (rec_reachable (mic (w_env w)) (w_mic_pos w) s -> fp s = FFinished ->
   exists n, decode_pcm (concat (cframes (data s))) =
             map (mic (w_env w)) (seq (w_mic_pos w) (n * CHUNK))).
Proof.
  intros Hdev E Hm. split.
  - rewrite (record_audio_run w l rest Hdev E). unfold after_recording. cbn [snd w_fs w_mic_pos].
    exists (recorded_wav w). split_and!; [by rewrite lookup_insert | by apply decode_chunks | done].
  - intros Hr _. destruct (rec_reachable_cap_inv _ _ s Hr) as [k Hk].
    exists k. rewrite Hk. by apply decode_chunks.
Qed.

(** ** Witnesses *)

Lemma run_files_wellformed_witness :
  files_wf (snd (@run (demo_providers None None None ElError) 2 (demo_world ["3"%string]))).
Proof. apply (@run_files_wellformed (demo_providers None None None ElError)). apply map_Forall_empty. Defined.

(** A silent microphone, one line on stdin, and a capture of two
    chunks. *)
Lemma recorded_file_decodes_witness :
  let w := mkWorld bot_init [EmptyString] [] ∅ [2] 0 (w_env (demo_world [])) in
  (exists f, w_fs (snd (record_audio w)) !! TEMP_WAV = Some f /\
     decode_pcm (wav_data f) = map (mic (w_env w)) (seq (w_mic_pos w) (next_take w * CHUNK)) /\
     w_mic_pos (snd (record_audio w)) = w_mic_pos w + next_take w * CHUNK) /\
  exists n, decode_pcm (concat (cframes (data (mk_sys false WDone FFinished (capture_result silent 0 2))))) =
            map (mic (w_env w)) (seq (w_mic_pos w) (n * CHUNK)).
Proof.
  destruct (recorded_file_decodes (mkWorld bot_init [EmptyString] [] ∅ [2] 0 (w_env (demo_world [])))
              EmptyString [] (mk_sys false WDone FFinished (capture_result silent 0 2))
              eq_refl eq_refl) as [H1 H2].
  - intros i. simpl. lia.
  - split; [exact H1 | apply H2; [apply rec_finished_reachable | reflexivity]].
Defined.
