(* ===== verification/Page.v ===== *)
(** * Page: the Streamlit page of src/app_elevenlabs.py

    Streamlit runs the whole script again on every interaction.  Only
    [st.session_state] survives from one run to the next; here it holds
    the two history lists [messages] (text tab) and [voice_messages]
    (voice tab).  One run of the script is the pure function [page_run].
    It takes the session state and the values of the widgets in this run
    ([page_input]) and returns three things: the new session state, what
    the page shows and sends, in script order (a list of [pout]), and
    whether [st.rerun()] was called.

    - [transcribe_audio] and [generate_response] are lines 45-76.  The
      first returns the [message] object, which is truthy even when its
      [content] is empty or [None].
    - [text_tab] is lines 136-166, [voice_tab] lines 168-227 with the
      display of the last three conversations, [sidebar_status] lines
      230-259, and [page_run] the whole script in order.  The checks of
      lines 23-28 and the title come first, then both tabs (Streamlit
      executes every tab on every run), then the sidebar with the clear
      button.
    - [interact]: one user interaction.  [st.rerun()] stops the script
      and starts a new run.  In that run the button reads [False], the
      chat input [None], and the recorder component returns the value it
      holds.

    The static texts ([st.write] of fixed strings, the About section)
    and the spinners are not shown in the model.  They are rendering only.
    The model starts at the first call that depends on the state or
    on the inputs. *)

From stdpp Require Import base list strings.
From Stdlib Require Import ZArith.
From S2P Require Import Prelude Text Persona Providers Speech.

Module ElevenlabsPage.

(** ** Session state, widget values and page output *)

(** [{"role": ..., "content": ...}]; the content is [response.content],
    which may be [None]. *)
Record chat_entry := mk_chat_entry { ce_role : string; ce_content : option string }.

(** [{"user": user_text, "assistant": response.content}] *)
Record voice_entry := mk_voice_entry { ve_user : string; ve_assistant : option string }.

(** [st.session_state]; [None] while the key is absent. *)
Record page_state := mk_page_state {
  ps_messages : option (list chat_entry);
  ps_voice_messages : option (list voice_entry)
}.

(** The module-level configuration (lines 15-17). *)
Record page_config := mk_page_config { cfg_el_key : string; cfg_voice_id : string }.

(** The widget values of one run: [st.chat_input], [audio_recorder]
    and the clear button. *)
Record page_input := mk_page_input {
  in_chat : option string;
  in_audio : option bytes;
  in_clear : bool
}.

(** What one run shows, and the calls it makes to the services. *)
Inductive pout :=
| OKeyMissing                                  (** line 24 *)
| OVoiceIdMissing                              (** line 28 *)
| OTitle                                       (** lines 42-43 *)
| OCallTranscribe (audio : bytes)              (** lines 52-56 *)
| OTranscribeError                             (** line 60 *)
| OCallChat (r : chat_request)                 (** line 65 *)
| OGenerateError                               (** line 75 *)
| OCallTts (r : el_request)                    (** line 105 *)
| OTts (u : el_ui)                             (** lines 82-129 *)
| OChatMessage (role : string) (content : option string)  (** st.chat_message + markdown *)
| OSorryGenerate                               (** line 165 *)
| OYouSaid (t : string)                        (** line 193 *)
| OVoiceReply (c : option string)              (** line 200 *)
| OPlaying                                     (** line 206 *)
| OAudioFailed                                 (** line 208 *)
| OSorryVoice                                  (** line 216 *)
| OCouldntTranscribe                           (** line 218 *)
| OSeparator                                   (** line 222 *)
| OPreviousHeader                              (** line 223 *)
| OConversation (number : nat) (user : string) (assistant : option string)  (** 224-227 *)
| OAbout                                       (** lines 231-253 *)
| OVoiceConfigured (prefix : string)           (** line 256 *)
| OVoiceIdNotSet                               (** lines 258-259 *)
| OCleared.                                    (** line 264 *)

(** The calls to a service. *)
Definition is_call (o : pout) : bool :=
  match o with OCallTranscribe _ | OCallChat _ | OCallTts _ => true | _ => false end.

Definition ERROR_MSG : string := "Sorry, I couldn't generate a response."%string.

(** The request of line 65: the persona of this page, temperature 0.4. *)
Definition chat_request (prompt : string) : Persona.chat_request :=
  chat_request_for Elevenlabs.SYSTEM_PROMPT (Some "0.4"%string) prompt.

(** [voice_messages[-3:]] *)
Definition last3 {A} (l : list A) : list A := drop (List.length l - 3) l.

(** The recording service of this page takes the recorder's bytes
    ([io.BytesIO(audio_bytes)] named [audio.wav]). *)
Class Whisper := {
  (** [openai_client.audio.transcriptions.create(model="whisper-1",
      file=audio_file, response_format="text")]; [None] when it raises. *)
  transcribe_bytes_api : bytes -> option string
}.

(** A recording service with a fixed answer, for running the model on
    examples. *)
Definition demo_whisper (r : option string) : Whisper := {| transcribe_bytes_api := fun _ => r |}.

Section Page.
Context `{Providers} `{Whisper} (cfg : page_config).

(** Lines 45-61. *)
Definition transcribe_audio (audio_bytes : bytes) : list pout * option string :=
  match transcribe_bytes_api audio_bytes with
  | Some t => ([OCallTranscribe audio_bytes], Some t)
  | None => ([OCallTranscribe audio_bytes; OTranscribeError], None)
  end.

(** Lines 63-76: [Some c] is the [message] object with content [c]. *)
Definition generate_response (prompt : string) : list pout * option (option string) :=
  let req := chat_request prompt in
  match chat_api req with
  | Some c => ([OCallChat req], Some c)
  | None => ([OCallChat req; OGenerateError], None)
  end.

(** [text_to_speech_elevenlabs(response.content)] with this page's
    configuration: the request sent, then what it shows. *)
Definition speak (c : option string) : list pout * bool :=
  let '(ui, reqs, ok) := text_to_speech_elevenlabs (cfg_voice_id cfg) (cfg_el_key cfg) c in
  (map OCallTts reqs ++ map OTts ui, ok).

(** Lines 136-166. *)
Definition text_tab (inp : page_input) (msgs0 : option (list chat_entry))
    : list pout * list chat_entry :=
  let msgs := default [] msgs0 in
  let shown := map (fun m => OChatMessage (ce_role m) (ce_content m)) msgs in
  match in_chat inp with
  | Some prompt =>
      if str_truthy prompt then
        let msgs1 := msgs ++ [mk_chat_entry "user"%string (Some prompt)] in
        let '(o, response) := generate_response prompt in
        match response with
        | Some c =>
            (shown ++ [OChatMessage "user"%string (Some prompt)] ++ o ++ [OChatMessage "assistant"%string c],
             msgs1 ++ [mk_chat_entry "assistant"%string c])
        | None =>
            (shown ++ [OChatMessage "user"%string (Some prompt)] ++ o ++ [OSorryGenerate],
             msgs1 ++ [mk_chat_entry "assistant"%string (Some ERROR_MSG)])
        end
      else (shown, msgs)
  | None => (shown, msgs)
  end.

(** Lines 187-218: one recording, transcribed, answered and spoken. *)
Definition voice_turn (audio_bytes : bytes) (vms : list voice_entry)
    : list pout * list voice_entry :=
  let '(o1, user_text) := transcribe_audio audio_bytes in
  match user_text with
  | Some t =>
      if str_truthy t then
        let '(o2, response) := generate_response t in
        match response with
        | Some c =>
            let '(o3, speech_success) := speak c in
            (o1 ++ [OYouSaid t] ++ o2 ++ [OVoiceReply c] ++ o3 ++
               [if speech_success then OPlaying else OAudioFailed],
             vms ++ [mk_voice_entry t c])
        | None => (o1 ++ [OYouSaid t] ++ o2 ++ [OSorryVoice], vms)
        end
      else (o1 ++ [OCouldntTranscribe], vms)
  | None => (o1 ++ [OCouldntTranscribe], vms)
  end.

(** Lines 221-227: the last three conversations, numbered
    [len(voice_messages) - len(voice_messages[-3:]) + i + 1]. *)
Definition show_voice_history (vms : list voice_entry) : list pout :=
  if is_nonempty vms then
    OSeparator :: OPreviousHeader ::
    imap (fun i m => OConversation (List.length vms - List.length (last3 vms) + i + 1)
                       (ve_user m) (ve_assistant m)) (last3 vms)
  else [].

(** Lines 168-227. *)
Definition voice_tab (inp : page_input) (vms0 : option (list voice_entry))
    : list pout * list voice_entry :=
  let vms := default [] vms0 in
  let '(o, vms') :=
    match in_audio inp with
    | Some b => if is_nonempty b then voice_turn b vms else ([], vms)
    | None => ([], vms)
    end in
  (o ++ show_voice_history vms', vms').

(** Lines 230-259: the About section and the voice id status. *)
Definition sidebar_status : list pout :=
  if str_truthy (cfg_voice_id cfg) then [OAbout; OVoiceConfigured (String.substring 0 8 (cfg_voice_id cfg))]
  else [OAbout; OVoiceIdNotSet].

(** The checks of lines 23-28 and the title (lines 42-43). *)
Definition page_header : list pout :=
  (if str_truthy (cfg_el_key cfg) then [] else [OKeyMissing]) ++
  (if str_truthy (cfg_voice_id cfg) then [] else [OVoiceIdMissing]) ++ [OTitle].

(** One run of the script.  The clear button (lines 261-265) empties
    both lists and calls [st.rerun()]. *)
Definition page_run (st : page_state) (inp : page_input) : page_state * list pout * bool :=
  let '(o1, msgs) := text_tab inp (ps_messages st) in
  let '(o2, vms) := voice_tab inp (ps_voice_messages st) in
  let o := page_header ++ o1 ++ o2 ++ sidebar_status in
  if in_clear inp then (mk_page_state (Some []) (Some []), o ++ [OCleared], true)
  else (mk_page_state (Some msgs) (Some vms), o, false).

(** The widget values in the run started by [st.rerun()]. *)
Definition rerun_input (inp : page_input) : page_input := mk_page_input None (in_audio inp) false.

(** One interaction: a run, and the run [st.rerun()] starts.  That
    second run has the button unset, so it does not rerun again. *)
Definition interact (st : page_state) (inp : page_input) : page_state * list pout :=
  let '(st1, o1, rerun) := page_run st inp in
  if rerun then let '(st2, o2, _) := page_run st1 (rerun_input inp) in (st2, o1 ++ o2)
  else (st1, o1).

(** A sequence of interactions from [st]. *)
Fixpoint interact_all (st : page_state) (inps : list page_input) : page_state * list pout :=
  match inps with
  | [] => (st, [])
  | i :: rest =>
      let '(st1, o1) := interact st i in
      let '(st2, o2) := interact_all st1 rest in
      (st2, o1 ++ o2)
  end.
End Page.

(** A call to the chat service carries this page's persona and exactly
    one user message. *)
Definition page_chat_ok (o : pout) : Prop :=
  match o with OCallChat r => single_turn Elevenlabs.SYSTEM_PROMPT r | _ => True end.

(** ** Lemmas: the calls of each part of a run *)

Section PageLemmas.
Context `{Providers} `{Whisper} (cfg : page_config).

Lemma calls_chat_messages msgs :
  List.filter is_call (map (fun m => OChatMessage (ce_role m) (ce_content m)) msgs) = [].
Proof. induction msgs; simpl; done. Qed.

Lemma calls_tts (ui : list el_ui) : List.filter is_call (map OTts ui) = [].
Proof. induction ui; simpl; done. Qed.

Lemma calls_imap {A} (f : nat -> A -> pout) l :
  (forall i x, is_call (f i x) = false) -> List.filter is_call (imap f l) = [].
Proof.
  revert f. induction l as [|x l IH]; intros f Hf; simpl; [done|].
  rewrite Hf. apply IH. intros i y. apply Hf.
Qed.

Lemma calls_show_voice_history l : List.filter is_call (show_voice_history l) = [].
Proof.
  unfold show_voice_history. destruct (is_nonempty l); [|done].
  simpl. by apply calls_imap.
Qed.

Lemma calls_header : List.filter is_call (page_header cfg) = [].
Proof.
  unfold page_header. destruct (str_truthy (cfg_el_key cfg)), (str_truthy (cfg_voice_id cfg)); done.
Qed.

Lemma calls_sidebar : List.filter is_call (sidebar_status cfg) = [].
Proof. unfold sidebar_status. destruct (str_truthy (cfg_voice_id cfg)); done. Qed.

(** The text-to-speech call of [speak]: exactly one request when a
    voice id is configured. *)
Lemma calls_speak c :
  List.filter is_call (fst (speak cfg c)) =
  if str_truthy (cfg_voice_id cfg)
  then [OCallTts (el_request_for (cfg_voice_id cfg) (cfg_el_key cfg) c)] else [].
Proof.
  unfold speak, text_to_speech_elevenlabs.
  destruct (str_truthy (cfg_voice_id cfg)); simpl; [|done].
  destruct (elevenlabs_api _) as [| |st d]; simpl; [done|done|].
  destruct (Z.eqb st 200), (is_nonempty d); done.
Qed.
End PageLemmas.

Create Rewrite HintDb page_calls.
#[export] Hint Rewrite calls_chat_messages calls_tts calls_show_voice_history calls_header
  calls_sidebar : page_calls.

(** ** Lemmas: the two tabs and a whole run *)

Section PageRuns.
Context `{Providers} `{Whisper} (cfg : page_config).

Lemma page_run_calls st inp :
  List.filter is_call (snd (fst (page_run cfg st inp))) =
  List.filter is_call (fst (text_tab inp (ps_messages st))) ++
  List.filter is_call (fst (voice_tab cfg inp (ps_voice_messages st))).
Proof.
  unfold page_run.
  destruct (text_tab inp _) as [o1 m], (voice_tab cfg inp _) as [o2 v], (in_clear inp);
    simpl; rewrite ?List.filter_app; autorewrite with page_calls; simpl; by rewrite ?app_nil_r.
Qed.

Lemma page_run_state st inp :
  in_clear inp = false ->
  page_run cfg st inp =
  (mk_page_state (Some (snd (text_tab inp (ps_messages st))))
                 (Some (snd (voice_tab cfg inp (ps_voice_messages st)))),
   snd (fst (page_run cfg st inp)), false).
Proof.
  intros Hc. unfold page_run.
  destruct (text_tab inp _) as [o1 m], (voice_tab cfg inp _) as [o2 v]. rewrite Hc. done.
Qed.

Lemma text_tab_no_prompt inp m :
  in_chat inp = None ->
  List.filter is_call (fst (text_tab inp m)) = [] /\ snd (text_tab inp m) = default [] m.
Proof. intros Hn. unfold text_tab. rewrite Hn. simpl. by rewrite calls_chat_messages. Qed.

Lemma voice_tab_audio inp v b :
  in_audio inp = Some b -> is_nonempty b = true ->
  List.filter is_call (fst (voice_tab cfg inp v)) =
    List.filter is_call (fst (voice_turn cfg b (default [] v))) /\
  snd (voice_tab cfg inp v) = snd (voice_turn cfg b (default [] v)).
Proof.
  intros Ha Hb. unfold voice_tab. rewrite Ha, Hb.
  destruct (voice_turn cfg b _) as [o v']. simpl.
  rewrite List.filter_app, calls_show_voice_history, app_nil_r. done.
Qed.

Lemma interact_no_clear st inp :
  in_clear inp = false -> interact cfg st inp = (fst (fst (page_run cfg st inp)), snd (fst (page_run cfg st inp))).
Proof. intros Hc. unfold interact. rewrite page_run_state by exact Hc. done. Qed.

Lemma text_tab_prefix inp m : default [] m `prefix_of` snd (text_tab inp m).
Proof.
  unfold text_tab. destruct (in_chat inp) as [p|]; [|done].
  destruct (str_truthy p); [|done]. unfold generate_response.
  destruct (chat_api _); simpl; rewrite <- app_assoc; by apply prefix_app_r.
Qed.

Lemma voice_turn_prefix b vms : vms `prefix_of` snd (voice_turn cfg b vms).
Proof.
  unfold voice_turn, transcribe_audio.
  destruct (transcribe_bytes_api b) as [t|]; simpl; [|done].
  destruct (str_truthy t); [|done]. unfold generate_response.
  destruct (chat_api _) as [c|]; simpl; [|done].
  destruct (speak cfg c). by apply prefix_app_r.
Qed.

Lemma voice_tab_prefix inp v : default [] v `prefix_of` snd (voice_tab cfg inp v).
Proof.
  unfold voice_tab. destruct (in_audio inp) as [b|]; [|done].
  destruct (is_nonempty b); [|done].
  pose proof (voice_turn_prefix b (default [] v)) as Hp.
  destruct (voice_turn cfg b _). exact Hp.
Qed.

Lemma page_chat_ok_generate p : Forall page_chat_ok (fst (generate_response p)).
Proof.
  unfold generate_response.
  destruct (chat_api _); repeat constructor; eexists; reflexivity.
Qed.
Lemma Forall_ok_map {A} (f : A -> pout) l :
  (forall x, page_chat_ok (f x)) -> Forall page_chat_ok (map f l).
Proof. intros Hf. induction l; simpl; constructor; auto. Qed.

Lemma Forall_ok_imap {A} (f : nat -> A -> pout) l :
  (forall i x, page_chat_ok (f i x)) -> Forall page_chat_ok (imap f l).
Proof.
  revert f. induction l as [|x l IH]; intros f Hf; simpl; constructor; [apply Hf|].
  apply IH. intros i y. apply Hf.
Qed.

Lemma page_chat_ok_speak c : Forall page_chat_ok (fst (speak cfg c)).
Proof.
  unfold speak. destruct (text_to_speech_elevenlabs _ _ c) as [[ui reqs] ok]. simpl.
  apply Forall_app; split; apply Forall_ok_map; done.
Qed.
End PageRuns.

(** The pieces of a run all satisfy [page_chat_ok]. *)
Ltac page_ok :=
  repeat first
    [ progress rewrite ?Forall_app
    | split
    | apply Forall_nil_2
    | apply Forall_cons_2
    | apply page_chat_ok_generate
    | apply page_chat_ok_speak
    | assumption
    | apply Forall_ok_map; intros; exact I
    | apply Forall_ok_imap; intros; exact I
    | exact I ].

Section PageOk.
Context `{Providers} `{Whisper} (cfg : page_config).

Lemma page_chat_ok_text_tab inp m : Forall page_chat_ok (fst (text_tab inp m)).
Proof.
  unfold text_tab. destruct (in_chat inp) as [p|]; [|simpl; page_ok].
  destruct (str_truthy p); [|simpl; page_ok].
  pose proof (page_chat_ok_generate p) as Hg.
  destruct (generate_response p) as [o [c|]]; simpl in *; page_ok.
Qed.

Lemma page_chat_ok_voice_turn b vms : Forall page_chat_ok (fst (voice_turn cfg b vms)).
Proof.
  unfold voice_turn, transcribe_audio.
  destruct (transcribe_bytes_api b) as [t|]; simpl; [|page_ok].
  destruct (str_truthy t); [|simpl; page_ok].
  pose proof (page_chat_ok_generate t) as Hg.
  destruct (generate_response t) as [o [c|]]; simpl in *; [|page_ok].
  pose proof (page_chat_ok_speak cfg c) as Hs.
  destruct (speak cfg c) as [o3 ok]; simpl in *. page_ok. destruct ok; exact I.
Qed.

Lemma page_chat_ok_voice_tab inp v : Forall page_chat_ok (fst (voice_tab cfg inp v)).
Proof.
  unfold voice_tab, show_voice_history.
  assert (Hv : forall b vms, Forall page_chat_ok (fst (voice_turn cfg b vms)))
    by apply page_chat_ok_voice_turn.
  destruct (in_audio inp) as [b|]; [destruct (is_nonempty b)|];
    [destruct (voice_turn cfg b _) as [o v'] eqn:E; specialize (Hv b (default [] v)); rewrite E in Hv| |];
    simpl in *; page_ok; destruct (is_nonempty _); page_ok.
Qed.

Lemma page_chat_ok_page_run st inp : Forall page_chat_ok (snd (fst (page_run cfg st inp))).
Proof.
  unfold page_run, page_header, sidebar_status.
  pose proof (page_chat_ok_text_tab inp (ps_messages st)) as Ht.
  pose proof (page_chat_ok_voice_tab inp (ps_voice_messages st)) as Hv.
  destruct (text_tab inp _) as [o1 m], (voice_tab cfg inp _) as [o2 v]; simpl in *.
  destruct (in_clear inp), (str_truthy (cfg_el_key cfg)), (str_truthy (cfg_voice_id cfg));
    simpl; page_ok.
Qed.

Lemma page_chat_ok_interact st inp : Forall page_chat_ok (snd (interact cfg st inp)).
Proof.
  unfold interact.
  pose proof (page_chat_ok_page_run st inp) as H1.
  destruct (page_run cfg st inp) as [[st1 o1] []]; simpl in *; [|exact H1].
  pose proof (page_chat_ok_page_run st1 (rerun_input inp)) as H2.
  destruct (page_run cfg st1 _) as [[st2 o2] r2]; simpl in *. page_ok.
Qed.
End PageOk.

(** ** Theorems of the page *)

Section PageClaims.
Context `{Providers} `{Whisper} (cfg : page_config).

(** C10: invariant.  As long as the clear button is not pressed, both
    histories of [st.session_state] only grow at their end, over any
    sequence of interactions and whatever the widgets and the services
    return: entry [k] of a history stays entry [k]. *)
Theorem page_history_append_only st inps :
  Forall (fun i => in_clear i = false) inps ->
  default [] (ps_messages st) `prefix_of` default [] (ps_messages (fst (interact_all cfg st inps))) /\
  default [] (ps_voice_messages st) `prefix_of`
    default [] (ps_voice_messages (fst (interact_all cfg st inps))).
Proof.
  intros Hc. revert st. induction Hc as [|i inps Hi _ IH]; intros st; simpl; [done|].
  rewrite (interact_no_clear cfg st i Hi), (page_run_state cfg st i Hi). cbn [fst snd].
  specialize (IH (mk_page_state (Some (snd (text_tab i (ps_messages st))))
                                (Some (snd (voice_tab cfg i (ps_voice_messages st)))))).
  destruct (interact_all cfg _ inps) as [st2 o2]. destruct IH as [H1 H2]. cbn in *.
  split; (etrans; [|eassumption]); [apply text_tab_prefix | apply voice_tab_prefix].
Qed.
(** C11: safety.  In a run where only the recorder delivered audio, a
    failed transcription (the client raised, or the text is empty) calls
    no other service, and a failed chat call after a good transcription
    calls no speech service.  In both cases the voice history is left
    as it was. *)
Theorem page_voice_failures_stop_pipeline st inp b :
  in_chat inp = None -> in_audio inp = Some b -> is_nonempty b = true -> in_clear inp = false ->
  (opt_str_truthy (transcribe_bytes_api b) = false ->
     List.filter is_call (snd (fst (page_run cfg st inp))) = [OCallTranscribe b] /\
     ps_voice_messages (fst (fst (page_run cfg st inp))) = Some (default [] (ps_voice_messages st))) /\
  (forall t, transcribe_bytes_api b = Some t -> str_truthy t = true ->
     chat_api (chat_request t) = None ->
     List.filter is_call (snd (fst (page_run cfg st inp))) = [OCallTranscribe b; OCallChat (chat_request t)] /\
     ps_voice_messages (fst (fst (page_run cfg st inp))) = Some (default [] (ps_voice_messages st))).
Proof.
  intros Hn Ha Hb Hc. rewrite page_run_calls, (page_run_state cfg st inp Hc). cbn [fst snd ps_voice_messages].
  destruct (text_tab_no_prompt inp (ps_messages st) Hn) as [-> _].
  destruct (voice_tab_audio cfg inp (ps_voice_messages st) b Ha Hb) as [-> ->].
  unfold voice_turn, transcribe_audio. split.
  - intros Ht. destruct (transcribe_bytes_api b) as [t|]; simpl in *; [rewrite Ht|]; done.
  - intros t Ht Htr Hch. rewrite Ht. simpl. rewrite Htr. unfold generate_response. rewrite Hch. done.
Qed.

(** C12: functional.  A recording that is transcribed and answered is
    spoken and stored whatever the reply's content is.  The page sends
    exactly the transcription, the chat request and the speech request,
    in this order, and appends [{user, assistant}] to the voice history.
    An empty or [None] content is not caught, since the [message] object
    is always truthy (lines 73 and 199). *)
Theorem page_voice_turn_speaks_any_reply st inp b t c :
  in_chat inp = None -> in_audio inp = Some b -> is_nonempty b = true -> in_clear inp = false ->
  transcribe_bytes_api b = Some t -> str_truthy t = true ->
  chat_api (chat_request t) = Some c -> str_truthy (cfg_voice_id cfg) = true ->
  List.filter is_call (snd (fst (page_run cfg st inp))) =
    [OCallTranscribe b; OCallChat (chat_request t);
     OCallTts (el_request_for (cfg_voice_id cfg) (cfg_el_key cfg) c)] /\
  ps_voice_messages (fst (fst (page_run cfg st inp))) =
    Some (default [] (ps_voice_messages st) ++ [mk_voice_entry t c]).
Proof.
  intros Hn Ha Hb Hc Ht Htr Hch Hv. rewrite page_run_calls, (page_run_state cfg st inp Hc).
  cbn [fst snd ps_voice_messages].
  destruct (text_tab_no_prompt inp (ps_messages st) Hn) as [-> _].
  destruct (voice_tab_audio cfg inp (ps_voice_messages st) b Ha Hb) as [-> ->].
  unfold voice_turn, transcribe_audio. rewrite Ht. simpl. rewrite Htr.
  unfold generate_response. rewrite Hch. simpl.
  pose proof (calls_speak cfg c) as Hs. rewrite Hv in Hs.
  destruct (speak cfg c) as [o3 ok]. simpl in *.
  rewrite !List.filter_app, Hs. destruct ok; done.
Qed.

(** C13: functional.  A non-empty chat input appends exactly two
    entries to the text history: the user's message, then the reply's
    content, or the apology when the chat call failed.  The text tab
    makes exactly one chat call. *)
Theorem page_text_turn_appends_pair st inp p :
  in_chat inp = Some p -> str_truthy p = true -> in_clear inp = false ->
  ps_messages (fst (fst (page_run cfg st inp))) =
    Some (default [] (ps_messages st) ++
          [mk_chat_entry "user" (Some p);
           mk_chat_entry "assistant"
             (match chat_api (chat_request p) with Some c => c | None => Some ERROR_MSG end)]) /\
  List.filter is_call (fst (text_tab inp (ps_messages st))) = [OCallChat (chat_request p)].
Proof.
  intros Hp Ht Hc. rewrite (page_run_state cfg st inp Hc). cbn [fst ps_messages].
  unfold text_tab. rewrite Hp, Ht. unfold generate_response.
  destruct (chat_api (chat_request p)); simpl;
    rewrite <- ?app_assoc, !List.filter_app, calls_chat_messages; done.
Qed.

(** C14: functional.  The voice history display shows the last
    [min 3 n] of the [n] conversations.  Each is shown under its position
    in the whole history: "Conversation k" shows entry [k] (from 1), and
    [k] is one of the last three positions. *)
Theorem page_history_numbering l :
  (forall i k u a, show_voice_history l !! i = Some (OConversation k u a) ->
     l !! (k - 1) = Some (mk_voice_entry u a) /\ List.length l - 3 < k <= List.length l) /\
  List.length (show_voice_history l) = (if is_nonempty l then 2 + min 3 (List.length l) else 0).
Proof.
  unfold show_voice_history, last3.
  destruct (is_nonempty l) eqn:Hne;
    [|destruct l; [split; [intros ? ? ? ? Hs; done | done] | discriminate]].
  split.
  - intros [|[|i]] k u a Hs; simpl in Hs; try discriminate.
    rewrite list_lookup_imap in Hs.
    destruct (drop _ l !! i) as [m|] eqn:Em; simpl in Hs; [|discriminate].
    injection Hs as <- <- <-.
    pose proof (lookup_lt_Some _ _ _ Em) as Hlt. rewrite length_drop in Hlt.
    rewrite lookup_drop in Em. rewrite length_drop.
    split; [|lia]. destruct m as [u a]. cbn [ve_user ve_assistant]. rewrite <- Em. f_equal. lia.
  - cbn [length]. rewrite length_imap, length_drop. lia.
Qed.

(** C15: functional.  The clear button empties the text history.  The
    script then reruns, and in that run the recorder component still
    returns its last recording.  So the voice history is empty after the
    interaction only when the recorder holds nothing.  A recording it
    still holds is transcribed, answered and stored again, as the first
    entry of the new history. *)
Theorem page_clear_resets st inp :
  in_clear inp = true ->
  ps_messages (fst (interact cfg st inp)) = Some [] /\
  (in_audio inp = None -> ps_voice_messages (fst (interact cfg st inp)) = Some []) /\
  (forall b t c, in_audio inp = Some b -> is_nonempty b = true ->
     transcribe_bytes_api b = Some t -> str_truthy t = true -> chat_api (chat_request t) = Some c ->
     ps_voice_messages (fst (interact cfg st inp)) = Some [mk_voice_entry t c]).
Proof.
  intros Hc. unfold interact.
  assert (E : page_run cfg st inp = (mk_page_state (Some []) (Some []),
                                     snd (fst (page_run cfg st inp)), true)).
  { unfold page_run. destruct (text_tab inp _), (voice_tab cfg inp _). rewrite Hc. done. }
  rewrite E. rewrite (page_run_state cfg _ (rerun_input inp)) by done. cbn [fst snd ps_messages ps_voice_messages].
  destruct (text_tab_no_prompt (rerun_input inp) (Some []) eq_refl) as [_ ->].
  split_and!; [done| |].
  - intros Ha. unfold voice_tab. cbn [rerun_input in_audio]. rewrite Ha. done.
  - intros b t c Ha Hb Ht Htr Hch.
    destruct (voice_tab_audio cfg (rerun_input inp) (Some []) b Ha Hb) as [_ ->].
    unfold voice_turn, transcribe_audio. rewrite Ht. simpl. rewrite Htr.
    unfold generate_response. rewrite Hch. simpl. destruct (speak cfg c). done.
Qed.

(** C16: invariant.  Every chat request the page sends, over any
    sequence of interactions, is the page's persona followed by the one
    current user text.  No earlier turn is sent, although both
    histories are kept in the session state. *)
Theorem page_chats_single_turn st inps : Forall page_chat_ok (snd (interact_all cfg st inps)).
Proof.
  revert st. induction inps as [|i inps IH]; intros st; simpl; [constructor|].
  pose proof (page_chat_ok_interact cfg st i) as H1.
  destruct (interact cfg st i) as [st1 o1]. specialize (IH st1).
  destruct (interact_all cfg st1 inps) as [st2 o2]. simpl in *. page_ok.
Qed.
End PageClaims.

(** ** Witnesses: the theorems at concrete inputs *)

Local Abbreviation PW := (demo_providers None (Some (Some "hello"%string)) None (ElResponse 200 [1%Z])).
Local Abbreviation WW := (demo_whisper (Some "hi there"%string)).
Local Abbreviation WE := (demo_whisper (Some EmptyString)).
Local Abbreviation CF := (mk_page_config "el-key" "voice-123456789").
Local Abbreviation ST0 := (mk_page_state None None).
Local Abbreviation TXT := (mk_page_input (Some "hi"%string) None false).
Local Abbreviation REC := (mk_page_input None (Some [1; 2]%Z) false).

Lemma page_history_append_only_witness :
  default [] (ps_messages ST0) `prefix_of`
    default [] (ps_messages (fst (@interact_all PW WW CF ST0 [TXT; REC]))) /\
  default [] (ps_voice_messages ST0) `prefix_of`
    default [] (ps_voice_messages (fst (@interact_all PW WW CF ST0 [TXT; REC]))).
Proof. apply (@page_history_append_only PW WW CF ST0 [TXT; REC]). repeat constructor. Defined.

Lemma page_voice_failures_stop_pipeline_witness :
  (opt_str_truthy (@transcribe_bytes_api WE [1; 2]%Z) = false ->
     List.filter is_call (snd (fst (@page_run PW WE CF ST0 REC))) = [OCallTranscribe [1; 2]%Z] /\
     ps_voice_messages (fst (fst (@page_run PW WE CF ST0 REC))) = Some (default [] (ps_voice_messages ST0))) /\
  (forall t, @transcribe_bytes_api WE [1; 2]%Z = Some t -> str_truthy t = true ->
     @chat_api PW (chat_request t) = None ->
     List.filter is_call (snd (fst (@page_run PW WE CF ST0 REC))) =
       [OCallTranscribe [1; 2]%Z; OCallChat (chat_request t)] /\
     ps_voice_messages (fst (fst (@page_run PW WE CF ST0 REC))) = Some (default [] (ps_voice_messages ST0))).
Proof. apply (@page_voice_failures_stop_pipeline PW WE CF ST0 REC [1; 2]%Z); reflexivity. Defined.

Lemma page_voice_turn_speaks_any_reply_witness :
  List.filter is_call (snd (fst (@page_run PW WW CF ST0 REC))) =
    [OCallTranscribe [1; 2]%Z; OCallChat (chat_request "hi there");
     OCallTts (el_request_for "voice-123456789" "el-key" (Some "hello"%string))] /\
  ps_voice_messages (fst (fst (@page_run PW WW CF ST0 REC))) =
    Some ([] ++ [mk_voice_entry "hi there" (Some "hello"%string)]).
Proof. apply (@page_voice_turn_speaks_any_reply PW WW CF ST0 REC [1; 2]%Z "hi there" (Some "hello"%string)); reflexivity. Defined.

Lemma page_text_turn_appends_pair_witness :
  ps_messages (fst (fst (@page_run PW WW CF ST0 TXT))) =
    Some ([] ++ [mk_chat_entry "user" (Some "hi"%string);
                 mk_chat_entry "assistant"
                   (match @chat_api PW (chat_request "hi") with Some c => c | None => Some ERROR_MSG end)]) /\
  List.filter is_call (fst (@text_tab PW TXT (ps_messages ST0))) = [OCallChat (chat_request "hi")].
Proof. apply (@page_text_turn_appends_pair PW WW CF ST0 TXT "hi"); reflexivity. Defined.

Lemma page_clear_resets_witness :
  ps_messages (fst (@interact PW WW CF ST0 (mk_page_input None (Some [1; 2]%Z) true))) = Some [] /\
  (in_audio (mk_page_input None (Some [1; 2]%Z) true) = None ->
     ps_voice_messages (fst (@interact PW WW CF ST0 (mk_page_input None (Some [1; 2]%Z) true))) = Some []) /\
  (forall b t c, in_audio (mk_page_input None (Some [1; 2]%Z) true) = Some b -> is_nonempty b = true ->
     @transcribe_bytes_api WW b = Some t -> str_truthy t = true -> @chat_api PW (chat_request t) = Some c ->
     ps_voice_messages (fst (@interact PW WW CF ST0 (mk_page_input None (Some [1; 2]%Z) true))) =
       Some [mk_voice_entry t c]).
Proof. apply (@page_clear_resets PW WW CF ST0 (mk_page_input None (Some [1; 2]%Z) true)). reflexivity. Defined.

End ElevenlabsPage.
