(* ===== verification/Config.v ===== *)
(** * Config: the configuration read from the process environment

    src/app.py lines 16-20 read the credentials after [load_dotenv()]
    has copied [.env] into the environment, and build the OpenAI client
    ([Bot.load_env], run by [Session.main]).  [page_config_of] does the
    same for src/app_elevenlabs.py lines 15-20.  [load_dotenv] itself
    belongs to the python-dotenv library and is not modelled: the
    environment here is the one after it ran.

    The theorem shows what becomes of unset credentials in the terminal
    bot: neither is reported.  An unset [OPENAI_API_KEY] makes the client
    constructor raise while the module is imported; an unset
    [DEEPGRAM_API_KEY] is sent to Deepgram as ["Token None"]. *)

From stdpp Require Import base list strings gmap.
From Stdlib Require Import ZArith.
From S2P Require Import Prelude Persona Providers Bot Pipeline Speech Session Page.

(** src/app_elevenlabs.py lines 15-20: [OPENAI_API_KEY],
    [ELEVENLABS_API_KEY = os.getenv("ELEVENLABS_API_KEY")] and
    [ELEVENLABS_VOICE_ID = os.getenv("ELEVENLABS_VOICE_ID", "")], then
    [openai_client = OpenAI(api_key=OPENAI_API_KEY)], which raises when
    [OPENAI_API_KEY] is unset: every run of the script then stops there
    ([None]).  The voice id is exact.  An unset ElevenLabs key is [None]
    in Python and the empty string here.  Both are falsy for the check of
    line 23.  In the request header, however, Python's [None] drops the
    header, where [""] would send it empty. *)
Definition page_config_of (environ : gmap string string) : option ElevenlabsPage.page_config :=
  match environ !! "OPENAI_API_KEY"%string with
  | None => None
  | Some _ =>
      Some (ElevenlabsPage.mk_page_config
              (default EmptyString (environ !! "ELEVENLABS_API_KEY"%string))
              (default EmptyString (environ !! "ELEVENLABS_VOICE_ID"%string)))
  end.

Section ConfigClaims.
Context `{Providers}.

(** C37: error and spec divergence.  The terminal bot does not report
    missing credentials at start-up, as the spec asks.  With
    [DEEPGRAM_API_KEY] unset:
    - if [OPENAI_API_KEY] is unset too, [openai.OpenAI()] of line 20
      raises [OpenAIError] before anything is printed (a traceback, not a
      report);
    - if it is set, the start-up is silent ([main] is [bot.run()] on a
      fresh bot), and every synthesis request of the session carries the
      header ["Token None"]. *)
Theorem unset_keys_at_startup environ fuel w text :
  environ !! "DEEPGRAM_API_KEY"%string = None ->
  (environ !! "OPENAI_API_KEY"%string = None -> main environ true fuel w = (Raise OpenAIError, w)) /\
  (environ !! "OPENAI_API_KEY"%string <> None ->
   exists e, main environ true fuel w = run fuel (set_bot bot_init (set_env e w)) /\
     forall w', w_env w' = e ->
       exists req, List.filter is_milestone (new_events w' (snd (text_to_speech text w'))) = [EvSpeak req] /\
                   sp_authorization req = "Token None"%string).
Proof.
  intros Hd. split.
  - intros Ho. unfold main, load_env. world_simpl. rewrite Ho. reflexivity.
  - intros Ho. destruct (environ !! "OPENAI_API_KEY"%string) as [k|] eqn:Ek; [|done].
    exists (mk_env (mic (w_env w)) (aplay_ok (w_env w)) (mic_ok (w_env w)) k "None"). split.
    + unfold main, load_env. world_simpl. rewrite Ek, Hd. reflexivity.
    + intros w' Hw'. destruct (text_to_speech_run text w') as (evs & -> & Hm).
      cbn [snd]. rewrite new_events_add_events_bot, Hm.
      eexists; split; [reflexivity|]. rewrite Hw'. reflexivity.
Qed.
End ConfigClaims.

(** ** Witness *)

(** Only the OpenAI key is set. *)
Lemma unset_keys_at_startup_witness :
  let P := demo_providers None None None ElError in
  let environ : gmap string string := {[ "OPENAI_API_KEY"%string := "sk-demo"%string ]} in
  exists e, @main P environ true 3 (demo_world []) = @run P 3 (set_bot bot_init (set_env e (demo_world []))) /\
    forall w', w_env w' = e ->
      exists req, List.filter is_milestone (new_events w' (snd (@text_to_speech P "hi"%string w'))) =
                  [EvSpeak req] /\ sp_authorization req = "Token None"%string.
Proof.
  apply (@unset_keys_at_startup (demo_providers None None None ElError)
           {[ "OPENAI_API_KEY"%string := "sk-demo"%string ]} 3 (demo_world []) "hi"%string);
    vm_compute; [reflexivity | discriminate].
Defined.
